(** * The USB command parser of the Mooltipass firmware

    A shallow embedding of [src/USB/usb_cmd_parser.c]: the password check
    [checkMooltipassPassword], the text field check [checkTextField] and the
    packet dispatcher [usbProcessIncoming], followed by the properties of the
    dispatcher that the specification states.

    The parser is one C function over five file-level globals that calls into
    the rest of the firmware (USB transport, smartcard, GUI, node management,
    flash, EEPROM, timers).  The globals are an explicit record threaded
    through the code; every call out of the file is a node of a program tree,
    answered by an environment and recorded in a trace.  The constants of the
    firmware's headers are a parameter.

    The last sections hold properties of the dispatcher that are read off
    the code alone (what every call of it does, whatever the packet and
    whatever the rest of the firmware answers), and a model of the touch
    sensor functions of [touch_higher_level_functions.c]. *)

From Stdlib Require Import ZArith List Bool Lia.
Import ListNotations.
Local Open Scope Z_scope.

(* ===================================================================== *)
(** ** Bytes, words and C strings *)
(* ===================================================================== *)

(** [uint8_t] and [uint16_t] values are integers with the wrap-around written
    out where the C code converts. *)
Definition uint8 (x : Z) : Z := x mod 256.
Definition uint16 (x : Z) : Z := x mod 65536.


(** [data[i]] on a buffer. *)
Definition byte_at (data : list Z) (i : nat) : Z := nth i data 0.

(** [*(uint16_t* )&data[i]] on the little-endian AVR. *)
Definition word_at (data : list Z) (i : nat) : Z :=
  byte_at data i + 256 * byte_at data (S i).

(** Storing a 16 bit word at [&data[i]]. *)
Fixpoint store_word (data : list Z) (i : nat) (v : Z) : list Z :=
  match i, data with
  | O, _ :: _ :: rest => (v mod 256) :: (v / 256) :: rest
  | O, _ => data
  | S j, x :: rest => x :: store_word rest j v
  | S _, [] => []
  end.

(** [strlen]: the number of bytes before the first zero byte.  On a buffer
    that holds no zero byte the count is the length of the buffer, where the
    C function would read on past its end.  [checkTextField] refuses a
    declared length above [RAWHID_RX_SIZE - HID_DATA_START], the size of the
    body of a received packet: on such a body a count that reaches its end
    is refused, whatever lies behind it. *)
Fixpoint strlen (s : list Z) : Z :=
  match s with
  | [] => 0
  | c :: t => if c =? 0 then 0 else 1 + strlen t
  end.

(** [tolower] of the C locale. *)
Definition tolower (c : Z) : Z :=
  if (65 <=? c) && (c <=? 90) then c + 32 else c.

(** [memcmp] as avr-libc computes it: the difference of the first pair of
    bytes that differ, zero when there is none in the first [n] bytes. *)
Fixpoint memcmp (a b : list Z) (n : nat) : Z :=
  match n with
  | O => 0
  | S m =>
      let x := hd 0 a in
      let y := hd 0 b in
      if x =? y then memcmp (tl a) (tl b) m else x - y
  end.

(** [memcpy(dst + off, src, n)]. *)
Definition memcpy_at (dst : list Z) (off : nat) (src : list Z) (n : nat) : list Z :=
  firstn off dst ++ firstn n src ++ skipn (off + n) dst.

(* ===================================================================== *)
(** ** The constants of the headers *)
(* ===================================================================== *)

(** The protocol commands the parser names.  Their byte values come from
    [usb_cmd_parser.h], which is not among the sources: [cmd_code] below
    is a parameter. *)
Inductive cmd_name : Set :=
| CANCEL_REQUEST | PING | VERSION | CONTEXT | SET_DATA_SERVICE | GET_LOGIN
| GET_PASSWORD | GET_DESCRIPTION | SET_LOGIN | SET_PASSWORD | CHECK_PASSWORD
| ADD_CONTEXT | ADD_DATA_SERVICE | WRITE_32B_IN_DN | READ_32B_IN_DN
| START_MEMORYMGMT | GET_STARTING_PARENT | GET_DN_START_PARENT
| GET_FREE_SLOTS_ADDR | END_MEMORYMGMT | READ_FLASH_NODE | SET_FAVORITE
| GET_FAVORITE | SET_STARTING_PARENT | SET_DN_START_PARENT | SET_CTRVALUE
| GET_CTRVALUE | ADD_CARD_CPZ_CTR | GET_CARD_CPZ_CTR | WRITE_FLASH_NODE
| IMPORT_MEDIA_START | IMPORT_MEDIA | IMPORT_MEDIA_END | SET_MOOLTIPASS_PARM
| GET_MOOLTIPASS_PARM | GET_CUR_CARD_CPZ | RESET_CARD | UNLOCK_WITH_PIN
| ADD_UNKNOWN_CARD | READ_CARD_LOGIN | READ_CARD_PASS | SET_CARD_LOGIN
| SET_CARD_PASS | GET_RANDOM_NUMBER | SET_DATE | SET_UID | GET_UID
| SET_BOOTLOADER_PWD | JUMP_TO_BOOTLOADER | ERASE_EEPROM | ERASE_FLASH
| ERASE_SMC | DRAW_BITMAP | CLONE_SMARTCARD | MINI_FRAME_BUF_DATA | SET_FONT
| STACK_FREE | USB_KEYBOARD_PRESS | MOOLTIPASS_STATUS.

Definition cmd_name_eqb (a b : cmd_name) : bool :=
  match a, b with
  | CANCEL_REQUEST, CANCEL_REQUEST | PING, PING | VERSION, VERSION
  | CONTEXT, CONTEXT | SET_DATA_SERVICE, SET_DATA_SERVICE
  | GET_LOGIN, GET_LOGIN | GET_PASSWORD, GET_PASSWORD
  | GET_DESCRIPTION, GET_DESCRIPTION | SET_LOGIN, SET_LOGIN
  | SET_PASSWORD, SET_PASSWORD | CHECK_PASSWORD, CHECK_PASSWORD
  | ADD_CONTEXT, ADD_CONTEXT | ADD_DATA_SERVICE, ADD_DATA_SERVICE
  | WRITE_32B_IN_DN, WRITE_32B_IN_DN | READ_32B_IN_DN, READ_32B_IN_DN
  | START_MEMORYMGMT, START_MEMORYMGMT
  | GET_STARTING_PARENT, GET_STARTING_PARENT
  | GET_DN_START_PARENT, GET_DN_START_PARENT
  | GET_FREE_SLOTS_ADDR, GET_FREE_SLOTS_ADDR
  | END_MEMORYMGMT, END_MEMORYMGMT | READ_FLASH_NODE, READ_FLASH_NODE
  | SET_FAVORITE, SET_FAVORITE | GET_FAVORITE, GET_FAVORITE
  | SET_STARTING_PARENT, SET_STARTING_PARENT
  | SET_DN_START_PARENT, SET_DN_START_PARENT
  | SET_CTRVALUE, SET_CTRVALUE | GET_CTRVALUE, GET_CTRVALUE
  | ADD_CARD_CPZ_CTR, ADD_CARD_CPZ_CTR | GET_CARD_CPZ_CTR, GET_CARD_CPZ_CTR
  | WRITE_FLASH_NODE, WRITE_FLASH_NODE
  | IMPORT_MEDIA_START, IMPORT_MEDIA_START | IMPORT_MEDIA, IMPORT_MEDIA
  | IMPORT_MEDIA_END, IMPORT_MEDIA_END
  | SET_MOOLTIPASS_PARM, SET_MOOLTIPASS_PARM
  | GET_MOOLTIPASS_PARM, GET_MOOLTIPASS_PARM
  | GET_CUR_CARD_CPZ, GET_CUR_CARD_CPZ | RESET_CARD, RESET_CARD
  | UNLOCK_WITH_PIN, UNLOCK_WITH_PIN | ADD_UNKNOWN_CARD, ADD_UNKNOWN_CARD
  | READ_CARD_LOGIN, READ_CARD_LOGIN | READ_CARD_PASS, READ_CARD_PASS
  | SET_CARD_LOGIN, SET_CARD_LOGIN | SET_CARD_PASS, SET_CARD_PASS
  | GET_RANDOM_NUMBER, GET_RANDOM_NUMBER | SET_DATE, SET_DATE
  | SET_UID, SET_UID | GET_UID, GET_UID
  | SET_BOOTLOADER_PWD, SET_BOOTLOADER_PWD
  | JUMP_TO_BOOTLOADER, JUMP_TO_BOOTLOADER | ERASE_EEPROM, ERASE_EEPROM
  | ERASE_FLASH, ERASE_FLASH | ERASE_SMC, ERASE_SMC
  | DRAW_BITMAP, DRAW_BITMAP | CLONE_SMARTCARD, CLONE_SMARTCARD
  | MINI_FRAME_BUF_DATA, MINI_FRAME_BUF_DATA | SET_FONT, SET_FONT
  | STACK_FREE, STACK_FREE | USB_KEYBOARD_PRESS, USB_KEYBOARD_PRESS
  | MOOLTIPASS_STATUS, MOOLTIPASS_STATUS => true
  | _, _ => false
  end.

(** Every command name, in the order of the parser's [switch]; the status
    command, which the [switch] has no label for, comes last. *)
Definition all_cmd_names : list cmd_name :=
  [ CANCEL_REQUEST; PING; VERSION; CONTEXT; SET_DATA_SERVICE; GET_LOGIN;
    GET_PASSWORD; GET_DESCRIPTION; SET_LOGIN; SET_PASSWORD; CHECK_PASSWORD;
    ADD_CONTEXT; ADD_DATA_SERVICE; WRITE_32B_IN_DN; READ_32B_IN_DN;
    START_MEMORYMGMT; GET_STARTING_PARENT; GET_DN_START_PARENT;
    GET_FREE_SLOTS_ADDR; END_MEMORYMGMT; READ_FLASH_NODE; SET_FAVORITE;
    GET_FAVORITE; SET_STARTING_PARENT; SET_DN_START_PARENT; SET_CTRVALUE;
    GET_CTRVALUE; ADD_CARD_CPZ_CTR; GET_CARD_CPZ_CTR; WRITE_FLASH_NODE;
    IMPORT_MEDIA_START; IMPORT_MEDIA; IMPORT_MEDIA_END; SET_MOOLTIPASS_PARM;
    GET_MOOLTIPASS_PARM; GET_CUR_CARD_CPZ; RESET_CARD; UNLOCK_WITH_PIN;
    ADD_UNKNOWN_CARD; READ_CARD_LOGIN; READ_CARD_PASS; SET_CARD_LOGIN;
    SET_CARD_PASS; GET_RANDOM_NUMBER; SET_DATE; SET_UID; GET_UID;
    SET_BOOTLOADER_PWD; JUMP_TO_BOOTLOADER; ERASE_EEPROM; ERASE_FLASH;
    ERASE_SMC; DRAW_BITMAP; CLONE_SMARTCARD; MINI_FRAME_BUF_DATA; SET_FONT;
    STACK_FREE; USB_KEYBOARD_PRESS; MOOLTIPASS_STATUS ].

(** The preprocessor symbols the parser tests. *)
Class build : Set := {
  USB_FEATURE_PLUGIN_COMMS : bool;
  DEV_PLUGIN_COMMS : bool;
  AVR_BOOTLOADER_PROGRAMMING : bool;
  MINI_VERSION : bool;
  MINI_PREPRODUCTION_SETUP : bool;
  MINI_PREPRODUCTION_SETUP_ACC : bool;
  POST_KICKSTARTER_UPDATE_SETUP : bool;
  HARDWARE_OLIVIER_V1 : bool
}.

(** The macros, enum values and inline address helpers of the headers the
    parser includes.  None of these headers is among the sources, so the
    values are a parameter of the whole development. *)
Class defines : Type := {
  cmd_code : cmd_name -> Z;
  FIRST_CMD_FOR_DATAMGMT : Z;
  LAST_CMD_FOR_DATAMGMT : Z;
  (* booleans and return codes *)
  TRUE : Z;
  FALSE : Z;
  RETURN_OK : Z;
  RETURN_NOK : Z;
  RETURN_COM_TRANSF_OK : Z;
  RETURN_PASS_CHECK_NOK : Z;
  RETURN_PASS_CHECK_OK : Z;
  RETURN_MOOLTIPASS_USER : Z;
  RETURN_VCARD_OK : Z;
  TIMER_RUNNING : Z;
  (* answers to the plugin *)
  PLUGIN_BYTE_ERROR : Z;
  PLUGIN_BYTE_OK : Z;
  PLUGIN_BYTE_NOCARD : Z;
  PLUGIN_BYTE_NA : Z;
  (* callers, screens, strings, timers *)
  USB_CALLER_PIN : Z;
  SCREEN_DEFAULT_INSERTED_UNKNOWN : Z;
  SCREEN_DEFAULT_INSERTED_LCK : Z;
  SCREEN_DEFAULT_INSERTED_NLCK : Z;
  SCREEN_DEFAULT_INSERTED_INVALID : Z;
  SCREEN_MEMORY_MGMT : Z;
  ID_STRING_MEMORYMGMTQ : Z;
  ID_STRING_WARNING : Z;
  ID_STRING_ALLOW_UPDATE : Z;
  ID_STRING_PIN_COMPUTER : Z;
  ID_STRING_SEND_SMC_PASS : Z;
  ID_STRING_SET_SMC_LOGIN : Z;
  ID_STRING_SET_SMC_PASS : Z;
  TIMER_CREDENTIALS : Z;
  (* sizes *)
  RAWHID_RX_SIZE : Z;
  RAWHID_TX_SIZE : Z;
  HID_DATA_START : Z;
  PACKET_EXPORT_SIZE : Z;
  NODE_SIZE : Z;
  NODE_PARENT_SIZE_OF_SERVICE : Z;
  NODE_CHILD_SIZE_OF_LOGIN : Z;
  NODE_CHILD_SIZE_OF_PASSWORD : Z;
  DATA_NODE_BLOCK_SIZ : Z;
  USER_CTR_SIZE : Z;
  SMARTCARD_MTP_LOGIN_LENGTH : Z;
  SMARTCARD_MTP_PASS_LENGTH : Z;
  SMARTCARD_MTP_LOGIN_OFFSET : Z;
  SMARTCARD_MTP_PASS_OFFSET : Z;
  SMARTCARD_AZ_BIT_LENGTH : Z;
  SMARTCARD_CPZ_LENGTH : Z;
  SMARTCARD_DEFAULT_PIN : Z;
  AES256_CTR_LENGTH : Z;
  AES_KEY_LENGTH : Z;
  UID_REQUEST_KEY_SIZE : Z;
  UID_SIZE : Z;
  BYTES_PER_PAGE : Z;
  GRAPHIC_ZONE_PAGE_START : Z;
  GRAPHIC_ZONE_PAGE_END : Z;
  (* node addresses *)
  NODE_ADDR_NULL : Z;
  pageNumberFromAddress : Z -> Z;
  nodeNumberFromAddress : Z -> Z;
  SERVICE_CRED_TYPE : Z;
  SERVICE_DATA_TYPE : Z;
  (* EEPROM layout and keys *)
  EEP_BOOT_PWD_SET : Z;
  EEP_BOOT_PWD : Z;
  EEP_BOOTKEY_ADDR : Z;
  EEP_BACKUP_BOOTKEY_ADDR : Z;
  EEP_UID_REQUEST_KEY_SET_ADDR : Z;
  EEP_UID_REQUEST_KEY_ADDR : Z;
  EEP_UID_ADDR : Z;
  BOOTLOADER_PWDOK_KEY : Z;
  BOOTLOADER_BOOTKEY : Z;
  CORRECT_BOOTKEY : Z;
  UID_REQUEST_KEY_OK_KEY : Z;
  (* parameters *)
  LOCK_TIMEOUT_ENABLE_PARAM : Z;
  WHEEL_DIRECTION_REVERSE_PARAM : Z;
  MINI_OLED_CONTRAST_CURRENT_PARAM : Z;
  (* FLASH_CHIP_STR "" MOOLTIPASS_VERSION, with its terminating zero *)
  mooltipass_version : list Z
}.

(* ===================================================================== *)
(** ** Calls out of the file *)
(* ===================================================================== *)

(** The received buffer seen through [usbMsg_t]: the length byte, the
    command byte and the body. *)
Record usbMsg : Set := {
  len : Z;
  cmd : Z;
  body : list Z
}.

(** One constructor per function of the rest of the firmware (or of
    avr-libc) that the parser calls, with the values of its arguments.  A
    pointer argument is the content it points to; what a function writes
    through a pointer is part of its answer. *)
Inductive call : Type :=
(* USB transport *)
| usbRawHidRecv
| usbSendMessage (c size : Z) (msg : list Z)
| usbHidSend (c : Z) (msg : usbMsg) (size : Z)
| usbKeyboardPress (key modifier : Z)
| usbPrintf_P (arg : Z)
(* smartcard and session state *)
| isSmartCardAbsent
| getSmartCardInsertedUnlocked
| setSmartCardInsertedUnlocked
| cardDetectedRoutine
| validCardDetectedFunction (pin : Z)
| removeCardAndReAuthUser
| eraseSmartCard
| cloneSmartCardProcess (pin : Z)
| readCodeProtectedZone
| readAES256BitsKey
| readMooltipassWebsiteLogin
| readMooltipassWebsitePassword
| readApplicationZone1
| readApplicationZone2
| writeApplicationZone1 (buf : list Z)
| writeApplicationZone2 (buf : list Z)
| eraseApplicationZone1NZone2SMC (zone1 : Z)
| writeSmartCardCPZForUserId (cpz nonce : list Z) (uid : Z)
| addNewUserForExistingCard (nonce : list Z)
| initUserFlashContext (uid : Z)
| initEncryptionHandling (key nonce : list Z)
(* GUI *)
| getCurrentScreen
| guiSetCurrentScreen (screen : Z)
| guiGetBackToCurrentScreen
| guiAskForConfirmation (nb_args : Z) (text : list (list Z))
| guiCardUnlockingProcess
| readStoredStringToBuffer (id : Z)
| activityDetectedRoutine
| userViewDelay
| oledWriteActiveBuffer
| oledDisplayOtherBuffer
| oledClear
| oledBitmapDrawFlash (x y file options : Z)
| oledSetFont (font : Z)
| oledPutstr (s : list Z)
| miniOledSetContrastCurrent (v : Z)
| miniOledWriteFrameBuffer (offset : Z) (data : list Z) (n : Z)
(* contexts and node management *)
| populateServicesLut
| scanNodeUsage
| setCurrentContext (name : list Z) (type : Z)
| addNewContext (name : list Z) (length type : Z)
| getLoginForContext
| getPasswordForContext
| getDescriptionForContext
| setLoginForContext (data : list Z) (length : Z)
| setPasswordForContext (data : list Z) (length : Z)
| checkPasswordForContext (data : list Z)
| addDataForDataContext (data : list Z) (last_packet_flag : Z)
| get32BytesDataForCurrentService
| getStartingParentAddress
| getStartingDataParentAddress
| setStartingParent (addr : Z)
| setDataStartingParent (addr : Z)
| findFreeNodes (nbNodes startPage startNode : Z)
| checkUserPermission (addr : Z)
| readNode (addr : Z)
| setFav (favId parentAddr childAddr : Z)
| readFav (favId : Z)
| setProfileCtr (buf : list Z)
| readProfileCtr
| getCurrentUserID
| outputLUTEntriesForGivenUser (uid : Z)
| userIdToFlags (flags uid : Z)
| setCurrentDate (date : Z)
(* flash staging buffer *)
| loadPageToInternalBuffer (page : Z)
| flashWriteBuffer (data : list Z) (offset size : Z)
| flashWriteBufferToPage (page : Z)
| eraseFlashUsersContents
| firstTimeUserHandlingInit
(* EEPROM and parameters *)
| eeprom_read_byte (addr : Z)
| eeprom_read_block (addr n : Z)
| eeprom_write_byte (addr v : Z)
| eeprom_write_word (addr v : Z)
| eeprom_write_block (data : list Z) (addr n : Z)
| setMooltipassParameterInEeprom (param v : Z)
| getMooltipassParameterInEeprom (param : Z)
| write_mp_timeout_enabled (v : Z)
| write_wheel_reverse_bool (v : Z)
(* timers, interrupts, watchdog, misc *)
| activateTimer (timer ms : Z)
| hasTimerExpired (timer clear : Z)
| fillArrayWithRandomBytes (n : Z)
| stackFree
| cli
| sei
| wdt_reset
| wdt_clear_flag
| wdt_change_enable
| wdt_enable_2s.

(** What a call gives back to the parser: nothing it reads, a scalar, a
    filled buffer, or both.  [readFav] fills two words; [usbRawHidRecv]
    fills the receive buffer. *)
Definition answer (c : call) : Type :=
  match c with
  | usbRawHidRecv => (Z * usbMsg)%type
  | isSmartCardAbsent | getSmartCardInsertedUnlocked | cardDetectedRoutine
  | validCardDetectedFunction _ | removeCardAndReAuthUser
  | cloneSmartCardProcess _ | writeSmartCardCPZForUserId _ _ _
  | getCurrentScreen | guiAskForConfirmation _ _ | guiCardUnlockingProcess
  | setCurrentContext _ _ | addNewContext _ _ _ | setLoginForContext _ _
  | setPasswordForContext _ _ | checkPasswordForContext _
  | addDataForDataContext _ _ | getStartingParentAddress
  | getStartingDataParentAddress | checkUserPermission _ | getCurrentUserID
  | userIdToFlags _ _ | eeprom_read_byte _
  | getMooltipassParameterInEeprom _ | hasTimerExpired _ _ | stackFree => Z
  | readCodeProtectedZone | readAES256BitsKey | readMooltipassWebsiteLogin
  | readMooltipassWebsitePassword | readApplicationZone1
  | readApplicationZone2 | readStoredStringToBuffer _ | readNode _
  | readProfileCtr | eeprom_read_block _ _
  | fillArrayWithRandomBytes _ => list Z
  | getLoginForContext | getPasswordForContext | getDescriptionForContext
  | get32BytesDataForCurrentService | findFreeNodes _ _ _ => (Z * list Z)%type
  | addNewUserForExistingCard _ => (Z * Z)%type
  | readFav _ => (Z * Z)%type
  | _ => unit
  end.

(* ===================================================================== *)
(** ** Programs *)
(* ===================================================================== *)

(** A run of C code of this file: it returns, it calls out and goes on with
    the answer, it enters [while(1);] with the watchdog armed ([Hang]), or
    the model's bound on a busy wait is used up ([Starve]). *)
Inductive prog (R : Type) : Type :=
| Ret (r : R)
| Call (c : call) (k : answer c -> prog R)
| Hang
| Starve.

Arguments Ret {R} r.
Arguments Call {R} c k.
Arguments Hang {R}.
Arguments Starve {R}.

Fixpoint bind {A B : Type} (p : prog A) (f : A -> prog B) : prog B :=
  match p with
  | Ret a => f a
  | Call c k => Call c (fun x => bind (k x) f)
  | Hang => Hang
  | Starve => Starve
  end.

Definition do_call (c : call) : prog (answer c) := Call c Ret.

Declare Scope prog_scope.
Delimit Scope prog_scope with prog.
Notation "x <- p ;; q" := (bind p (fun x => q))
  (at level 61, p at next level, right associativity) : prog_scope.
Notation "' pat <- p ;; q" := (bind p (fun x => match x with pat => q end))
  (at level 61, pat pattern, p at next level, right associativity) : prog_scope.
Notation "p ;; q" := (bind p (fun _ => q))
  (at level 61, right associativity) : prog_scope.
Notation "'call!' c" := (do_call c) (at level 10, c at level 9) : prog_scope.
Local Open Scope prog_scope.

(** How a run ends. *)
Inductive final (R : Type) : Type :=
| Returned (r : R)
| Hung
| Starved.

Arguments Returned {R} r.
Arguments Hung {R}.
Arguments Starved {R}.

(** The rest of the firmware: a state [W] and, for every call, the answer
    and the state after it. *)
Definition environment (W : Type) : Type := forall c : call, W -> answer c * W.

Record result (W R : Type) : Type := {
  outcome : final R;
  world : W;
  trace : list call
}.

Arguments outcome {W R} r.
Arguments world {W R} r.
Arguments trace {W R} r.

(** Running a program in an environment: the answers come from the
    environment, and the calls are recorded in the order they are made. *)
Fixpoint run {W R : Type} (env : environment W) (p : prog R) (w : W) : result W R :=
  match p with
  | Ret r => {| outcome := Returned r; world := w; trace := [] |}
  | Hang => {| outcome := Hung; world := w; trace := [] |}
  | Starve => {| outcome := Starved; world := w; trace := [] |}
  | Call c k =>
      let aw := env c w in
      let r := run env (k (fst aw)) (snd aw) in
      {| outcome := outcome r; world := world r; trace := c :: trace r |}
  end.

(** Short-circuit [&&] and [||] whose right operand calls out: the right
    operand runs only when the left one does not decide. *)
Definition and_then (a : bool) (b : prog bool) : prog bool :=
  if a then b else Ret false.
Definition or_else (a : bool) (b : prog bool) : prog bool :=
  if a then Ret true else b.

(** A 16 bit word as the two bytes it occupies. *)
Definition word_bytes (v : Z) : list Z := [v mod 256; v / 256].

(* ===================================================================== *)
(** ** The parser *)
(* ===================================================================== *)

(** The globals of the file. *)
Record globals : Set := {
  memoryManagementModeApproved : Z;
  mediaFlashImportApproved : Z;
  currentNodeWritten : Z;
  mediaFlashImportPage : Z;
  mediaFlashImportOffset : Z
}.

Definition set_memoryManagementModeApproved (v : Z) (g : globals) : globals :=
  {| memoryManagementModeApproved := v;
     mediaFlashImportApproved := mediaFlashImportApproved g;
     currentNodeWritten := currentNodeWritten g;
     mediaFlashImportPage := mediaFlashImportPage g;
     mediaFlashImportOffset := mediaFlashImportOffset g |}.

Definition set_mediaFlashImportApproved (v : Z) (g : globals) : globals :=
  {| memoryManagementModeApproved := memoryManagementModeApproved g;
     mediaFlashImportApproved := v;
     currentNodeWritten := currentNodeWritten g;
     mediaFlashImportPage := mediaFlashImportPage g;
     mediaFlashImportOffset := mediaFlashImportOffset g |}.

Definition set_currentNodeWritten (v : Z) (g : globals) : globals :=
  {| memoryManagementModeApproved := memoryManagementModeApproved g;
     mediaFlashImportApproved := mediaFlashImportApproved g;
     currentNodeWritten := v;
     mediaFlashImportPage := mediaFlashImportPage g;
     mediaFlashImportOffset := mediaFlashImportOffset g |}.

Definition set_mediaFlashImportPage (v : Z) (g : globals) : globals :=
  {| memoryManagementModeApproved := memoryManagementModeApproved g;
     mediaFlashImportApproved := mediaFlashImportApproved g;
     currentNodeWritten := currentNodeWritten g;
     mediaFlashImportPage := v;
     mediaFlashImportOffset := mediaFlashImportOffset g |}.

Definition set_mediaFlashImportOffset (v : Z) (g : globals) : globals :=
  {| memoryManagementModeApproved := memoryManagementModeApproved g;
     mediaFlashImportApproved := mediaFlashImportApproved g;
     currentNodeWritten := currentNodeWritten g;
     mediaFlashImportPage := mediaFlashImportPage g;
     mediaFlashImportOffset := v |}.

(** How a [case] of the dispatcher's [switch] ends: with [return], or with
    [break] and the value of [plugin_return_value] for the common trailer. *)
Inductive exit : Set :=
| ReturnNow
| Break (plugin_return_value : Z).

Section Parser.

Context {B : build} {D : defines}.

Local Abbreviation CMD := cmd_code.

(** The initial values of the globals. *)
Definition initial_globals : globals :=
  {| memoryManagementModeApproved := FALSE;
     mediaFlashImportApproved := FALSE;
     currentNodeWritten := NODE_ADDR_NULL;
     mediaFlashImportPage := 0;
     mediaFlashImportOffset := 0 |}.

(** *** checkMooltipassPassword *)

(** [while (hasTimerExpired(TIMER_CREDENTIALS, FALSE) == TIMER_RUNNING);]
    with at most [fuel] polls. *)
Fixpoint wait_credential_timer (fuel : nat) : prog unit :=
  match fuel with
  | O => Starve
  | S n =>
      r <- call! (hasTimerExpired TIMER_CREDENTIALS FALSE) ;;
      if r =? TIMER_RUNNING then wait_credential_timer n else Ret tt
  end.

(** The body of [checkMooltipassPassword], giving the return value together
    with the content of the local buffer [mooltipass_password] at the
    [return].  [eeprom_read_block] fills the first [length] bytes of the
    buffer, the only ones [memcmp] reads; the comparison result is stored in
    a [uint8_t]. *)
Definition checkMooltipassPassword_locals (fuel : nat) (data : list Z)
    (addr length : Z) : prog (Z * list Z) :=
  mooltipass_password <- call! (eeprom_read_block addr length) ;;
  call! (activateTimer TIMER_CREDENTIALS 1000) ;;
  let password_comparison_result :=
    uint8 (memcmp mooltipass_password data (Z.to_nat length)) in
  wait_credential_timer fuel ;;
  let mooltipass_password := repeat 0 (Z.to_nat PACKET_EXPORT_SIZE) in
  if password_comparison_result =? 0
  then Ret (TRUE, mooltipass_password)
  else Ret (FALSE, mooltipass_password).

Definition checkMooltipassPassword (fuel : nat) (data : list Z)
    (addr length : Z) : prog Z :=
  r <- checkMooltipassPassword_locals fuel data addr length ;;
  Ret (fst r).

(** *** leaveMemoryManagementMode, lowerCaseString, checkTextField *)

Definition leaveMemoryManagementMode (g : globals) : globals :=
  set_memoryManagementModeApproved FALSE g.

Fixpoint lowerCaseString (data : list Z) : list Z :=
  match data with
  | [] => []
  | c :: t => if c =? 0 then c :: t else tolower c :: lowerCaseString t
  end.

(** The return value and the buffer [data] points to after the call. *)
Definition checkTextField (data : list Z) (len max_len : Z) : Z * list Z :=
  if (len >? max_len) || (len =? 0) || negb (len =? strlen data + 1)
     || (len >? RAWHID_RX_SIZE - HID_DATA_START)
  then (RETURN_NOK, data)
  else
    if max_len =? NODE_PARENT_SIZE_OF_SERVICE
    then (RETURN_OK, lowerCaseString data)
    else (RETURN_OK, data).

(** *** usbProcessIncoming: the stages before the switch *)

(** The status byte of the first stage. *)
Definition mp_status_byte (caller_id absent unlocked screen : Z) : Z :=
  let mp_status := 0 in
  let mp_status := if absent =? RETURN_NOK then Z.lor mp_status 1 else mp_status in
  let mp_status := if caller_id =? USB_CALLER_PIN then Z.lor mp_status 2 else mp_status in
  let mp_status := if unlocked =? TRUE then Z.lor mp_status 4 else mp_status in
  let mp_status := if screen =? SCREEN_DEFAULT_INSERTED_UNKNOWN then Z.lor mp_status 8 else mp_status in
  mp_status.

(** [text_field_check_needed] and [max_text_size] (a [uint8_t]): [None] when
    no check is needed. *)
Definition max_text_size (datacmd : Z) : option Z :=
  if (datacmd =? CMD CONTEXT) || (datacmd =? CMD ADD_CONTEXT)
     || (datacmd =? CMD SET_DATA_SERVICE) || (datacmd =? CMD ADD_DATA_SERVICE)
  then Some (uint8 NODE_PARENT_SIZE_OF_SERVICE)
  else if datacmd =? CMD SET_LOGIN
  then Some (uint8 NODE_CHILD_SIZE_OF_LOGIN)
  else if (datacmd =? CMD SET_PASSWORD) || (datacmd =? CMD CHECK_PASSWORD)
  then Some (uint8 NODE_CHILD_SIZE_OF_PASSWORD)
  else if datacmd =? CMD SET_CARD_LOGIN
  then Some (uint8 (Z.quot SMARTCARD_MTP_LOGIN_LENGTH 8))
  else if datacmd =? CMD SET_CARD_PASS
  then Some (uint8 (Z.quot SMARTCARD_MTP_PASS_LENGTH 8))
  else None.

Definition in_datamgmt_range (datacmd : Z) : bool :=
  (datacmd >=? FIRST_CMD_FOR_DATAMGMT) && (datacmd <=? LAST_CMD_FOR_DATAMGMT).

(** *** usbProcessIncoming: the cases of the switch

    Each case takes the received message (after the text field check, which
    may have lower-cased its body) and the globals, and gives how the case
    ends and the globals then. *)

Definition break_with (v : Z) (g : globals) : prog (exit * globals) :=
  Ret (Break v, g).
Definition return_now (g : globals) : prog (exit * globals) :=
  Ret (ReturnNow, g).

Definition case_CANCEL_REQUEST (msg : usbMsg) (g : globals) :=
  (* We never answer cancel requests *)
  return_now g.

Definition case_PING (msg : usbMsg) (g : globals) :=
  call! (usbHidSend 0 msg 6) ;;
  return_now g.

Definition case_VERSION (msg : usbMsg) (g : globals) :=
  call! (usbSendMessage (CMD VERSION) (Z.of_nat (length mooltipass_version))
           mooltipass_version) ;;
  return_now g.

Definition case_CONTEXT (msg : usbMsg) (g : globals) :=
  (if memoryManagementModeApproved g =? TRUE
   then call! populateServicesLut else Ret tt) ;;
  unlocked <- call! getSmartCardInsertedUnlocked ;;
  if negb (unlocked =? TRUE) then break_with PLUGIN_BYTE_NOCARD g
  else
    r <- call! (setCurrentContext (body msg) SERVICE_CRED_TYPE) ;;
    if r =? RETURN_OK then break_with PLUGIN_BYTE_OK g
    else break_with PLUGIN_BYTE_ERROR g.

Definition case_SET_DATA_SERVICE (msg : usbMsg) (g : globals) :=
  unlocked <- call! getSmartCardInsertedUnlocked ;;
  if negb (unlocked =? TRUE) then break_with PLUGIN_BYTE_NOCARD g
  else
    r <- call! (setCurrentContext (body msg) SERVICE_DATA_TYPE) ;;
    if r =? RETURN_OK then break_with PLUGIN_BYTE_OK g
    else break_with PLUGIN_BYTE_ERROR g.

(** [getLoginForContext((char* )incomingData)] overwrites the receive
    buffer; the answer is the return code and the buffer after the call. *)
Definition case_GET_LOGIN (msg : usbMsg) (g : globals) :=
  '(r, incomingData) <- call! getLoginForContext ;;
  if r =? RETURN_OK then
    call! (usbSendMessage (CMD GET_LOGIN) (strlen incomingData + 1) incomingData) ;;
    return_now g
  else break_with PLUGIN_BYTE_ERROR g.

Definition case_GET_PASSWORD (msg : usbMsg) (g : globals) :=
  '(r, incomingData) <- call! getPasswordForContext ;;
  if r =? RETURN_OK then
    call! (usbSendMessage (CMD GET_PASSWORD) (strlen incomingData + 1) incomingData) ;;
    return_now g
  else break_with PLUGIN_BYTE_ERROR g.

Definition case_GET_DESCRIPTION (msg : usbMsg) (g : globals) :=
  '(r, incomingData) <- call! getDescriptionForContext ;;
  if r =? RETURN_OK then
    call! (usbSendMessage (CMD GET_DESCRIPTION) (strlen incomingData + 1) incomingData) ;;
    return_now g
  else break_with PLUGIN_BYTE_ERROR g.

Definition case_SET_LOGIN (msg : usbMsg) (g : globals) :=
  r <- call! (setLoginForContext (body msg) (len msg)) ;;
  if r =? RETURN_OK then break_with PLUGIN_BYTE_OK g
  else break_with PLUGIN_BYTE_ERROR g.

Definition case_SET_PASSWORD (msg : usbMsg) (g : globals) :=
  r <- call! (setPasswordForContext (body msg) (len msg)) ;;
  if r =? RETURN_OK then break_with PLUGIN_BYTE_OK g
  else break_with PLUGIN_BYTE_ERROR g.

Definition case_CHECK_PASSWORD (msg : usbMsg) (g : globals) :=
  temp_rettype <- call! (checkPasswordForContext (body msg)) ;;
  if temp_rettype =? RETURN_PASS_CHECK_NOK then break_with PLUGIN_BYTE_ERROR g
  else if temp_rettype =? RETURN_PASS_CHECK_OK then break_with PLUGIN_BYTE_OK g
  else break_with PLUGIN_BYTE_NA g.

Definition case_ADD_CONTEXT (msg : usbMsg) (g : globals) :=
  r <- call! (addNewContext (body msg) (len msg) SERVICE_CRED_TYPE) ;;
  if r =? RETURN_OK then break_with PLUGIN_BYTE_OK g
  else break_with PLUGIN_BYTE_ERROR g.

Definition case_ADD_DATA_SERVICE (msg : usbMsg) (g : globals) :=
  r <- call! (addNewContext (body msg) (len msg) SERVICE_DATA_TYPE) ;;
  if r =? RETURN_OK then break_with PLUGIN_BYTE_OK g
  else break_with PLUGIN_BYTE_ERROR g.

(** The left operand of the [&&] is the call: it is made whatever
    [datalen] is. *)
Definition case_WRITE_32B_IN_DN (msg : usbMsg) (g : globals) :=
  r <- call! (addDataForDataContext (skipn 1 (body msg)) (byte_at (body msg) 0)) ;;
  if (r =? RETURN_OK) && (len msg =? 1 + DATA_NODE_BLOCK_SIZ)
  then break_with PLUGIN_BYTE_OK g
  else break_with PLUGIN_BYTE_ERROR g.

Definition case_READ_32B_IN_DN (msg : usbMsg) (g : globals) :=
  '(r, incomingData) <- call! get32BytesDataForCurrentService ;;
  if r =? RETURN_OK then
    call! (usbSendMessage (CMD READ_32B_IN_DN) DATA_NODE_BLOCK_SIZ incomingData) ;;
    return_now g
  else break_with PLUGIN_BYTE_ERROR g.

Definition case_START_MEMORYMGMT (msg : usbMsg) (g : globals) :=
  unlocked <- call! getSmartCardInsertedUnlocked ;;
  if unlocked =? TRUE then
    text <- call! (readStoredStringToBuffer ID_STRING_MEMORYMGMTQ) ;;
    approved <- call! (guiAskForConfirmation (Z.lor 240 1) [text]) ;;
    vg <- (if approved =? RETURN_OK then
             reauth <- call! removeCardAndReAuthUser ;;
             if reauth =? RETURN_OK then
               call! (guiSetCurrentScreen SCREEN_MEMORY_MGMT) ;;
               Ret (PLUGIN_BYTE_OK, set_memoryManagementModeApproved TRUE g)
             else
               call! (guiSetCurrentScreen SCREEN_DEFAULT_INSERTED_LCK) ;;
               Ret (PLUGIN_BYTE_ERROR, g)
           else Ret (PLUGIN_BYTE_ERROR, g)) ;;
    call! guiGetBackToCurrentScreen ;;
    break_with (fst vg) (snd vg)
  else break_with PLUGIN_BYTE_ERROR g.

Definition case_GET_STARTING_PARENT (msg : usbMsg) (g : globals) :=
  temp_address <- call! getStartingParentAddress ;;
  call! (usbSendMessage (CMD GET_STARTING_PARENT) 2 (word_bytes temp_address)) ;;
  return_now g.

Definition case_GET_DN_START_PARENT (msg : usbMsg) (g : globals) :=
  temp_address <- call! getStartingDataParentAddress ;;
  call! (usbSendMessage (CMD GET_DN_START_PARENT) 2 (word_bytes temp_address)) ;;
  return_now g.

Definition case_GET_FREE_SLOTS_ADDR (msg : usbMsg) (g : globals) :=
  if len msg =? 2 then
    let temp_addr := word_at (body msg) 0 in
    '(nodesFound, nodeAddresses) <-
       call! (findFreeNodes 31 (pageNumberFromAddress temp_addr)
                (nodeNumberFromAddress temp_addr)) ;;
    call! (usbSendMessage (CMD GET_FREE_SLOTS_ADDR) (nodesFound * 2) nodeAddresses) ;;
    return_now g
  else break_with PLUGIN_BYTE_ERROR g.

Definition case_END_MEMORYMGMT (msg : usbMsg) (g : globals) :=
  call! (guiSetCurrentScreen SCREEN_DEFAULT_INSERTED_NLCK) ;;
  let g := set_currentNodeWritten NODE_ADDR_NULL g in
  let g := leaveMemoryManagementMode g in
  call! guiGetBackToCurrentScreen ;;
  call! activityDetectedRoutine ;;
  call! populateServicesLut ;;
  call! scanNodeUsage ;;
  break_with PLUGIN_BYTE_OK g.

Definition case_READ_FLASH_NODE (msg : usbMsg) (g : globals) :=
  if len msg =? 2 then
    let temp_node_addr := word_at (body msg) 0 in
    p <- call! (checkUserPermission temp_node_addr) ;;
    if p =? RETURN_OK then
      temp_buffer <- call! (readNode temp_node_addr) ;;
      call! (usbSendMessage (CMD READ_FLASH_NODE) NODE_SIZE temp_buffer) ;;
      return_now g
    else break_with PLUGIN_BYTE_ERROR g
  else break_with PLUGIN_BYTE_ERROR g.

Definition case_SET_FAVORITE (msg : usbMsg) (g : globals) :=
  if len msg =? 5 then
    let temp_par_addr := word_at (body msg) 1 in
    let temp_child_addr := word_at (body msg) 3 in
    call! (setFav (byte_at (body msg) 0) temp_par_addr temp_child_addr) ;;
    break_with PLUGIN_BYTE_OK g
  else break_with PLUGIN_BYTE_ERROR g.

Definition case_GET_FAVORITE (msg : usbMsg) (g : globals) :=
  if len msg =? 1 then
    '(data0, data1) <- call! (readFav (byte_at (body msg) 0)) ;;
    call! (usbSendMessage (CMD GET_FAVORITE) 4 (word_bytes data0 ++ word_bytes data1)) ;;
    return_now g
  else break_with PLUGIN_BYTE_ERROR g.

Definition case_SET_STARTING_PARENT (msg : usbMsg) (g : globals) :=
  if len msg =? 2 then
    call! (setStartingParent (word_at (body msg) 0)) ;;
    break_with PLUGIN_BYTE_OK g
  else break_with PLUGIN_BYTE_ERROR g.

Definition case_SET_DN_START_PARENT (msg : usbMsg) (g : globals) :=
  if len msg =? 2 then
    call! (setDataStartingParent (word_at (body msg) 0)) ;;
    break_with PLUGIN_BYTE_OK g
  else break_with PLUGIN_BYTE_ERROR g.

Definition case_SET_CTRVALUE (msg : usbMsg) (g : globals) :=
  if len msg =? USER_CTR_SIZE then
    call! (setProfileCtr (body msg)) ;;
    break_with PLUGIN_BYTE_OK g
  else break_with PLUGIN_BYTE_ERROR g.

Definition case_GET_CTRVALUE (msg : usbMsg) (g : globals) :=
  tempCtrVal <- call! readProfileCtr ;;
  call! (usbSendMessage (CMD GET_CTRVALUE) USER_CTR_SIZE tempCtrVal) ;;
  return_now g.

Definition case_ADD_CARD_CPZ_CTR (msg : usbMsg) (g : globals) :=
  if len msg =? SMARTCARD_CPZ_LENGTH + AES256_CTR_LENGTH then
    uid <- call! getCurrentUserID ;;
    r <- call! (writeSmartCardCPZForUserId (body msg)
                  (skipn (Z.to_nat SMARTCARD_CPZ_LENGTH) (body msg)) uid) ;;
    if r =? RETURN_OK then break_with PLUGIN_BYTE_OK g
    else break_with PLUGIN_BYTE_ERROR g
  else break_with PLUGIN_BYTE_ERROR g.

Definition case_GET_CARD_CPZ_CTR (msg : usbMsg) (g : globals) :=
  uid <- call! getCurrentUserID ;;
  call! (outputLUTEntriesForGivenUser uid) ;;
  break_with PLUGIN_BYTE_OK g.

(** The multi-packet node write.  [msg->body.data[2]] is the packet number;
    the arithmetic of the bound is in [int], which the sums here fit. *)
Definition case_WRITE_FLASH_NODE (msg : usbMsg) (g : globals) :=
  let temp_node_addr := word_at (body msg) 0 in
  if len msg <? 3 then break_with PLUGIN_BYTE_ERROR g
  else
    let packet_nb := byte_at (body msg) 2 in
    g <- (if packet_nb =? 0 then
            p <- call! (checkUserPermission temp_node_addr) ;;
            if p =? RETURN_OK then
              let g := set_currentNodeWritten temp_node_addr g in
              call! (loadPageToInternalBuffer
                       (pageNumberFromAddress (currentNodeWritten g))) ;;
              Ret g
            else Ret g
          else Ret g) ;;
    if (currentNodeWritten g =? temp_node_addr)
       && negb (currentNodeWritten g =? NODE_ADDR_NULL)
       && (packet_nb * (PACKET_EXPORT_SIZE - 3) + (len msg - 3) <=? NODE_SIZE)
    then
      data <- (if packet_nb =? 0 then
                 uid <- call! getCurrentUserID ;;
                 flags <- call! (userIdToFlags (word_at (body msg) 3) uid) ;;
                 Ret (store_word (body msg) 3 flags)
               else Ret (body msg)) ;;
      call! (flashWriteBuffer (skipn 3 data)
               (NODE_SIZE * nodeNumberFromAddress (currentNodeWritten g)
                + packet_nb * (PACKET_EXPORT_SIZE - 3))
               (len msg - 3)) ;;
      (if packet_nb =? Z.quot NODE_SIZE (PACKET_EXPORT_SIZE - 3)
       then call! (flashWriteBufferToPage
                     (pageNumberFromAddress (currentNodeWritten g)))
       else Ret tt) ;;
      break_with PLUGIN_BYTE_OK g
    else break_with PLUGIN_BYTE_ERROR g.

(** [cli(); wdt_reset(); wdt_clear_flag(); wdt_change_enable();
    wdt_enable_2s();] *)
Definition arm_watchdog : prog unit :=
  call! cli ;;
  call! wdt_reset ;;
  call! wdt_clear_flag ;;
  call! wdt_change_enable ;;
  call! wdt_enable_2s.

Definition case_IMPORT_MEDIA_START (fuel : nat) (msg : usbMsg) (g : globals) :=
  let g := set_mediaFlashImportPage GRAPHIC_ZONE_PAGE_START g in
  let g := set_mediaFlashImportOffset 0 g in
  if DEV_PLUGIN_COMMS || AVR_BOOTLOADER_PROGRAMMING then
    break_with PLUGIN_BYTE_OK (set_mediaFlashImportApproved TRUE g)
  else
    call! userViewDelay ;;
    if len msg =? PACKET_EXPORT_SIZE then
      line0 <- call! (readStoredStringToBuffer ID_STRING_WARNING) ;;
      line1 <- call! (readStoredStringToBuffer ID_STRING_ALLOW_UPDATE) ;;
      pwd_set <- call! (eeprom_read_byte EEP_BOOT_PWD_SET) ;;
      allowed <- or_else (negb (pwd_set =? BOOTLOADER_PWDOK_KEY))
                   (approved <- call! (guiAskForConfirmation 2 [line0; line1]) ;;
                    and_then (approved =? RETURN_OK)
                      (r <- checkMooltipassPassword fuel (body msg) EEP_BOOT_PWD
                              PACKET_EXPORT_SIZE ;;
                       Ret (r =? TRUE))) ;;
      call! guiGetBackToCurrentScreen ;;
      if allowed : bool
      then break_with PLUGIN_BYTE_OK (set_mediaFlashImportApproved TRUE g)
      else break_with PLUGIN_BYTE_ERROR g
    else break_with PLUGIN_BYTE_ERROR g.

(** [mediaFlashImportOffset + datalen] is computed in [unsigned int]. *)
Definition case_IMPORT_MEDIA (msg : usbMsg) (g : globals) :=
  if (mediaFlashImportApproved g =? FALSE)
     || (mediaFlashImportPage g >=? GRAPHIC_ZONE_PAGE_END)
     || (uint16 (mediaFlashImportOffset g + len msg) >? BYTES_PER_PAGE)
  then break_with PLUGIN_BYTE_ERROR (set_mediaFlashImportApproved FALSE g)
  else
    call! (flashWriteBuffer (body msg) (mediaFlashImportOffset g) (len msg)) ;;
    let g := set_mediaFlashImportOffset
               (uint16 (mediaFlashImportOffset g + len msg)) g in
    g <- (if mediaFlashImportOffset g =? BYTES_PER_PAGE then
            call! (flashWriteBufferToPage (mediaFlashImportPage g)) ;;
            let g := set_mediaFlashImportOffset 0 g in
            Ret (set_mediaFlashImportPage (uint16 (mediaFlashImportPage g + 1)) g)
          else Ret g) ;;
    break_with PLUGIN_BYTE_OK g.

Definition case_IMPORT_MEDIA_END (msg : usbMsg) (g : globals) :=
  (if (mediaFlashImportApproved g =? TRUE) && negb (mediaFlashImportOffset g =? 0)
   then call! (flashWriteBufferToPage (mediaFlashImportPage g))
   else Ret tt) ;;
  let g := set_mediaFlashImportApproved FALSE g in
  if MINI_PREPRODUCTION_SETUP || MINI_PREPRODUCTION_SETUP_ACC then
    pwd_set <- call! (eeprom_read_byte EEP_BOOT_PWD_SET) ;;
    if pwd_set =? BOOTLOADER_PWDOK_KEY then
      call! (eeprom_write_word EEP_BOOTKEY_ADDR BOOTLOADER_BOOTKEY) ;;
      arm_watchdog ;;
      Hang
    else break_with PLUGIN_BYTE_OK g
  else break_with PLUGIN_BYTE_OK g.

(** [mp_timeout_enabled] and [wheel_reverse_bool] are globals of other
    files: assigning them is a call out. *)
Definition case_SET_MOOLTIPASS_PARM (msg : usbMsg) (g : globals) :=
  if len msg =? 2 then
    call! (setMooltipassParameterInEeprom (byte_at (body msg) 0) (byte_at (body msg) 1)) ;;
    v <- call! (getMooltipassParameterInEeprom LOCK_TIMEOUT_ENABLE_PARAM) ;;
    call! (write_mp_timeout_enabled v) ;;
    (if MINI_VERSION then
       w <- call! (getMooltipassParameterInEeprom WHEEL_DIRECTION_REVERSE_PARAM) ;;
       call! (write_wheel_reverse_bool w) ;;
       c <- call! (getMooltipassParameterInEeprom MINI_OLED_CONTRAST_CURRENT_PARAM) ;;
       call! (miniOledSetContrastCurrent c)
     else Ret tt) ;;
    break_with PLUGIN_BYTE_OK g
  else break_with PLUGIN_BYTE_ERROR g.

Definition case_GET_MOOLTIPASS_PARM (msg : usbMsg) (g : globals) :=
  v <- call! (getMooltipassParameterInEeprom (byte_at (body msg) 0)) ;;
  break_with v g.

Definition case_GET_CUR_CARD_CPZ (msg : usbMsg) (g : globals) :=
  screen <- call! getCurrentScreen ;;
  ok <- or_else (screen =? SCREEN_DEFAULT_INSERTED_UNKNOWN)
          (unlocked <- call! getSmartCardInsertedUnlocked ;;
           Ret (unlocked =? TRUE)) ;;
  if ok : bool then
    temp_buffer <- call! readCodeProtectedZone ;;
    call! (usbSendMessage (CMD GET_CUR_CARD_CPZ) SMARTCARD_CPZ_LENGTH temp_buffer) ;;
    return_now g
  else break_with PLUGIN_BYTE_ERROR g.

Definition case_RESET_CARD (msg : usbMsg) (g : globals) :=
  screen <- call! getCurrentScreen ;;
  if screen =? SCREEN_DEFAULT_INSERTED_UNKNOWN then
    call! activityDetectedRoutine ;;
    unlocked <- call! guiCardUnlockingProcess ;;
    v <- (if unlocked =? RETURN_OK then
            call! eraseSmartCard ;;
            call! (guiSetCurrentScreen SCREEN_DEFAULT_INSERTED_INVALID) ;;
            Ret PLUGIN_BYTE_OK
          else Ret PLUGIN_BYTE_ERROR) ;;
    call! guiGetBackToCurrentScreen ;;
    break_with v g
  else break_with PLUGIN_BYTE_ERROR g.

Definition case_UNLOCK_WITH_PIN (msg : usbMsg) (g : globals) :=
  let temp_uint := word_at (body msg) 0 in
  ok <- and_then (len msg =? 2)
          (screen <- call! getCurrentScreen ;;
           and_then (screen =? SCREEN_DEFAULT_INSERTED_LCK)
             (detected <- call! cardDetectedRoutine ;;
              and_then (detected =? RETURN_MOOLTIPASS_USER)
                (text <- call! (readStoredStringToBuffer ID_STRING_PIN_COMPUTER) ;;
                 approved <- call! (guiAskForConfirmation 1 [text]) ;;
                 and_then (approved =? RETURN_OK)
                   (valid <- call! (validCardDetectedFunction temp_uint) ;;
                    Ret (valid =? RETURN_VCARD_OK))))) ;;
  v <- (if ok : bool then
          call! (guiSetCurrentScreen SCREEN_DEFAULT_INSERTED_NLCK) ;;
          Ret PLUGIN_BYTE_OK
        else Ret PLUGIN_BYTE_ERROR) ;;
  call! guiGetBackToCurrentScreen ;;
  break_with v g.

Definition case_ADD_UNKNOWN_CARD (msg : usbMsg) (g : globals) :=
  ok <- and_then (len msg =? SMARTCARD_CPZ_LENGTH + AES256_CTR_LENGTH)
          (screen <- call! getCurrentScreen ;;
           Ret (screen =? SCREEN_DEFAULT_INSERTED_UNKNOWN)) ;;
  if ok : bool then
    temp_buffer <- call! readCodeProtectedZone ;;
    call! activityDetectedRoutine ;;
    let nonce := skipn (Z.to_nat SMARTCARD_CPZ_LENGTH) (body msg) in
    added <- and_then
               (memcmp temp_buffer (body msg) (Z.to_nat SMARTCARD_CPZ_LENGTH) =? 0)
               (unlocked <- call! guiCardUnlockingProcess ;;
                and_then (unlocked =? RETURN_OK)
                  ('(r, new_user_id) <- call! (addNewUserForExistingCard nonce) ;;
                   if r =? RETURN_OK then
                     temp_buffer <- call! readAES256BitsKey ;;
                     call! (initUserFlashContext new_user_id) ;;
                     call! (initEncryptionHandling temp_buffer nonce) ;;
                     call! setSmartCardInsertedUnlocked ;;
                     call! (guiSetCurrentScreen SCREEN_DEFAULT_INSERTED_NLCK) ;;
                     Ret true
                   else Ret false)) ;;
    call! guiGetBackToCurrentScreen ;;
    if added : bool then break_with PLUGIN_BYTE_OK g
    else break_with PLUGIN_BYTE_ERROR g
  else break_with PLUGIN_BYTE_ERROR g.

Definition case_READ_CARD_LOGIN (msg : usbMsg) (g : globals) :=
  unlocked <- call! getSmartCardInsertedUnlocked ;;
  if unlocked =? TRUE then
    temp_data <- call! readMooltipassWebsiteLogin ;;
    call! (usbSendMessage (CMD READ_CARD_LOGIN)
             (Z.quot SMARTCARD_MTP_LOGIN_LENGTH 8) temp_data) ;;
    return_now g
  else break_with PLUGIN_BYTE_ERROR g.

Definition case_READ_CARD_PASS (msg : usbMsg) (g : globals) :=
  unlocked <- call! getSmartCardInsertedUnlocked ;;
  if unlocked =? TRUE then
    text <- call! (readStoredStringToBuffer ID_STRING_SEND_SMC_PASS) ;;
    approved <- call! (guiAskForConfirmation 1 [text]) ;;
    if approved =? RETURN_OK then
      temp_data <- call! readMooltipassWebsitePassword ;;
      call! (usbSendMessage (CMD READ_CARD_PASS)
               (Z.quot SMARTCARD_MTP_PASS_LENGTH 8) temp_data) ;;
      call! guiGetBackToCurrentScreen ;;
      return_now g
    else
      call! guiGetBackToCurrentScreen ;;
      break_with PLUGIN_BYTE_ERROR g
  else break_with PLUGIN_BYTE_ERROR g.

Definition case_SET_CARD_LOGIN (msg : usbMsg) (g : globals) :=
  unlocked <- call! getSmartCardInsertedUnlocked ;;
  if unlocked =? TRUE then
    text <- call! (readStoredStringToBuffer ID_STRING_SET_SMC_LOGIN) ;;
    approved <- call! (guiAskForConfirmation 1 [text]) ;;
    v <- (if approved =? RETURN_OK then
            temp_az2 <- call! readApplicationZone2 ;;
            call! (eraseApplicationZone1NZone2SMC FALSE) ;;
            let temp_az2 :=
              memcpy_at temp_az2 (Z.to_nat (Z.quot SMARTCARD_MTP_LOGIN_OFFSET 8))
                (body msg) (Z.to_nat (len msg)) in
            call! (writeApplicationZone2 temp_az2) ;;
            Ret PLUGIN_BYTE_OK
          else Ret PLUGIN_BYTE_ERROR) ;;
    call! guiGetBackToCurrentScreen ;;
    break_with v g
  else break_with PLUGIN_BYTE_ERROR g.

Definition case_SET_CARD_PASS (msg : usbMsg) (g : globals) :=
  unlocked <- call! getSmartCardInsertedUnlocked ;;
  if unlocked =? TRUE then
    text <- call! (readStoredStringToBuffer ID_STRING_SET_SMC_PASS) ;;
    approved <- call! (guiAskForConfirmation 1 [text]) ;;
    v <- (if approved =? RETURN_OK then
            temp_az1 <- call! readApplicationZone1 ;;
            call! (eraseApplicationZone1NZone2SMC TRUE) ;;
            let temp_az1 :=
              memcpy_at temp_az1 (Z.to_nat (Z.quot SMARTCARD_MTP_PASS_OFFSET 8))
                (body msg) (Z.to_nat (len msg)) in
            call! (writeApplicationZone1 temp_az1) ;;
            Ret PLUGIN_BYTE_OK
          else Ret PLUGIN_BYTE_ERROR) ;;
    call! guiGetBackToCurrentScreen ;;
    break_with v g
  else break_with PLUGIN_BYTE_ERROR g.

Definition case_GET_RANDOM_NUMBER (msg : usbMsg) (g : globals) :=
  randomBytes <- call! (fillArrayWithRandomBytes 32) ;;
  call! (usbSendMessage (CMD GET_RANDOM_NUMBER) 32 randomBytes) ;;
  return_now g.

Definition case_SET_DATE (msg : usbMsg) (g : globals) :=
  call! (setCurrentDate (word_at (body msg) 0)) ;;
  break_with PLUGIN_BYTE_OK g.

Definition case_SET_UID (msg : usbMsg) (g : globals) :=
  ok <- and_then (len msg =? UID_REQUEST_KEY_SIZE + UID_SIZE)
          (key_set <- call! (eeprom_read_byte EEP_UID_REQUEST_KEY_SET_ADDR) ;;
           Ret (negb (key_set =? UID_REQUEST_KEY_OK_KEY))) ;;
  if ok : bool then
    call! (eeprom_write_block (body msg) EEP_UID_REQUEST_KEY_ADDR
             (UID_REQUEST_KEY_SIZE + UID_SIZE)) ;;
    call! (eeprom_write_byte EEP_UID_REQUEST_KEY_SET_ADDR UID_REQUEST_KEY_OK_KEY) ;;
    break_with PLUGIN_BYTE_OK g
  else break_with PLUGIN_BYTE_ERROR g.

Definition case_GET_UID (fuel : nat) (msg : usbMsg) (g : globals) :=
  ok <- and_then (len msg =? UID_REQUEST_KEY_SIZE)
          (key_set <- call! (eeprom_read_byte EEP_UID_REQUEST_KEY_SET_ADDR) ;;
           Ret (key_set =? UID_REQUEST_KEY_OK_KEY)) ;;
  if ok : bool then
    r <- checkMooltipassPassword fuel (body msg) EEP_UID_REQUEST_KEY_ADDR
           UID_REQUEST_KEY_SIZE ;;
    if r =? TRUE then
      mooltipass_uid <- call! (eeprom_read_block EEP_UID_ADDR UID_SIZE) ;;
      call! (usbSendMessage (CMD GET_UID) UID_SIZE mooltipass_uid) ;;
      return_now g
    else break_with PLUGIN_BYTE_ERROR g
  else break_with PLUGIN_BYTE_ERROR g.

Definition case_SET_BOOTLOADER_PWD (msg : usbMsg) (g : globals) :=
  pwd_set <- call! (eeprom_read_byte EEP_BOOT_PWD_SET) ;;
  if negb (pwd_set =? BOOTLOADER_PWDOK_KEY) && (len msg =? PACKET_EXPORT_SIZE) then
    call! (eeprom_write_block (body msg) EEP_BOOT_PWD PACKET_EXPORT_SIZE) ;;
    call! (eeprom_write_word EEP_BACKUP_BOOTKEY_ADDR CORRECT_BOOTKEY) ;;
    call! (eeprom_write_byte EEP_BOOT_PWD_SET BOOTLOADER_PWDOK_KEY) ;;
    break_with PLUGIN_BYTE_OK g
  else break_with PLUGIN_BYTE_ERROR g.

(** The case has no [break]: when it does not reset the device, control
    falls into the next label, which is [default] (the development cases
    that follow are compiled only with DEV_PLUGIN_COMMS, and then this case
    never falls through). *)
Definition case_JUMP_TO_BOOTLOADER (fuel : nat) (msg : usbMsg) (g : globals) :=
  call! userViewDelay ;;
  if DEV_PLUGIN_COMMS || AVR_BOOTLOADER_PROGRAMMING then
    call! (eeprom_write_word EEP_BOOTKEY_ADDR BOOTLOADER_BOOTKEY) ;;
    call! (eeprom_write_byte EEP_BOOT_PWD_SET FALSE) ;;
    arm_watchdog ;;
    call! sei ;;
    Hang
  else
    line0 <- call! (readStoredStringToBuffer ID_STRING_WARNING) ;;
    line1 <- call! (readStoredStringToBuffer ID_STRING_ALLOW_UPDATE) ;;
    pwd_set <- call! (eeprom_read_byte EEP_BOOT_PWD_SET) ;;
    ok <- and_then ((pwd_set =? BOOTLOADER_PWDOK_KEY)
                    && (len msg =? PACKET_EXPORT_SIZE))
            (approved <- call! (guiAskForConfirmation 2 [line0; line1]) ;;
             and_then (approved =? RETURN_OK)
               (r <- checkMooltipassPassword fuel (body msg) EEP_BOOT_PWD
                       PACKET_EXPORT_SIZE ;;
                Ret (r =? TRUE))) ;;
    if ok : bool then
      call! (eeprom_write_word EEP_BOOTKEY_ADDR BOOTLOADER_BOOTKEY) ;;
      call! (eeprom_write_word EEP_BACKUP_BOOTKEY_ADDR BOOTLOADER_BOOTKEY) ;;
      call! (eeprom_write_byte EEP_BOOT_PWD_SET FALSE) ;;
      arm_watchdog ;;
      call! sei ;;
      Hang
    else
      call! guiGetBackToCurrentScreen ;;
      return_now g.

(** Development commands (DEV_PLUGIN_COMMS). *)

Definition case_ERASE_EEPROM (msg : usbMsg) (g : globals) :=
  call! eraseFlashUsersContents ;;
  call! firstTimeUserHandlingInit ;;
  break_with PLUGIN_BYTE_OK g.

Definition case_ERASE_FLASH (msg : usbMsg) (g : globals) :=
  call! eraseFlashUsersContents ;;
  break_with PLUGIN_BYTE_OK g.

Definition case_ERASE_SMC (msg : usbMsg) (g : globals) :=
  unlocked <- call! getSmartCardInsertedUnlocked ;;
  if unlocked =? TRUE then
    call! eraseSmartCard ;;
    break_with PLUGIN_BYTE_OK g
  else break_with PLUGIN_BYTE_ERROR g.

Definition case_DRAW_BITMAP (msg : usbMsg) (g : globals) :=
  let data := body msg in
  (if HARDWARE_OLIVIER_V1 then
     call! (usbPrintf_P (byte_at data 0)) ;;
     if negb (byte_at data 3 =? 0) then
       call! oledWriteActiveBuffer ;;
       call! oledClear ;;
       call! (oledBitmapDrawFlash (byte_at data 1) (byte_at data 2) (byte_at data 0) 0)
     else
       call! oledWriteActiveBuffer ;;
       call! (oledBitmapDrawFlash (byte_at data 1) (byte_at data 2) (byte_at data 0) 0)
   else Ret tt) ;;
  return_now g.

Definition case_CLONE_SMARTCARD (msg : usbMsg) (g : globals) :=
  r <- call! (cloneSmartCardProcess SMARTCARD_DEFAULT_PIN) ;;
  if r =? RETURN_OK then break_with PLUGIN_BYTE_OK g
  else break_with PLUGIN_BYTE_ERROR g.

(** This case leaves [plugin_return_value] at its initial value. *)
Definition case_MINI_FRAME_BUF_DATA (msg : usbMsg) (g : globals) :=
  (if MINI_VERSION then
     call! (miniOledWriteFrameBuffer (word_at (body msg) 0) (skipn 2 (body msg))
              (len msg - 2))
   else Ret tt) ;;
  break_with PLUGIN_BYTE_ERROR g.

Definition case_SET_FONT (msg : usbMsg) (g : globals) :=
  let data := body msg in
  (if HARDWARE_OLIVIER_V1 then
     call! (usbPrintf_P (byte_at data 0)) ;;
     call! (oledSetFont (byte_at data 0)) ;;
     if len msg >? 1 then
       call! (usbPrintf_P (byte_at data 1)) ;;
       call! oledDisplayOtherBuffer ;;
       call! oledWriteActiveBuffer ;;
       call! oledClear ;;
       call! (oledPutstr (skipn 1 data))
     else Ret tt
   else Ret tt) ;;
  return_now g.

Definition case_STACK_FREE (msg : usbMsg) (g : globals) :=
  freebytes <- call! stackFree ;;
  call! (usbSendMessage (CMD STACK_FREE) 2 (word_bytes freebytes)) ;;
  return_now g.

Definition case_USB_KEYBOARD_PRESS (msg : usbMsg) (g : globals) :=
  if len msg =? 2 then
    call! (usbKeyboardPress (byte_at (body msg) 0) (byte_at (body msg) 1)) ;;
    break_with PLUGIN_BYTE_OK g
  else break_with PLUGIN_BYTE_ERROR g.

(** *** usbProcessIncoming: the switch *)

(** Whether the [switch] has a [case] label for the command in this build.
    The status command has none. *)
Definition has_case (c : cmd_name) : bool :=
  match c with
  | CONTEXT | SET_DATA_SERVICE | GET_LOGIN | GET_PASSWORD | GET_DESCRIPTION
  | SET_LOGIN | SET_PASSWORD | CHECK_PASSWORD | ADD_CONTEXT | ADD_DATA_SERVICE
  | WRITE_32B_IN_DN | READ_32B_IN_DN => USB_FEATURE_PLUGIN_COMMS
  | SET_UID => negb POST_KICKSTARTER_UPDATE_SETUP
  | JUMP_TO_BOOTLOADER => negb MINI_VERSION
  | ERASE_EEPROM | ERASE_FLASH | ERASE_SMC | DRAW_BITMAP | CLONE_SMARTCARD
  | MINI_FRAME_BUF_DATA | SET_FONT | STACK_FREE
  | USB_KEYBOARD_PRESS => DEV_PLUGIN_COMMS
  | MOOLTIPASS_STATUS => false
  | _ => true
  end.

(** The label [switch(datacmd)] jumps to: the compiled label whose value is
    [datacmd], [None] for [default].  (Labels of one [switch] have distinct
    values, so the order of the search does not matter.) *)
Definition switch_label (datacmd : Z) : option cmd_name :=
  find (fun c => has_case c && (CMD c =? datacmd)) all_cmd_names.

Definition case_of (fuel : nat) (c : cmd_name)
  : usbMsg -> globals -> prog (exit * globals) :=
  match c with
  | CANCEL_REQUEST => case_CANCEL_REQUEST
  | PING => case_PING
  | VERSION => case_VERSION
  | CONTEXT => case_CONTEXT
  | SET_DATA_SERVICE => case_SET_DATA_SERVICE
  | GET_LOGIN => case_GET_LOGIN
  | GET_PASSWORD => case_GET_PASSWORD
  | GET_DESCRIPTION => case_GET_DESCRIPTION
  | SET_LOGIN => case_SET_LOGIN
  | SET_PASSWORD => case_SET_PASSWORD
  | CHECK_PASSWORD => case_CHECK_PASSWORD
  | ADD_CONTEXT => case_ADD_CONTEXT
  | ADD_DATA_SERVICE => case_ADD_DATA_SERVICE
  | WRITE_32B_IN_DN => case_WRITE_32B_IN_DN
  | READ_32B_IN_DN => case_READ_32B_IN_DN
  | START_MEMORYMGMT => case_START_MEMORYMGMT
  | GET_STARTING_PARENT => case_GET_STARTING_PARENT
  | GET_DN_START_PARENT => case_GET_DN_START_PARENT
  | GET_FREE_SLOTS_ADDR => case_GET_FREE_SLOTS_ADDR
  | END_MEMORYMGMT => case_END_MEMORYMGMT
  | READ_FLASH_NODE => case_READ_FLASH_NODE
  | SET_FAVORITE => case_SET_FAVORITE
  | GET_FAVORITE => case_GET_FAVORITE
  | SET_STARTING_PARENT => case_SET_STARTING_PARENT
  | SET_DN_START_PARENT => case_SET_DN_START_PARENT
  | SET_CTRVALUE => case_SET_CTRVALUE
  | GET_CTRVALUE => case_GET_CTRVALUE
  | ADD_CARD_CPZ_CTR => case_ADD_CARD_CPZ_CTR
  | GET_CARD_CPZ_CTR => case_GET_CARD_CPZ_CTR
  | WRITE_FLASH_NODE => case_WRITE_FLASH_NODE
  | IMPORT_MEDIA_START => case_IMPORT_MEDIA_START fuel
  | IMPORT_MEDIA => case_IMPORT_MEDIA
  | IMPORT_MEDIA_END => case_IMPORT_MEDIA_END
  | SET_MOOLTIPASS_PARM => case_SET_MOOLTIPASS_PARM
  | GET_MOOLTIPASS_PARM => case_GET_MOOLTIPASS_PARM
  | GET_CUR_CARD_CPZ => case_GET_CUR_CARD_CPZ
  | RESET_CARD => case_RESET_CARD
  | UNLOCK_WITH_PIN => case_UNLOCK_WITH_PIN
  | ADD_UNKNOWN_CARD => case_ADD_UNKNOWN_CARD
  | READ_CARD_LOGIN => case_READ_CARD_LOGIN
  | READ_CARD_PASS => case_READ_CARD_PASS
  | SET_CARD_LOGIN => case_SET_CARD_LOGIN
  | SET_CARD_PASS => case_SET_CARD_PASS
  | GET_RANDOM_NUMBER => case_GET_RANDOM_NUMBER
  | SET_DATE => case_SET_DATE
  | SET_UID => case_SET_UID
  | GET_UID => case_GET_UID fuel
  | SET_BOOTLOADER_PWD => case_SET_BOOTLOADER_PWD
  | JUMP_TO_BOOTLOADER => case_JUMP_TO_BOOTLOADER fuel
  | ERASE_EEPROM => case_ERASE_EEPROM
  | ERASE_FLASH => case_ERASE_FLASH
  | ERASE_SMC => case_ERASE_SMC
  | DRAW_BITMAP => case_DRAW_BITMAP
  | CLONE_SMARTCARD => case_CLONE_SMARTCARD
  | MINI_FRAME_BUF_DATA => case_MINI_FRAME_BUF_DATA
  | SET_FONT => case_SET_FONT
  | STACK_FREE => case_STACK_FREE
  | USB_KEYBOARD_PRESS => case_USB_KEYBOARD_PRESS
  | MOOLTIPASS_STATUS => fun _ g => return_now g
  end.

(** [switch(datacmd) { ... default : return; }] *)
Definition switch_datacmd (fuel : nat) (msg : usbMsg) (g : globals)
  : prog (exit * globals) :=
  match switch_label (cmd msg) with
  | Some c => case_of fuel c msg g
  | None => return_now g
  end.

(** After the switch: a case that ended with [break] is answered with
    [plugin_return_value]; after a [return] there is nothing left to do. *)
Definition trailer (msg : usbMsg) (eg : exit * globals) : prog globals :=
  match fst eg with
  | ReturnNow => Ret (snd eg)
  | Break plugin_return_value =>
      call! (usbSendMessage (cmd msg) 1 [plugin_return_value]) ;;
      Ret (snd eg)
  end.

(** The switch and the trailer after it. *)
Definition process_command (fuel : nat) (msg : usbMsg) (g : globals)
  : prog globals :=
  eg <- switch_datacmd fuel msg g ;;
  trailer msg eg.

(** *** usbProcessIncoming *)

(** The first stage: the answer to a packet received while the user is asked
    for his PIN, and to the status command. *)
Definition answer_status (caller_id : Z) (g : globals) : prog globals :=
  absent <- call! isSmartCardAbsent ;;
  unlocked <- call! getSmartCardInsertedUnlocked ;;
  screen <- call! getCurrentScreen ;;
  let mp_status := mp_status_byte caller_id absent unlocked screen in
  call! (usbSendMessage (CMD MOOLTIPASS_STATUS) 1 [mp_status]) ;;
  Ret g.

(** The third stage and what follows it: the commands of the data
    management range are refused unless the mode was approved. *)
Definition check_mode_and_process (fuel : nat) (msg : usbMsg) (g : globals)
  : prog globals :=
  let plugin_return_value := PLUGIN_BYTE_ERROR in
  if in_datamgmt_range (cmd msg) && (memoryManagementModeApproved g =? FALSE)
  then
    call! (usbSendMessage (cmd msg) 1 [plugin_return_value]) ;;
    Ret g
  else process_command fuel msg g.

(** The second stage and what follows it: the text field check, which
    leaves the body of the message lower-cased when it is a service name. *)
Definition process_message (fuel : nat) (msg : usbMsg) (g : globals)
  : prog globals :=
  let plugin_return_value := PLUGIN_BYTE_ERROR in
  match max_text_size (cmd msg) with
  | Some max =>
      let checked := checkTextField (body msg) (len msg) max in
      if fst checked =? RETURN_NOK then
        call! (usbSendMessage (cmd msg) 1 [plugin_return_value]) ;;
        Ret g
      else
        check_mode_and_process fuel
          {| len := len msg; cmd := cmd msg; body := snd checked |} g
  | None => check_mode_and_process fuel msg g
  end.

(** [usbProcessIncoming(caller_id)], from the globals before the call to
    the globals after it.  [fuel] bounds the polls of a busy wait. *)
Definition usbProcessIncoming (fuel : nat) (caller_id : Z) (g : globals)
  : prog globals :=
  '(r, msg) <- call! usbRawHidRecv ;;
  if negb (r =? RETURN_COM_TRANSF_OK) then Ret g
  else
    if (caller_id =? USB_CALLER_PIN) || (cmd msg =? CMD MOOLTIPASS_STATUS)
    then answer_status caller_id g
    else process_message fuel msg g.

End Parser.

(* ===================================================================== *)
(** ** Well-formed constants *)
(* ===================================================================== *)

Fixpoint distinctb (l : list Z) : bool :=
  match l with
  | [] => true
  | x :: t => negb (existsb (Z.eqb x) t) && distinctb t
  end.

(** What the properties below need of the headers: the commands have
    pairwise distinct values, the two truth values differ, so do the two
    results of a check, and the size of a service name is a byte. *)
Record wf_defines (D : defines) : Prop := {
  wf_codes_distinct : distinctb (map cmd_code all_cmd_names) = true;
  wf_TRUE_FALSE : TRUE <> FALSE;
  wf_OK_NOK : RETURN_OK <> RETURN_NOK;
  wf_service_size : 0 <= NODE_PARENT_SIZE_OF_SERVICE < 256
}.

(* ===================================================================== *)
(** ** A sample configuration *)
(* ===================================================================== *)

(** One assignment of the constants, on which the model runs on concrete
    packets.  A node address holds the page number in its upper bits and
    the node number in its lowest three bits. *)
Definition sample_cmd_code (c : cmd_name) : Z :=
  match c with
  | PING => 161 | VERSION => 162 | CONTEXT => 163 | GET_LOGIN => 164
  | GET_PASSWORD => 165 | SET_LOGIN => 166 | SET_PASSWORD => 167
  | CHECK_PASSWORD => 168 | ADD_CONTEXT => 169 | SET_BOOTLOADER_PWD => 170
  | JUMP_TO_BOOTLOADER => 171 | GET_RANDOM_NUMBER => 172
  | START_MEMORYMGMT => 173 | IMPORT_MEDIA_START => 174 | IMPORT_MEDIA => 175
  | IMPORT_MEDIA_END => 176 | SET_MOOLTIPASS_PARM => 177
  | GET_MOOLTIPASS_PARM => 178 | RESET_CARD => 179 | READ_CARD_LOGIN => 180
  | READ_CARD_PASS => 181 | SET_CARD_LOGIN => 182 | SET_CARD_PASS => 183
  | ADD_UNKNOWN_CARD => 184 | MOOLTIPASS_STATUS => 185 | SET_DATE => 187
  | SET_UID => 188 | GET_UID => 189 | SET_DATA_SERVICE => 190
  | ADD_DATA_SERVICE => 191 | WRITE_32B_IN_DN => 192 | READ_32B_IN_DN => 193
  | GET_CUR_CARD_CPZ => 194 | CANCEL_REQUEST => 195 | READ_FLASH_NODE => 197
  | WRITE_FLASH_NODE => 198 | GET_FAVORITE => 199 | SET_FAVORITE => 200
  | GET_STARTING_PARENT => 201 | SET_STARTING_PARENT => 202
  | GET_CTRVALUE => 203 | SET_CTRVALUE => 204 | ADD_CARD_CPZ_CTR => 205
  | GET_CARD_CPZ_CTR => 206 | GET_FREE_SLOTS_ADDR => 208
  | GET_DN_START_PARENT => 209 | SET_DN_START_PARENT => 210
  | END_MEMORYMGMT => 211 | UNLOCK_WITH_PIN => 213 | GET_DESCRIPTION => 214
  | ERASE_EEPROM => 64 | ERASE_FLASH => 65 | ERASE_SMC => 66
  | DRAW_BITMAP => 67 | SET_FONT => 68 | USB_KEYBOARD_PRESS => 69
  | STACK_FREE => 70 | CLONE_SMARTCARD => 71 | MINI_FRAME_BUF_DATA => 72
  end.

Definition sample_defines : defines := {|
  cmd_code := sample_cmd_code;
  FIRST_CMD_FOR_DATAMGMT := 197;
  LAST_CMD_FOR_DATAMGMT := 211;
  TRUE := 1;
  FALSE := 0;
  RETURN_OK := 0;
  RETURN_NOK := -1;
  RETURN_COM_TRANSF_OK := 2;
  RETURN_PASS_CHECK_NOK := -1;
  RETURN_PASS_CHECK_OK := 0;
  RETURN_MOOLTIPASS_USER := 4;
  RETURN_VCARD_OK := 0;
  TIMER_RUNNING := 1;
  PLUGIN_BYTE_ERROR := 0;
  PLUGIN_BYTE_OK := 1;
  PLUGIN_BYTE_NOCARD := 3;
  PLUGIN_BYTE_NA := 2;
  USB_CALLER_PIN := 1;
  SCREEN_DEFAULT_INSERTED_UNKNOWN := 7;
  SCREEN_DEFAULT_INSERTED_LCK := 1;
  SCREEN_DEFAULT_INSERTED_NLCK := 2;
  SCREEN_DEFAULT_INSERTED_INVALID := 3;
  SCREEN_MEMORY_MGMT := 8;
  ID_STRING_MEMORYMGMTQ := 10;
  ID_STRING_WARNING := 11;
  ID_STRING_ALLOW_UPDATE := 12;
  ID_STRING_PIN_COMPUTER := 13;
  ID_STRING_SEND_SMC_PASS := 14;
  ID_STRING_SET_SMC_LOGIN := 15;
  ID_STRING_SET_SMC_PASS := 16;
  TIMER_CREDENTIALS := 3;
  RAWHID_RX_SIZE := 64;
  RAWHID_TX_SIZE := 64;
  HID_DATA_START := 2;
  PACKET_EXPORT_SIZE := 62;
  NODE_SIZE := 132;
  NODE_PARENT_SIZE_OF_SERVICE := 121;
  NODE_CHILD_SIZE_OF_LOGIN := 63;
  NODE_CHILD_SIZE_OF_PASSWORD := 32;
  DATA_NODE_BLOCK_SIZ := 32;
  USER_CTR_SIZE := 3;
  SMARTCARD_MTP_LOGIN_LENGTH := 496;
  SMARTCARD_MTP_PASS_LENGTH := 240;
  SMARTCARD_MTP_LOGIN_OFFSET := 16;
  SMARTCARD_MTP_PASS_OFFSET := 16;
  SMARTCARD_AZ_BIT_LENGTH := 512;
  SMARTCARD_CPZ_LENGTH := 8;
  SMARTCARD_DEFAULT_PIN := 3855;
  AES256_CTR_LENGTH := 16;
  AES_KEY_LENGTH := 256;
  UID_REQUEST_KEY_SIZE := 16;
  UID_SIZE := 6;
  BYTES_PER_PAGE := 264;
  GRAPHIC_ZONE_PAGE_START := 0;
  GRAPHIC_ZONE_PAGE_END := 128;
  NODE_ADDR_NULL := 0;
  pageNumberFromAddress := fun addr => Z.land (Z.shiftr addr 3) 8191;
  nodeNumberFromAddress := fun addr => Z.land addr 7;
  SERVICE_CRED_TYPE := 0;
  SERVICE_DATA_TYPE := 1;
  EEP_BOOT_PWD_SET := 1000;
  EEP_BOOT_PWD := 1001;
  EEP_BOOTKEY_ADDR := 0;
  EEP_BACKUP_BOOTKEY_ADDR := 1022;
  EEP_UID_REQUEST_KEY_SET_ADDR := 900;
  EEP_UID_REQUEST_KEY_ADDR := 901;
  EEP_UID_ADDR := 917;
  BOOTLOADER_PWDOK_KEY := 171;
  BOOTLOADER_BOOTKEY := 45054;
  CORRECT_BOOTKEY := 57005;
  UID_REQUEST_KEY_OK_KEY := 187;
  LOCK_TIMEOUT_ENABLE_PARAM := 2;
  WHEEL_DIRECTION_REVERSE_PARAM := 20;
  MINI_OLED_CONTRAST_CURRENT_PARAM := 21;
  mooltipass_version := [118; 49; 0]
|}.

(** A build with the plugin commands and without the development
    commands. *)
Definition sample_build : build := {|
  USB_FEATURE_PLUGIN_COMMS := true;
  DEV_PLUGIN_COMMS := false;
  AVR_BOOTLOADER_PROGRAMMING := false;
  MINI_VERSION := false;
  MINI_PREPRODUCTION_SETUP := false;
  MINI_PREPRODUCTION_SETUP_ACC := false;
  POST_KICKSTARTER_UPDATE_SETUP := false;
  HARDWARE_OLIVIER_V1 := false
|}.

(* ===================================================================== *)
(** ** What the properties are stated with *)
(* ===================================================================== *)

(** *** Runs *)

(** The result of a run that starts with the call [c]. *)
Definition after {W R : Type} (c : call) (r : result W R) : result W R :=
  {| outcome := outcome r; world := world r; trace := c :: trace r |}.

(** The result of a run that goes on as [r2] from where [r1] returned. *)
Definition and_so {W A B : Type} (r1 : result W A)
    (r2 : A -> W -> result W B) : result W B :=
  match outcome r1 with
  | Returned a =>
      let r := r2 a (world r1) in
      {| outcome := outcome r; world := world r; trace := trace r1 ++ trace r |}
  | Hung => {| outcome := Hung; world := world r1; trace := trace r1 |}
  | Starved => {| outcome := Starved; world := world r1; trace := trace r1 |}
  end.

(** The environment hands over the packet [msg]. *)
Definition receives {D : defines} {W : Type} (env : environment W)
    (w : W) (msg : usbMsg) (w' : W) : Prop :=
  env usbRawHidRecv w = ((RETURN_COM_TRANSF_OK, msg), w').

(** The state of the firmware after the calls [t], made in this order
    from the state [w]. *)
Definition apply_calls {W : Type} (env : environment W) (t : list call) (w : W) : W :=
  fold_left (fun w c => snd (env c w)) t w.

(** [usbProcessIncoming] called [n] times in a row, as the main loop does. *)
Fixpoint usbProcessIncoming_times {B : build} {D : defines}
    (fuel : nat) (caller_id : Z) (n : nat) (g : globals) : prog globals :=
  match n with
  | O => Ret g
  | S m =>
      g' <- usbProcessIncoming fuel caller_id g ;;
      usbProcessIncoming_times fuel caller_id m g'
  end.

(** The answers sent to the host during a run. *)
Definition is_answer (c : call) : bool :=
  match c with
  | usbSendMessage _ _ _ => true
  | _ => false
  end.
Definition answers (t : list call) : list call := filter is_answer t.

(** *** The stages of the dispatcher *)

(** The commands whose payload is a text field. *)
Definition is_text_cmd (c : cmd_name) : bool :=
  match c with
  | CONTEXT | ADD_CONTEXT | SET_DATA_SERVICE | ADD_DATA_SERVICE | SET_LOGIN
  | SET_PASSWORD | CHECK_PASSWORD | SET_CARD_LOGIN | SET_CARD_PASS => true
  | _ => false
  end.

(** The maximum the dispatcher gives [checkTextField] for a text command:
    the macro of the field, stored in a [uint8_t]. *)
Definition field_max {D : defines} (c : cmd_name) : Z :=
  match c with
  | CONTEXT | ADD_CONTEXT | SET_DATA_SERVICE | ADD_DATA_SERVICE =>
      uint8 NODE_PARENT_SIZE_OF_SERVICE
  | SET_LOGIN => uint8 NODE_CHILD_SIZE_OF_LOGIN
  | SET_PASSWORD | CHECK_PASSWORD => uint8 NODE_CHILD_SIZE_OF_PASSWORD
  | SET_CARD_LOGIN => uint8 (Z.quot SMARTCARD_MTP_LOGIN_LENGTH 8)
  | SET_CARD_PASS => uint8 (Z.quot SMARTCARD_MTP_PASS_LENGTH 8)
  | _ => 0
  end.

(** The commands whose text field is a service name. *)
Definition is_service_cmd (c : cmd_name) : bool :=
  match c with
  | CONTEXT | ADD_CONTEXT | SET_DATA_SERVICE | ADD_DATA_SERVICE => true
  | _ => false
  end.

(** A well-formed text field: the declared length is not zero, does not
    exceed the maximum of the field, is the length of the string plus one
    (the terminating zero is the last declared byte), and fits the payload
    of a packet. *)
Definition text_field_ok {D : defines} (data : list Z) (len max_len : Z) : Prop :=
  len <> 0
  /\ len <= max_len
  /\ len = strlen data + 1
  /\ len <= RAWHID_RX_SIZE - HID_DATA_START.

(** The message passes the gate of the data management range. *)
Definition mode_allows {D : defines} (msg : usbMsg) (g : globals) : Prop :=
  in_datamgmt_range (cmd msg) && (memoryManagementModeApproved g =? FALSE) = false.

(** *** The node write *)

Section NodeWriteDefs.

Context {D : defines}.

(** The fields of a WRITE_FLASH_NODE packet. *)
Definition node_address (msg : usbMsg) : Z := word_at (body msg) 0.
Definition packet_number (msg : usbMsg) : Z := byte_at (body msg) 2.

(** The test the case makes before it writes, on the globals [g] it has
    then: the packet is for the node being written, there is such a node,
    and the bytes of the packet end within the node. *)
Definition write_accepted (msg : usbMsg) (g : globals) : bool :=
  (currentNodeWritten g =? node_address msg)
  && negb (currentNodeWritten g =? NODE_ADDR_NULL)
  && (packet_number msg * (PACKET_EXPORT_SIZE - 3) + (len msg - 3) <=? NODE_SIZE).

(** Where the payload of the packet goes in the staging buffer. *)
Definition staged_offset (msg : usbMsg) (g : globals) : Z :=
  NODE_SIZE * nodeNumberFromAddress (currentNodeWritten g)
  + packet_number msg * (PACKET_EXPORT_SIZE - 3).

(** The flush after the last packet of a node. *)
Definition flush_calls (msg : usbMsg) (g : globals) : list call :=
  if packet_number msg =? Z.quot NODE_SIZE (PACKET_EXPORT_SIZE - 3)
  then [flashWriteBufferToPage (pageNumberFromAddress (currentNodeWritten g))]
  else [].

(** Packet number [i] of the write of the node at [addr]: the address, the
    packet number, the bytes [chunk] of the node, and whatever follows them
    in the receive buffer. *)
Definition write_packet (addr i : Z) (chunk pad : list Z) : usbMsg :=
  {| len := 3 + Z.of_nat (length chunk);
     cmd := cmd_code WRITE_FLASH_NODE;
     body := [addr mod 256; addr / 256; i] ++ chunk ++ pad |}.

(** Where the bytes of packet [i] go in the staging buffer. *)
Definition chunk_offset (addr i : Z) : Z :=
  NODE_SIZE * nodeNumberFromAddress addr + i * (PACKET_EXPORT_SIZE - 3).

(** The packets of a node write, numbered from [i]; [pad c] is what
    follows the chunk [c] in the receive buffer. *)
Fixpoint write_packets (addr : Z) (i : nat) (chunks : list (list Z))
    (pad : list Z -> list Z) : list usbMsg :=
  match chunks with
  | [] => []
  | c :: cs =>
      write_packet addr (Z.of_nat i) c (pad c) :: write_packets addr (S i) cs pad
  end.

End NodeWriteDefs.

(** Every packet but the last carries [size] bytes of the node. *)
Fixpoint full_chunks (size : Z) (chunks : list (list Z)) : Prop :=
  match chunks with
  | [] => True
  | c :: cs => (cs = [] \/ Z.of_nat (length c) = size) /\ full_chunks size cs
  end.

(** Writing [data] into a buffer at [off]. *)
Definition splice (buf : list Z) (off : nat) (data : list Z) : list Z :=
  memcpy_at buf off data (length data).

(** *** The credentials timer *)

Section TimerDefs.

Context {D : defines} {W : Type} (env : environment W).





End TimerDefs.

(* ===================================================================== *)
(** ** A model of the rest of the firmware *)
(* ===================================================================== *)

(** Modelled from the spec: the collaborators of the parser are not among
    the sources (the USB transport, the smartcard predicates, the node
    store with its staging buffer, ownership check and favorites, the data
    blocks of the current data context, the EEPROM and the timer).  This is
    a small state for them, with the behaviour the specification gives:
    [writeBuffer] writes into a staging buffer that reaches the flash page
    only on a flush; the ownership check compares the owner of a node to
    the active user; a data block is appended to the current data context;
    the timer is running until its delay has passed. *)
Record firmware : Type := {
  inbox : list usbMsg;              (* packets the host has sent *)
  card_absent : Z;                  (* isSmartCardAbsent() *)
  card_unlocked : Z;                (* getSmartCardInsertedUnlocked() *)
  screen : Z;                       (* getCurrentScreen() *)
  user_id : Z;                      (* getCurrentUserID() *)
  owner : Z -> Z;                   (* the user id in the flags of a node *)
  flash : Z -> list Z;              (* the pages of the flash *)
  staging : list Z;                 (* the internal buffer of the flash *)
  data_context : bool;              (* a data context is selected *)
  data_blocks : list (list Z);      (* its blocks, last appended first *)
  favorites : Z -> Z * Z;
  eeprom : Z -> Z;
  clock : Z;                        (* ticks since power on *)
  credential_deadline : Z           (* when TIMER_CREDENTIALS expires *)
}.

Definition no_msg : usbMsg := {| len := 0; cmd := 0; body := [] |}.

(** The answer of a call the model says nothing about. *)
Definition default_answer (c : call) : answer c :=
  match c as c0 return answer c0 with
  | usbRawHidRecv => (0, no_msg)
  | isSmartCardAbsent | getSmartCardInsertedUnlocked | cardDetectedRoutine
  | validCardDetectedFunction _ | removeCardAndReAuthUser
  | cloneSmartCardProcess _ | writeSmartCardCPZForUserId _ _ _
  | getCurrentScreen | guiAskForConfirmation _ _ | guiCardUnlockingProcess
  | setCurrentContext _ _ | addNewContext _ _ _ | setLoginForContext _ _
  | setPasswordForContext _ _ | checkPasswordForContext _
  | addDataForDataContext _ _ | getStartingParentAddress
  | getStartingDataParentAddress | checkUserPermission _ | getCurrentUserID
  | userIdToFlags _ _ | eeprom_read_byte _
  | getMooltipassParameterInEeprom _ | hasTimerExpired _ _ | stackFree => 0
  | readCodeProtectedZone | readAES256BitsKey | readMooltipassWebsiteLogin
  | readMooltipassWebsitePassword | readApplicationZone1
  | readApplicationZone2 | readStoredStringToBuffer _ | readNode _
  | readProfileCtr | eeprom_read_block _ _
  | fillArrayWithRandomBytes _ => []
  | getLoginForContext | getPasswordForContext | getDescriptionForContext
  | get32BytesDataForCurrentService | findFreeNodes _ _ _ => (0, [])
  | addNewUserForExistingCard _ => (0, 0)
  | readFav _ => (0, 0)
  | _ => tt
  end.

Definition set_inbox (v : list usbMsg) (w : firmware) : firmware :=
  {| inbox := v; card_absent := card_absent w;
     card_unlocked := card_unlocked w; screen := screen w;
     user_id := user_id w; owner := owner w; flash := flash w;
     staging := staging w; data_context := data_context w;
     data_blocks := data_blocks w; favorites := favorites w;
     eeprom := eeprom w; clock := clock w;
     credential_deadline := credential_deadline w |}.

Definition set_flash (v : Z -> list Z) (w : firmware) : firmware :=
  {| inbox := inbox w; card_absent := card_absent w;
     card_unlocked := card_unlocked w; screen := screen w;
     user_id := user_id w; owner := owner w; flash := v;
     staging := staging w; data_context := data_context w;
     data_blocks := data_blocks w; favorites := favorites w;
     eeprom := eeprom w; clock := clock w;
     credential_deadline := credential_deadline w |}.

Definition set_staging (v : list Z) (w : firmware) : firmware :=
  {| inbox := inbox w; card_absent := card_absent w;
     card_unlocked := card_unlocked w; screen := screen w;
     user_id := user_id w; owner := owner w; flash := flash w;
     staging := v; data_context := data_context w;
     data_blocks := data_blocks w; favorites := favorites w;
     eeprom := eeprom w; clock := clock w;
     credential_deadline := credential_deadline w |}.

Definition set_data_blocks (v : list (list Z)) (w : firmware) : firmware :=
  {| inbox := inbox w; card_absent := card_absent w;
     card_unlocked := card_unlocked w; screen := screen w;
     user_id := user_id w; owner := owner w; flash := flash w;
     staging := staging w; data_context := data_context w;
     data_blocks := v; favorites := favorites w;
     eeprom := eeprom w; clock := clock w;
     credential_deadline := credential_deadline w |}.

Definition set_favorites (v : Z -> Z * Z) (w : firmware) : firmware :=
  {| inbox := inbox w; card_absent := card_absent w;
     card_unlocked := card_unlocked w; screen := screen w;
     user_id := user_id w; owner := owner w; flash := flash w;
     staging := staging w; data_context := data_context w;
     data_blocks := data_blocks w; favorites := v;
     eeprom := eeprom w; clock := clock w;
     credential_deadline := credential_deadline w |}.

Definition set_clock (v : Z) (w : firmware) : firmware :=
  {| inbox := inbox w; card_absent := card_absent w;
     card_unlocked := card_unlocked w; screen := screen w;
     user_id := user_id w; owner := owner w; flash := flash w;
     staging := staging w; data_context := data_context w;
     data_blocks := data_blocks w; favorites := favorites w;
     eeprom := eeprom w; clock := v;
     credential_deadline := credential_deadline w |}.

Definition set_credential_deadline (v : Z) (w : firmware) : firmware :=
  {| inbox := inbox w; card_absent := card_absent w;
     card_unlocked := card_unlocked w; screen := screen w;
     user_id := user_id w; owner := owner w; flash := flash w;
     staging := staging w; data_context := data_context w;
     data_blocks := data_blocks w; favorites := favorites w;
     eeprom := eeprom w; clock := clock w;
     credential_deadline := v |}.

(** The EEPROM bytes [addr], ..., [addr + n - 1]. *)
Definition eeprom_block (w : firmware) (addr : Z) (n : nat) : list Z :=
  map (fun i => eeprom w (addr + Z.of_nat i)) (seq 0 n).

Section Firmware.

Context {D : defines}.

(** [userIdToFlags] in the model: the user id of a node is kept in the low
    five bits of its flags. *)
Definition stamp_user (flags uid : Z) : Z :=
  Z.lor (Z.land flags 65504) (Z.land uid 31).

Definition firmware_env : environment firmware :=
  fun c w =>
    match c as c0 return answer c0 * firmware with
    | usbRawHidRecv =>
        match inbox w with
        | msg :: rest => ((RETURN_COM_TRANSF_OK, msg), set_inbox rest w)
        | [] => ((RETURN_COM_TRANSF_OK + 1, no_msg), w)
        end
    | isSmartCardAbsent => (card_absent w, w)
    | getSmartCardInsertedUnlocked => (card_unlocked w, w)
    | getCurrentScreen => (screen w, w)
    | getCurrentUserID => (user_id w, w)
    | checkUserPermission addr =>
        (if owner w addr =? user_id w then RETURN_OK else RETURN_NOK, w)
    | userIdToFlags flags uid => (stamp_user flags uid, w)
    | loadPageToInternalBuffer page => (tt, set_staging (flash w page) w)
    | flashWriteBuffer data offset size =>
        (tt, set_staging
               (memcpy_at (staging w) (Z.to_nat offset) data (Z.to_nat size)) w)
    | flashWriteBufferToPage page =>
        (tt, set_flash (fun p => if p =? page then staging w else flash w p) w)
    | addDataForDataContext data last_packet_flag =>
        if data_context w
        then (RETURN_OK,
              set_data_blocks
                (firstn (Z.to_nat DATA_NODE_BLOCK_SIZ) data :: data_blocks w) w)
        else (RETURN_NOK, w)
    | setFav favId parentAddr childAddr =>
        (tt, set_favorites
               (fun i => if i =? favId then (parentAddr, childAddr)
                         else favorites w i) w)
    | readFav favId => (favorites w favId, w)
    | eeprom_read_byte addr => (eeprom w addr, w)
    | eeprom_read_block addr n => (eeprom_block w addr (Z.to_nat n), w)
    | activateTimer timer ms =>
        (tt, if timer =? TIMER_CREDENTIALS
             then set_credential_deadline (clock w + ms) w else w)
    | hasTimerExpired timer clear =>
        (if clock w <? credential_deadline w
         then TIMER_RUNNING else TIMER_RUNNING + 1,
         set_clock (clock w + 1) w)
    | c' => (default_answer c', w)
    end.

End Firmware.

Definition sample_env : environment firmware := @firmware_env sample_defines.

(** A device with an unlocked card of user 1, who owns the nodes of page 2
    and no other; the flash and the staging buffer hold pages of 264 bytes;
    a data context is selected. *)
Definition sample_firmware (packets : list usbMsg) : firmware := {|
  inbox := packets;
  card_absent := -1;
  card_unlocked := 1;
  screen := 2;
  user_id := 1;
  owner := fun addr => if Z.shiftr addr 3 =? 2 then 1 else 2;
  flash := fun page => repeat (page + 160) 264;
  staging := repeat 0 264;
  data_context := true;
  data_blocks := [];
  favorites := fun _ => (0, 0);
  eeprom := fun addr => addr mod 7;
  clock := 0;
  credential_deadline := 0
|}.

(** The content of a node as the packets of a write leave it in the
    staging buffer of the model: the payload with the user id stamped into
    its first word, the flags. *)
Definition stamped (payload : list Z) (uid : Z) : list Z :=
  store_word payload 0 (stamp_user (word_at payload 0) uid).

(* ===================================================================== *)
(** ** Sample inputs *)
(* ===================================================================== *)

(** A [GET_LOGIN] packet. *)
Definition login_request : usbMsg :=
  {| len := 0; cmd := 164; body := repeat 0 62 |}.

(** A device with a card that is present and locked, showing the screen of
    a locked card. *)
Definition locked_device (packets : list usbMsg) : firmware :=
  {| inbox := packets; card_absent := -1; card_unlocked := 0; screen := 1;
     user_id := 0; owner := fun _ => 1; flash := fun _ => [];
     staging := []; data_context := false; data_blocks := [];
     favorites := fun _ => (0, 0); eeprom := fun _ => 0; clock := 0;
     credential_deadline := 0 |}.

(** A [READ_FLASH_NODE] packet for the node at address 16. *)
Definition read_node_request : usbMsg :=
  {| len := 2; cmd := 197; body := [16; 0] ++ repeat 0 60 |}.

(** A cancel request, and an END_MEMORYMGMT packet. *)
Definition cancel_request : usbMsg :=
  {| len := 0; cmd := 195; body := repeat 0 62 |}.

Definition end_memorymgmt_request : usbMsg :=
  {| len := 0; cmd := 211; body := repeat 0 62 |}.

(** Globals in the middle of a write of node 17 in approved memory
    management mode. *)
Definition writing_globals : globals :=
  {| memoryManagementModeApproved := 1; mediaFlashImportApproved := 0;
     currentNodeWritten := 17; mediaFlashImportPage := 0;
     mediaFlashImportOffset := 0 |}.

(** A WRITE_32B_IN_DN packet whose declared length is 5, not 33. *)
Definition short_block_request : usbMsg :=
  {| len := 5; cmd := 192; body := [0; 222; 173; 190; 239] ++ repeat 0 57 |}.

(** A SET_FAVORITE packet for slot 255, with parent 0x0010 and child
    0x0011. *)
Definition set_favorite_255 : usbMsg :=
  {| len := 5; cmd := 200; body := [255; 16; 0; 17; 0] ++ repeat 0 57 |}.

(** Globals in approved memory management mode, no node being written. *)
Definition approved_globals : globals :=
  {| memoryManagementModeApproved := 1; mediaFlashImportApproved := 0;
     currentNodeWritten := 0; mediaFlashImportPage := 0;
     mediaFlashImportOffset := 0 |}.

(** The first packet of a write of node 8, which user 1 does not own, and
    the second packet of a write of node 17. *)
Definition first_packet_foreign_node : usbMsg :=
  {| len := 62; cmd := 198; body := [8; 0; 0] ++ repeat 9 59 |}.
Definition second_packet_node_17 : usbMsg :=
  {| len := 62; cmd := 198; body := [17; 0; 1] ++ repeat 9 59 |}.

(** A CONTEXT packet for the service "GitHub", and a SET_LOGIN packet whose
    declared length is zero. *)
Definition context_request : usbMsg :=
  {| len := 7; cmd := 163; body := [71; 105; 116; 72; 117; 98; 0] ++ repeat 0 55 |}.
Definition empty_login_request : usbMsg :=
  {| len := 0; cmd := 166; body := repeat 0 62 |}.


(** The three packets of a write of node 17 (page 2, node 1), with 59, 59
    and 14 bytes of the node, as the host sends them. *)
Definition node_17_chunks : list (list Z) :=
  [[255; 255] ++ repeat 1 57; repeat 2 59; repeat 3 14].
Definition zero_pad (c : list Z) : list Z := repeat 0 (59 - length c).
Definition node_17_packets : list usbMsg :=
  @write_packets sample_defines 17 0 node_17_chunks zero_pad.

(** The first packet of a write of node 17 that declares 140 bytes, and a
    device whose staging buffer holds the bytes of a write in progress. *)
Definition oversized_first_packet : usbMsg :=
  {| len := 140; cmd := 198; body := [17; 0; 0] ++ repeat 9 59 |}.
Definition device_in_mid_write : firmware :=
  set_staging (repeat 7 264) (sample_firmware [oversized_first_packet]).

(* ===================================================================== *)
(** ** What a call of the dispatcher may do *)
(* ===================================================================== *)

(** *** Events *)

(** A call out of the file together with the answer it got. *)
Definition event : Type := {c : call & answer c}.
Definition did (c : call) (a : answer c) : event := existT answer c a.
Definition call_of (e : event) : call := projT1 e.

(** The events of a run: the calls of its trace, each with the answer of
    the environment. *)
Fixpoint events {W R : Type} (env : environment W) (p : prog R) (w : W) : list event :=
  match p with
  | Call c k =>
      let aw := env c w in
      did c (fst aw) :: events env (k (fst aw)) (snd aw)
  | _ => []
  end.

(** The call [c] is among the events [log]. *)
Definition made (c : call) (log : list event) : Prop := In c (map call_of log).

(** What the dispatcher itself sends to the host over the raw HID
    channel. *)
Definition is_reply (c : call) : bool :=
  match c with
  | usbSendMessage _ _ _ | usbHidSend _ _ _ => true
  | _ => false
  end.
Definition replies (t : list call) : list call := filter is_reply t.

(** The polls of a timer, of which a run has as many as the timer takes. *)
Definition is_poll (c : call) : bool :=
  match c with
  | hasTimerExpired _ _ => true
  | _ => false
  end.
Definition recorded (e : event) : bool := negb (is_poll (call_of e)).

(** [on_every_path Q seen p]: however the calls of [p] are answered, the
    events of the run other than timer polls, after those of [seen] (last
    first), and the way the run ends satisfy [Q]. *)
Fixpoint on_every_path {R : Type}
    (Q : list event -> final R -> Prop) (seen : list event) (p : prog R) : Prop :=
  match p with
  | Ret r => Q (rev seen) (Returned r)
  | Hang => Q (rev seen) Hung
  | Starve => Q (rev seen) Starved
  | Call c k =>
      forall a : answer c,
        on_every_path Q (if is_poll c then seen else did c a :: seen) (k a)
  end.

(** The event is a re-authentication of the user that succeeded. *)
Definition reauthenticated {D : defines} (e : event) : bool :=
  match e with
  | existT _ c a =>
      match c as c0 return answer c0 -> bool with
      | removeCardAndReAuthUser => fun r => r =? RETURN_OK
      | _ => fun _ => false
      end a
  end.

(** The event is not the reception of a packet whose length field is out
    of the range of a byte. *)
Definition byte_packet (e : event) : bool :=
  match e with
  | existT _ c a =>
      match c as c0 return answer c0 -> bool with
      | usbRawHidRecv => fun r => (0 <=? len (snd r)) && (len (snd r) <? 256)
      | _ => fun _ => true
      end a
  end.

(** Calls that read or overwrite the credentials kept on the smartcard,
    calls that touch the staging buffer of the flash or flush it, and
    direct writes to the EEPROM. *)
Definition touches_card_credentials (c : call) : bool :=
  match c with
  | readMooltipassWebsitePassword | writeApplicationZone1 _
  | writeApplicationZone2 _ | eraseApplicationZone1NZone2SMC _ => true
  | _ => false
  end.

Definition touches_flash_buffer (c : call) : bool :=
  match c with
  | loadPageToInternalBuffer _ | flashWriteBuffer _ _ _
  | flashWriteBufferToPage _ => true
  | _ => false
  end.

Definition writes_eeprom (c : call) : bool :=
  match c with
  | eeprom_write_byte _ _ | eeprom_write_word _ _
  | eeprom_write_block _ _ _ => true
  | _ => false
  end.

(** An upper case letter of ASCII. *)
Definition is_upper (c : Z) : bool := (65 <=? c) && (c <=? 90).

(** *** What each call needs, and what each command may change *)

Section Effects.

Context {B : build} {D : defines}.

(** The message the switch sees: the received one, its body lower-cased
    when the text field check did so. *)
Definition seen_by_switch (msg : usbMsg) : usbMsg :=
  match max_text_size (cmd msg) with
  | Some max =>
      {| len := len msg; cmd := cmd msg;
         body := snd (checkTextField (body msg) (len msg) max) |}
  | None => msg
  end.

(** At most one reply: the echo of a ping, or a message under the command
    of the packet or under the status command. *)
Definition one_reply (label : option cmd_name) (datacmd : Z) (rs : list call) : Prop :=
  match rs with
  | [] => True
  | [usbHidSend c _ n] => c = 0 /\ n = 6 /\ label = Some PING
  | [usbSendMessage c _ _] => c = datacmd \/ c = cmd_code MOOLTIPASS_STATUS
  | _ => False
  end.

(** The user approved a confirmation screen of [nb_args] lines. *)
Definition confirmed (nb_args : Z) (earlier : list event) : Prop :=
  exists text, In (did (guiAskForConfirmation nb_args text) RETURN_OK) earlier.

(** [checkMooltipassPassword(candidate, addr, n) == TRUE], on the bytes
    [stored] that it read from the EEPROM. *)
Definition password_matched (stored candidate : list Z) (n : Z) : Prop :=
  (if uint8 (memcmp stored candidate (Z.to_nat n)) =? 0 then TRUE else FALSE)
  = TRUE.

(** The bootloader password is set, the packet has the length of a
    password, the user approved, and the body of the packet passed the
    password check. *)
Definition bootloader_password_given (msg : usbMsg) (earlier : list event) : Prop :=
  In (did (eeprom_read_byte EEP_BOOT_PWD_SET) BOOTLOADER_PWDOK_KEY) earlier
  /\ len msg = PACKET_EXPORT_SIZE
  /\ confirmed 2 earlier
  /\ exists stored,
       In (did (eeprom_read_block EEP_BOOT_PWD PACKET_EXPORT_SIZE) stored) earlier
       /\ password_matched stored (body msg) PACKET_EXPORT_SIZE.

(** The two settings that are written to the EEPROM once, the UID with its
    request key and the bootloader password: each is written by its command
    only, to a packet of the right length, after its marker byte was read
    and found not to be the marker. *)
Definition written_once (label : option cmd_name) (msg : usbMsg)
    (earlier : list event) : Prop :=
  (label = Some SET_UID
   /\ len msg = UID_REQUEST_KEY_SIZE + UID_SIZE
   /\ exists v, In (did (eeprom_read_byte EEP_UID_REQUEST_KEY_SET_ADDR) v) earlier
                /\ v <> UID_REQUEST_KEY_OK_KEY)
  \/ (label = Some SET_BOOTLOADER_PWD
      /\ len msg = PACKET_EXPORT_SIZE
      /\ exists v, In (did (eeprom_read_byte EEP_BOOT_PWD_SET) v) earlier
                   /\ v <> BOOTLOADER_PWDOK_KEY).

(** The writes that hand the device over to the bootloader: by
    JUMP_TO_BOOTLOADER after the delay, in a development build or with the
    bootloader password; by IMPORT_MEDIA_END in a preproduction build when
    the bootloader password is set. *)
Definition bootloader_start_justified (label : option cmd_name) (msg : usbMsg)
    (earlier : list event) : Prop :=
  (label = Some JUMP_TO_BOOTLOADER
   /\ made userViewDelay earlier
   /\ (DEV_PLUGIN_COMMS || AVR_BOOTLOADER_PROGRAMMING = true
       \/ bootloader_password_given msg earlier))
  \/ (label = Some IMPORT_MEDIA_END
      /\ MINI_PREPRODUCTION_SETUP || MINI_PREPRODUCTION_SETUP_ACC = true
      /\ In (did (eeprom_read_byte EEP_BOOT_PWD_SET) BOOTLOADER_PWDOK_KEY) earlier).

(** What the dispatcher has established when it makes the call [c]: the
    label the switch jumped to, and the events before the call. *)
Definition needs (label : option cmd_name) (msg : usbMsg) (g : globals)
    (c : call) (earlier : list event) : Prop :=
  match c with
  (* nodes and the staging buffer of the flash *)
  | readNode addr => In (did (checkUserPermission addr) RETURN_OK) earlier
  | loadPageToInternalBuffer page =>
      label = Some WRITE_FLASH_NODE
      /\ exists addr, page = pageNumberFromAddress addr
                      /\ In (did (checkUserPermission addr) RETURN_OK) earlier
  | flashWriteBuffer _ offset size =>
      label = Some WRITE_FLASH_NODE
      \/ (label = Some IMPORT_MEDIA
          /\ offset = mediaFlashImportOffset g /\ size = len msg
          /\ mediaFlashImportApproved g <> FALSE
          /\ mediaFlashImportPage g < GRAPHIC_ZONE_PAGE_END
          /\ uint16 (mediaFlashImportOffset g + len msg) <= BYTES_PER_PAGE)
  | flashWriteBufferToPage page =>
      label = Some WRITE_FLASH_NODE
      \/ (label = Some IMPORT_MEDIA
          /\ page = mediaFlashImportPage g
          /\ mediaFlashImportApproved g <> FALSE
          /\ mediaFlashImportPage g < GRAPHIC_ZONE_PAGE_END)
      \/ (label = Some IMPORT_MEDIA_END
          /\ page = mediaFlashImportPage g
          /\ mediaFlashImportApproved g = TRUE
          /\ mediaFlashImportOffset g <> 0)
  (* the smartcard *)
  | readMooltipassWebsiteLogin =>
      In (did getSmartCardInsertedUnlocked TRUE) earlier
  | readMooltipassWebsitePassword | writeApplicationZone1 _
  | writeApplicationZone2 _ | eraseApplicationZone1NZone2SMC _ =>
      In (did getSmartCardInsertedUnlocked TRUE) earlier /\ confirmed 1 earlier
  | validCardDetectedFunction _ =>
      len msg = 2
      /\ In (did getCurrentScreen SCREEN_DEFAULT_INSERTED_LCK) earlier
      /\ In (did cardDetectedRoutine RETURN_MOOLTIPASS_USER) earlier
      /\ confirmed 1 earlier
  | addNewUserForExistingCard _ =>
      label = Some ADD_UNKNOWN_CARD
      /\ len msg = SMARTCARD_CPZ_LENGTH + AES256_CTR_LENGTH
      /\ In (did getCurrentScreen SCREEN_DEFAULT_INSERTED_UNKNOWN) earlier
      /\ In (did guiCardUnlockingProcess RETURN_OK) earlier
      /\ exists cpz,
           In (did readCodeProtectedZone cpz) earlier
           /\ memcmp cpz (body msg) (Z.to_nat SMARTCARD_CPZ_LENGTH) = 0
  | eraseSmartCard =>
      (In (did getCurrentScreen SCREEN_DEFAULT_INSERTED_UNKNOWN) earlier
       /\ In (did guiCardUnlockingProcess RETURN_OK) earlier)
      \/ (DEV_PLUGIN_COMMS = true
          /\ In (did getSmartCardInsertedUnlocked TRUE) earlier)
  (* the EEPROM *)
  | eeprom_write_block _ _ _ => written_once label msg earlier
  | eeprom_write_byte _ _ | eeprom_write_word _ _ =>
      written_once label msg earlier
      \/ bootloader_start_justified label msg earlier
  | eeprom_read_block addr n =>
      (label = Some GET_UID
       /\ len msg = UID_REQUEST_KEY_SIZE
       /\ In (did (eeprom_read_byte EEP_UID_REQUEST_KEY_SET_ADDR)
                UID_REQUEST_KEY_OK_KEY) earlier
       /\ ((addr = EEP_UID_REQUEST_KEY_ADDR /\ n = UID_REQUEST_KEY_SIZE)
           \/ (addr = EEP_UID_ADDR /\ n = UID_SIZE
               /\ exists stored,
                    In (did (eeprom_read_block EEP_UID_REQUEST_KEY_ADDR
                               UID_REQUEST_KEY_SIZE) stored) earlier
                    /\ password_matched stored (body msg) UID_REQUEST_KEY_SIZE)))
      \/ (addr = EEP_BOOT_PWD /\ n = PACKET_EXPORT_SIZE
          /\ made userViewDelay earlier
          /\ len msg = PACKET_EXPORT_SIZE
          /\ In (did (eeprom_read_byte EEP_BOOT_PWD_SET) BOOTLOADER_PWDOK_KEY) earlier
          /\ confirmed 2 earlier)
  | _ => True
  end.

(** Every call of [later] has what it needs in the events before it. *)
Fixpoint guarded (label : option cmd_name) (msg : usbMsg) (g : globals)
    (earlier later : list event) : Prop :=
  match later with
  | [] => True
  | e :: rest =>
      needs label msg g (call_of e) earlier
      /\ guarded label msg g (e :: earlier) rest
  end.

(** How [memoryManagementModeApproved] may change. *)
Definition mode_effect (label : option cmd_name) (g g' : globals) (obs : list event) : Prop :=
  memoryManagementModeApproved g' = memoryManagementModeApproved g
  \/ (label = Some START_MEMORYMGMT
      /\ memoryManagementModeApproved g' = TRUE
      /\ In (did getSmartCardInsertedUnlocked TRUE) obs
      /\ confirmed 241 obs
      /\ In (did removeCardAndReAuthUser RETURN_OK) obs)
  \/ (label = Some END_MEMORYMGMT /\ memoryManagementModeApproved g' = FALSE).

(** How [currentNodeWritten] may change. *)
Definition target_effect (label : option cmd_name) (g g' : globals) (obs : list event) : Prop :=
  currentNodeWritten g' = currentNodeWritten g
  \/ (label = Some END_MEMORYMGMT /\ currentNodeWritten g' = NODE_ADDR_NULL)
  \/ (label = Some WRITE_FLASH_NODE
      /\ In (did (checkUserPermission (currentNodeWritten g')) RETURN_OK) obs
      /\ made (loadPageToInternalBuffer
                 (pageNumberFromAddress (currentNodeWritten g'))) obs).

(** What IMPORT_MEDIA_START has established when it approves the import:
    a development build; or, after the delay and for a packet of the length
    of a password, that no bootloader password is set or that the packet
    holds it and the user approved. *)
Definition import_approved (msg : usbMsg) (obs : list event) : Prop :=
  DEV_PLUGIN_COMMS || AVR_BOOTLOADER_PROGRAMMING = true
  \/ (made userViewDelay obs
      /\ len msg = PACKET_EXPORT_SIZE
      /\ ((exists v, In (did (eeprom_read_byte EEP_BOOT_PWD_SET) v) obs
                     /\ v <> BOOTLOADER_PWDOK_KEY)
          \/ bootloader_password_given msg obs)).

(** One IMPORT_MEDIA packet: refused, and the approval is withdrawn; or
    written at the offset, which advances by the length of the packet and
    wraps to the next page when the page is full. *)
Definition import_step (msg : usbMsg) (g g' : globals) : Prop :=
  (mediaFlashImportApproved g' = FALSE
   /\ mediaFlashImportPage g' = mediaFlashImportPage g
   /\ mediaFlashImportOffset g' = mediaFlashImportOffset g)
  \/ (mediaFlashImportApproved g' = mediaFlashImportApproved g
      /\ mediaFlashImportApproved g <> FALSE
      /\ mediaFlashImportPage g < GRAPHIC_ZONE_PAGE_END
      /\ uint16 (mediaFlashImportOffset g + len msg) <= BYTES_PER_PAGE
      /\ ((uint16 (mediaFlashImportOffset g + len msg) <> BYTES_PER_PAGE
           /\ mediaFlashImportOffset g'
              = uint16 (mediaFlashImportOffset g + len msg)
           /\ mediaFlashImportPage g' = mediaFlashImportPage g)
          \/ (uint16 (mediaFlashImportOffset g + len msg) = BYTES_PER_PAGE
              /\ mediaFlashImportOffset g' = 0
              /\ mediaFlashImportPage g'
                 = uint16 (mediaFlashImportPage g + 1)))).

(** How the three globals of the media import may change. *)
Definition import_effect (label : option cmd_name) (msg : usbMsg)
    (g g' : globals) (obs : list event) : Prop :=
  (mediaFlashImportApproved g' = mediaFlashImportApproved g
   /\ mediaFlashImportPage g' = mediaFlashImportPage g
   /\ mediaFlashImportOffset g' = mediaFlashImportOffset g)
  \/ (label = Some IMPORT_MEDIA_START
      /\ mediaFlashImportPage g' = GRAPHIC_ZONE_PAGE_START
      /\ mediaFlashImportOffset g' = 0
      /\ (mediaFlashImportApproved g' = mediaFlashImportApproved g
          \/ (mediaFlashImportApproved g' = TRUE /\ import_approved msg obs)))
  \/ (label = Some IMPORT_MEDIA /\ import_step msg g g')
  \/ (label = Some IMPORT_MEDIA_END
      /\ mediaFlashImportApproved g' = FALSE
      /\ mediaFlashImportPage g' = mediaFlashImportPage g
      /\ mediaFlashImportOffset g' = mediaFlashImportOffset g).

(** What has happened when the dispatcher enters [while(1);]. *)
Definition hang_effect (label : option cmd_name) (obs : list event) : Prop :=
  (label = Some JUMP_TO_BOOTLOADER \/ label = Some IMPORT_MEDIA_END)
  /\ made (eeprom_write_word EEP_BOOTKEY_ADDR BOOTLOADER_BOOTKEY) obs
  /\ made wdt_enable_2s obs
  /\ replies (map call_of obs) = [].

(** The summary of one call of the dispatcher, in terms of the label of the
    switch for the command of the packet, the message the switch sees, the
    globals before, the events and the way the call ends. *)
Definition handled (label : option cmd_name) (msg : usbMsg) (g : globals)
    (obs : list event) (f : final globals) : Prop :=
  one_reply label (cmd msg) (replies (map call_of obs))
  /\ guarded label msg g [] obs
  /\ match f with
     | Returned g' =>
         mode_effect label g g' obs /\ target_effect label g g' obs
         /\ import_effect label msg g g' obs
     | Hung => hang_effect label obs
     | Starved => True
     end.

(** The invariant of the media import: the offset lies within the page,
    and an approved import with bytes waiting in the staging buffer is on a
    page of the graphics zone. *)
Definition import_inv (g : globals) : Prop :=
  0 <= mediaFlashImportOffset g < BYTES_PER_PAGE
  /\ (mediaFlashImportApproved g <> FALSE -> mediaFlashImportOffset g <> 0 ->
      mediaFlashImportPage g < GRAPHIC_ZONE_PAGE_END).

End Effects.

(* ===================================================================== *)
(** ** The touch sensor *)
(* ===================================================================== *)

(** A shallow embedding of [touch_higher_level_functions.c]. *)

(** The constants of [touch.h] and [defines.h] that the file names; the
    headers are not among the sources. *)
Class touch_defines : Set := {
  HARDWARE_V1 : bool;
  AT42QT2120_ADDR : Z;
  AT42QT2120_ID : Z;
  REG_AT42QT_CHIP_ID : Z;
  REG_AT42QT_DET_STAT : Z;
  REG_AT42QT_KEY_STAT2 : Z;
  REG_AT42QT_LP : Z;
  REG_AT42QT_SLID_OPT : Z;
  REG_AT42QT_KEY0_CTRL : Z;
  REG_AT42QT_KEY1_CTRL : Z;
  REG_AT42QT_KEY2_CTRL : Z;
  REG_AT42QT_KEY3_CTRL : Z;
  REG_AT42QT_KEY4_CTRL : Z;
  REG_AT42QT_KEY5_CTRL : Z;
  REG_AT42QT_KEY6_CTRL : Z;
  REG_AT42QT_KEY7_CTRL : Z;
  REG_AT42QT_KEY8_CTRL : Z;
  REG_AT42QT_KEY9_CTRL : Z;
  REG_AT42QT_KEY10_CTRL : Z;
  REG_AT42QT_KEY11_CTRL : Z;
  AT42QT2120_TOUCH_KEY_VAL : Z;
  AT42QT2120_AKS_GP1_MASK : Z;
  AT42QT2120_GUARD_VAL : Z;
  AT42QT2120_OUTPUT_L_VAL : Z;
  LEFT_BUTTON : Z;
  RIGHT_BUTTON : Z
}.

Section TouchSensing.

Context {D : defines} {TD : touch_defines} {T : Type}.

(** The driver of the sensor ([touch.c], not among the sources), on a
    state [T] of the sensor and its bus.  [readDataFromTS addr reg] gives
    the return code and the byte that is in the caller's [temp_byte] after
    the call (the callers below, other than [checkTSPres], use it without
    looking at the return code); [writeDataToTS addr reg value] gives the
    return code. *)
Variable readDataFromTS : Z -> Z -> T -> Z * Z * T.
Variable writeDataToTS : Z -> Z -> Z -> T -> Z * T.

Definition checkTSPres (ts : T) : Z * T :=
  let '(temp_return, temp_byte, ts) :=
    readDataFromTS AT42QT2120_ADDR REG_AT42QT_CHIP_ID ts in
  if negb (temp_return =? RETURN_OK) then (temp_return, ts)
  else if negb (temp_byte =? AT42QT2120_ID) then (RETURN_NOK, ts)
  else (RETURN_OK, ts).

Definition isWheelTouched (ts : T) : Z * T :=
  let '(_, temp_byte, ts) :=
    readDataFromTS AT42QT2120_ADDR REG_AT42QT_DET_STAT ts in
  if negb (Z.land temp_byte 2 =? 0) then (RETURN_OK, ts) else (RETURN_NOK, ts).

Definition isButtonTouched (ts : T) : Z * T :=
  let '(_, temp_byte, ts) :=
    readDataFromTS AT42QT2120_ADDR REG_AT42QT_DET_STAT ts in
  if negb (Z.land temp_byte 1 =? 0) && (Z.land temp_byte 2 =? 0)
  then (RETURN_OK, ts) else (RETURN_NOK, ts).

Definition getTouchedButton (ts : T) : Z * T :=
  let '(_, temp_byte, ts) :=
    readDataFromTS AT42QT2120_ADDR REG_AT42QT_KEY_STAT2 ts in
  if negb (Z.land temp_byte 2 =? 0) then (LEFT_BUTTON, ts) else (RIGHT_BUTTON, ts).

(** [writeDataToTS(AT42QT2120_ADDR, reg, value);], the return code
    dropped. *)
Definition write_register (reg value : Z) (ts : T) : T :=
  snd (writeDataToTS AT42QT2120_ADDR reg value ts).

Definition initTouchSensing (ts : T) : Z * T :=
  if HARDWARE_V1 then (RETURN_NOK, ts)
  else
    let '(temp_return, ts) := checkTSPres ts in
    if temp_return =? RETURN_OK then
      let key := Z.lor AT42QT2120_TOUCH_KEY_VAL AT42QT2120_AKS_GP1_MASK in
      let guard := Z.lor AT42QT2120_GUARD_VAL AT42QT2120_AKS_GP1_MASK in
      let ts := write_register REG_AT42QT_LP 1 ts in
      let ts := write_register REG_AT42QT_KEY0_CTRL key ts in
      let ts := write_register REG_AT42QT_KEY1_CTRL key ts in
      let ts := write_register REG_AT42QT_KEY2_CTRL key ts in
      let ts := write_register REG_AT42QT_KEY3_CTRL guard ts in
      let ts := write_register REG_AT42QT_KEY4_CTRL AT42QT2120_OUTPUT_L_VAL ts in
      let ts := write_register REG_AT42QT_KEY5_CTRL AT42QT2120_OUTPUT_L_VAL ts in
      let ts := write_register REG_AT42QT_KEY6_CTRL AT42QT2120_OUTPUT_L_VAL ts in
      let ts := write_register REG_AT42QT_KEY7_CTRL AT42QT2120_OUTPUT_L_VAL ts in
      let ts := write_register REG_AT42QT_KEY8_CTRL AT42QT2120_OUTPUT_L_VAL ts in
      let ts := write_register REG_AT42QT_KEY9_CTRL key ts in
      let ts := write_register REG_AT42QT_KEY10_CTRL AT42QT2120_OUTPUT_L_VAL ts in
      let ts := write_register REG_AT42QT_KEY11_CTRL key ts in
      let ts := write_register REG_AT42QT_SLID_OPT 64 ts in
      let ts := write_register REG_AT42QT_SLID_OPT 192 ts in
      (temp_return, ts)
    else (temp_return, ts).

End TouchSensing.

(** One assignment of the constants of the sensor. *)
Definition sample_touch_defines : touch_defines := {|
  HARDWARE_V1 := false;
  AT42QT2120_ADDR := 56;
  AT42QT2120_ID := 62;
  REG_AT42QT_CHIP_ID := 0;
  REG_AT42QT_DET_STAT := 2;
  REG_AT42QT_KEY_STAT2 := 4;
  REG_AT42QT_LP := 8;
  REG_AT42QT_SLID_OPT := 14;
  REG_AT42QT_KEY0_CTRL := 28;
  REG_AT42QT_KEY1_CTRL := 29;
  REG_AT42QT_KEY2_CTRL := 30;
  REG_AT42QT_KEY3_CTRL := 31;
  REG_AT42QT_KEY4_CTRL := 32;
  REG_AT42QT_KEY5_CTRL := 33;
  REG_AT42QT_KEY6_CTRL := 34;
  REG_AT42QT_KEY7_CTRL := 35;
  REG_AT42QT_KEY8_CTRL := 36;
  REG_AT42QT_KEY9_CTRL := 37;
  REG_AT42QT_KEY10_CTRL := 38;
  REG_AT42QT_KEY11_CTRL := 39;
  AT42QT2120_TOUCH_KEY_VAL := 0;
  AT42QT2120_AKS_GP1_MASK := 4;
  AT42QT2120_GUARD_VAL := 16;
  AT42QT2120_OUTPUT_L_VAL := 1;
  LEFT_BUTTON := 0;
  RIGHT_BUTTON := 1
|}.

(** A sensor as a register file: a read gives the register, a write sets
    it, and both succeed. *)
Definition register_read (addr reg : Z) (ts : Z -> Z) : Z * Z * (Z -> Z) :=
  (@RETURN_OK sample_defines, ts reg, ts).
Definition register_write (addr reg value : Z) (ts : Z -> Z) : Z * (Z -> Z) :=
  (@RETURN_OK sample_defines, fun r => if r =? reg then value else ts r).

(** A chip that is not the AT42QT2120, and the AT42QT2120 with a finger on
    its wheel. *)
Definition other_chip : Z -> Z := fun _ => 0.
Definition touched_wheel : Z -> Z := fun reg => if reg =? 0 then 62 else 3.

(* ===================================================================== *)
(** ** More sample inputs *)
(* ===================================================================== *)

(** A development build. *)
Definition development_build : build := {|
  USB_FEATURE_PLUGIN_COMMS := true;
  DEV_PLUGIN_COMMS := true;
  AVR_BOOTLOADER_PROGRAMMING := false;
  MINI_VERSION := false;
  MINI_PREPRODUCTION_SETUP := false;
  MINI_PREPRODUCTION_SETUP_ACC := false;
  POST_KICKSTARTER_UPDATE_SETUP := false;
  HARDWARE_OLIVIER_V1 := false
|}.

(** Packets without a payload. *)
Definition bare_request (datacmd : Z) : usbMsg :=
  {| len := 0; cmd := datacmd; body := repeat 0 62 |}.

Definition start_memorymgmt_request : usbMsg := bare_request 173.
Definition read_card_pass_request : usbMsg := bare_request 181.
Definition reset_card_request : usbMsg := bare_request 179.
Definition jump_request : usbMsg := bare_request 171.
Definition unknown_request : usbMsg := bare_request 250.

(** An UNLOCK_WITH_PIN packet with the PIN 0x3039. *)
Definition unlock_with_pin_request : usbMsg :=
  {| len := 2; cmd := 213; body := [57; 48] ++ repeat 0 60 |}.

(** A device with a locked card of a known user in it. *)
Definition known_card_env : environment firmware :=
  fun c w =>
    match c as c0 return answer c0 * firmware with
    | cardDetectedRoutine => (@RETURN_MOOLTIPASS_USER sample_defines, w)
    | c' => sample_env c' w
    end.

(** A device with a card it does not know. *)
Definition unknown_card_device (packets : list usbMsg) : firmware :=
  {| inbox := packets; card_absent := -1; card_unlocked := 0; screen := 7;
     user_id := 0; owner := fun _ => 1; flash := fun _ => [];
     staging := []; data_context := false; data_blocks := [];
     favorites := fun _ => (0, 0); eeprom := fun _ => 0; clock := 0;
     credential_deadline := 0 |}.

(** A SET_UID packet: a request key of 16 bytes and a UID of 6. *)
Definition set_uid_request : usbMsg :=
  {| len := 22; cmd := 188; body := repeat 90 16 ++ repeat 7 6 ++ repeat 0 40 |}.

(** A device whose EEPROM holds the markers of a UID request key and of a
    bootloader password. *)
Definition keyed_device (packets : list usbMsg) : firmware :=
  {| inbox := packets; card_absent := -1; card_unlocked := 1; screen := 2;
     user_id := 1; owner := fun _ => 1; flash := fun _ => repeat 0 264;
     staging := repeat 0 264; data_context := false; data_blocks := [];
     favorites := fun _ => (0, 0);
     eeprom := fun addr => if addr =? 900 then 187
                           else if addr =? 1000 then 171 else addr mod 7;
     clock := 0; credential_deadline := 0 |}.

(** A GET_UID packet with the request key of that device, and an
    IMPORT_MEDIA_START packet with its bootloader password. *)
Definition get_uid_request : usbMsg :=
  {| len := 16; cmd := 189;
     body := eeprom_block (keyed_device []) 901 16 ++ repeat 0 46 |}.
Definition import_media_start_request : usbMsg :=
  {| len := 62; cmd := 174; body := eeprom_block (keyed_device []) 1001 62 |}.

(** An IMPORT_MEDIA packet of 62 bytes, and globals during an approved
    import with 202 bytes of page 5 in the staging buffer. *)
Definition import_media_request : usbMsg :=
  {| len := 62; cmd := 175; body := repeat 170 62 |}.
Definition importing_globals : globals :=
  {| memoryManagementModeApproved := 0; mediaFlashImportApproved := 1;
     currentNodeWritten := 0; mediaFlashImportPage := 5;
     mediaFlashImportOffset := 202 |}.

(* ===================================================================== *)
(** ** Running programs: basic facts *)
(* ===================================================================== *)

Section Run.

Context {W : Type} (env : environment W).

Lemma run_call {R : Type} (c : call) (k : answer c -> prog R) (w : W) :
  run env (Call c k) w = after c (run env (k (fst (env c w))) (snd (env c w))).
Proof. reflexivity. Qed.

Lemma run_bind_call {A : Type} (c : call) (f : answer c -> prog A) (w : W) :
  run env (x <- call! c ;; f x) w
  = after c (run env (f (fst (env c w))) (snd (env c w))).
Proof. reflexivity. Qed.

Lemma run_bind {A B : Type} (p : prog A) (f : A -> prog B) (w : W) :
  run env (x <- p ;; f x) w = and_so (run env p w) (fun a w' => run env (f a) w').
Proof.
  revert w. induction p as [a | c k IH | | ]; intro w; simpl.
  - unfold and_so. simpl. destruct (run env (f a) w). reflexivity.
  - rewrite IH. unfold and_so. simpl.
    destruct (outcome (run env (k (fst (env c w))) (snd (env c w)))); reflexivity.
  - reflexivity.
  - reflexivity.
Qed.

Lemma trace_after {R : Type} (c : call) (r : result W R) :
  trace (after c r) = c :: trace r.
Proof. reflexivity. Qed.

Lemma outcome_after {R : Type} (c : call) (r : result W R) :
  outcome (after c r) = outcome r.
Proof. reflexivity. Qed.

Lemma world_after {R : Type} (c : call) (r : result W R) :
  world (after c r) = world r.
Proof. reflexivity. Qed.

End Run.

(* ===================================================================== *)
(** ** The command values *)
(* ===================================================================== *)

Lemma sample_defines_wf : wf_defines sample_defines.
Proof.
  split; [vm_compute; reflexivity | discriminate | discriminate | simpl; lia].
Qed.

Lemma cmd_name_eqb_refl (a : cmd_name) : cmd_name_eqb a a = true.
Proof. destruct a; reflexivity. Qed.

Lemma cmd_name_eqb_eq (a b : cmd_name) : cmd_name_eqb a b = true -> a = b.
Proof. destruct a, b; simpl; intro H; first [reflexivity | discriminate H]. Qed.

Lemma all_cmd_names_complete (c : cmd_name) : In c all_cmd_names.
Proof.
  destruct c; unfold all_cmd_names;
    repeat first [left; reflexivity | right].
Qed.

Lemma distinctb_map_inj {A : Type} (f : A -> Z) (l : list A) :
  distinctb (map f l) = true ->
  forall a b, In a l -> In b l -> f a = f b -> a = b.
Proof.
  induction l as [| x t IH]; simpl; intros Hd a b Ha Hb Hf.
  - contradiction.
  - apply andb_true_iff in Hd. destruct Hd as [Hx Ht].
    apply negb_true_iff in Hx.
    assert (Hnot : forall y, In y t -> f x <> f y).
    { intros y Hy E.
      assert (existsb (Z.eqb (f x)) (map f t) = true) as Hex.
      { apply existsb_exists. exists (f y). split.
        - apply in_map. exact Hy.
        - apply Z.eqb_eq. exact E. }
      congruence. }
    destruct Ha as [Ha | Ha], Hb as [Hb | Hb]; subst.
    + reflexivity.
    + exfalso. exact (Hnot b Hb Hf).
    + exfalso. apply (Hnot a Ha). symmetry. exact Hf.
    + exact (IH Ht a b Ha Hb Hf).
Qed.

Section Codes.

Context {B : build} {D : defines} (WF : wf_defines D).

Lemma TRUE_eqb_FALSE : (TRUE =? FALSE) = false.
Proof. apply Z.eqb_neq. apply (wf_TRUE_FALSE D WF). Qed.

Lemma OK_eqb_NOK : (RETURN_OK =? RETURN_NOK) = false.
Proof. apply Z.eqb_neq. apply (wf_OK_NOK D WF). Qed.

Lemma uint8_service_size :
  uint8 NODE_PARENT_SIZE_OF_SERVICE = NODE_PARENT_SIZE_OF_SERVICE.
Proof. unfold uint8. apply Z.mod_small. apply (wf_service_size D WF). Qed.

Lemma cmd_code_inj (a b : cmd_name) : cmd_code a = cmd_code b -> a = b.
Proof.
  apply (distinctb_map_inj cmd_code all_cmd_names (wf_codes_distinct D WF));
    apply all_cmd_names_complete.
Qed.

(** Comparing two command values is comparing their names. *)
Lemma code_eqb (a b : cmd_name) : (cmd_code a =? cmd_code b) = cmd_name_eqb a b.
Proof.
  destruct (cmd_name_eqb a b) eqn:E.
  - apply cmd_name_eqb_eq in E. subst. apply Z.eqb_refl.
  - apply Z.eqb_neq. intro H. apply cmd_code_inj in H. subst.
    rewrite cmd_name_eqb_refl in E. discriminate.
Qed.

Lemma find_code (p : cmd_name -> bool) (c : cmd_name) (l : list cmd_name) :
  In c l -> p c = true ->
  find (fun x => p x && (cmd_code x =? cmd_code c)) l = Some c.
Proof.
  induction l as [| x t IH]; simpl; intros Hin Hp.
  - contradiction.
  - rewrite code_eqb. destruct (cmd_name_eqb x c) eqn:E.
    + apply cmd_name_eqb_eq in E. subst. rewrite Hp. reflexivity.
    + rewrite andb_false_r. apply IH; [| exact Hp].
      destruct Hin as [Hin | Hin]; [| exact Hin].
      subst. rewrite cmd_name_eqb_refl in E. discriminate.
Qed.

(** The switch jumps to the case of the command whose value it is given. *)
Lemma switch_label_code (c : cmd_name) :
  has_case c = true -> switch_label (cmd_code c) = Some c.
Proof.
  intro H. unfold switch_label. apply find_code.
  - apply all_cmd_names_complete.
  - exact H.
Qed.

Lemma switch_datacmd_case (fuel : nat) (c : cmd_name) (msg : usbMsg) (g : globals) :
  has_case c = true -> cmd msg = cmd_code c ->
  switch_datacmd fuel msg g = case_of fuel c msg g.
Proof.
  intros H E. unfold switch_datacmd. rewrite E, (switch_label_code c H).
  reflexivity.
Qed.

End Codes.

(* ===================================================================== *)
(** ** The stages of the dispatcher *)
(* ===================================================================== *)

Section Stages.

Context {B : build} {D : defines} {W : Type} (env : environment W).

(** Once a packet is received, the first stage decides between the status
    answer and the rest of the processing. *)
Lemma run_usbProcessIncoming (fuel : nat) (caller_id : Z) (g : globals)
    (w w1 : W) (msg : usbMsg) :
  receives env w msg w1 ->
  run env (usbProcessIncoming fuel caller_id g) w
  = after usbRawHidRecv
      (run env
         (if (caller_id =? USB_CALLER_PIN) || (cmd msg =? cmd_code MOOLTIPASS_STATUS)
          then answer_status caller_id g
          else process_message fuel msg g) w1).
Proof.
  intro H. unfold receives in H. unfold usbProcessIncoming.
  rewrite run_bind_call, H. cbv beta iota delta [fst snd].
  rewrite Z.eqb_refl. reflexivity.
Qed.

(** When nothing is received the call returns at once. *)
Lemma run_usbProcessIncoming_nothing (fuel : nat) (caller_id : Z) (g : globals)
    (w : W) :
  fst (fst (env usbRawHidRecv w)) <> RETURN_COM_TRANSF_OK ->
  run env (usbProcessIncoming fuel caller_id g) w
  = after usbRawHidRecv
      {| outcome := Returned g; world := snd (env usbRawHidRecv w); trace := [] |}.
Proof.
  intro H. unfold usbProcessIncoming. rewrite run_bind_call.
  destruct (env usbRawHidRecv w) as [[r msg] w1]. simpl in *.
  apply Z.eqb_neq in H. rewrite H. reflexivity.
Qed.

(** The run of a stage that answers with one byte and returns. *)
Lemma run_answer_byte (c v : Z) (g : globals) (w : W) :
  run env (call! (usbSendMessage c 1 [v]) ;; Ret g) w
  = {| outcome := Returned g;
       world := snd (env (usbSendMessage c 1 [v]) w);
       trace := [usbSendMessage c 1 [v]] |}.
Proof. reflexivity. Qed.

Lemma run_answer_status (caller_id : Z) (g : globals) (w1 : W) :
  let absent := fst (env isSmartCardAbsent w1) in
  let w2 := snd (env isSmartCardAbsent w1) in
  let unlocked := fst (env getSmartCardInsertedUnlocked w2) in
  let w3 := snd (env getSmartCardInsertedUnlocked w2) in
  let screen := fst (env getCurrentScreen w3) in
  let w4 := snd (env getCurrentScreen w3) in
  let mp_status := mp_status_byte caller_id absent unlocked screen in
  run env (answer_status caller_id g) w1
  = {| outcome := Returned g;
       world := snd (env (usbSendMessage (cmd_code MOOLTIPASS_STATUS) 1 [mp_status]) w4);
       trace := [isSmartCardAbsent; getSmartCardInsertedUnlocked;
                 getCurrentScreen;
                 usbSendMessage (cmd_code MOOLTIPASS_STATUS) 1 [mp_status]] |}.
Proof. reflexivity. Qed.

(** The bits of the status byte. *)
Lemma mp_status_byte_bits (caller_id absent unlocked screen : Z) :
  let mp_status := mp_status_byte caller_id absent unlocked screen in
  Z.testbit mp_status 0 = (absent =? RETURN_NOK)
  /\ Z.testbit mp_status 1 = (caller_id =? USB_CALLER_PIN)
  /\ Z.testbit mp_status 2 = (unlocked =? TRUE)
  /\ Z.testbit mp_status 3 = (screen =? SCREEN_DEFAULT_INSERTED_UNKNOWN)
  /\ 0 <= mp_status < 16.
Proof.
  unfold mp_status_byte.
  destruct (absent =? RETURN_NOK), (caller_id =? USB_CALLER_PIN),
    (unlocked =? TRUE), (screen =? SCREEN_DEFAULT_INSERTED_UNKNOWN);
    simpl; repeat split; lia.
Qed.

End Stages.

(* ===================================================================== *)
(** ** The status answer *)
(* ===================================================================== *)

(** C3: a packet received while the caller is asking for the PIN, and a
    status command from any caller, is answered at once with one byte under
    the status command: bit 0 tells that a card is present
    ([isSmartCardAbsent] answered RETURN_NOK), bit 1 that the caller is the
    PIN prompt, bit 2 that the smartcard is unlocked, bit 3 that the unknown
    card screen is displayed; the other bits are clear.  Nothing else is
    done with the packet: the calls are the reception, the three queries
    and the answer, and the globals are as before. *)
Theorem status_request_answered_with_status_byte
    {B : build} {D : defines} {W : Type} (env : environment W)
    (fuel : nat) (caller_id : Z) (g : globals) (w w1 : W) (msg : usbMsg) :
  receives env w msg w1 ->
  caller_id = USB_CALLER_PIN \/ cmd msg = cmd_code MOOLTIPASS_STATUS ->
  let absent := fst (env isSmartCardAbsent w1) in
  let w2 := snd (env isSmartCardAbsent w1) in
  let unlocked := fst (env getSmartCardInsertedUnlocked w2) in
  let w3 := snd (env getSmartCardInsertedUnlocked w2) in
  let screen := fst (env getCurrentScreen w3) in
  let w4 := snd (env getCurrentScreen w3) in
  let mp_status := mp_status_byte caller_id absent unlocked screen in
  run env (usbProcessIncoming fuel caller_id g) w
  = {| outcome := Returned g;
       world := snd (env (usbSendMessage (cmd_code MOOLTIPASS_STATUS) 1 [mp_status]) w4);
       trace := [usbRawHidRecv; isSmartCardAbsent;
                 getSmartCardInsertedUnlocked; getCurrentScreen;
                 usbSendMessage (cmd_code MOOLTIPASS_STATUS) 1 [mp_status]] |}
  /\ Z.testbit mp_status 0 = (absent =? RETURN_NOK)
  /\ Z.testbit mp_status 1 = (caller_id =? USB_CALLER_PIN)
  /\ Z.testbit mp_status 2 = (unlocked =? TRUE)
  /\ Z.testbit mp_status 3 = (screen =? SCREEN_DEFAULT_INSERTED_UNKNOWN)
  /\ 0 <= mp_status < 16.
Proof.
  intros Hrecv Hst. cbv zeta. split.
  - rewrite (run_usbProcessIncoming env fuel caller_id g w w1 msg Hrecv).
    assert ((caller_id =? USB_CALLER_PIN)
            || (cmd msg =? cmd_code MOOLTIPASS_STATUS) = true) as ->.
    { apply orb_true_iff. destruct Hst as [-> | ->]; [left | right];
        apply Z.eqb_refl. }
    rewrite run_answer_status. reflexivity.
  - apply mp_status_byte_bits.
Qed.

Lemma status_request_answered_with_status_byte_witness :
  @receives sample_defines firmware sample_env
    (locked_device [login_request]) login_request (locked_device [])
  /\ (1 = @USB_CALLER_PIN sample_defines
      \/ cmd login_request = @cmd_code sample_defines MOOLTIPASS_STATUS)
  /\ trace (run sample_env
              (@usbProcessIncoming sample_build sample_defines 0 1
                 (@initial_globals sample_defines))
              (locked_device [login_request]))
     = [usbRawHidRecv; isSmartCardAbsent; getSmartCardInsertedUnlocked;
        getCurrentScreen; usbSendMessage 185 1 [3]].
Proof.
  split; [reflexivity |]. split; [left; reflexivity |].
  rewrite (proj1 (@status_request_answered_with_status_byte
                    sample_build sample_defines firmware sample_env
                    0%nat 1 (@initial_globals sample_defines)
                    (locked_device [login_request]) (locked_device [])
                    login_request eq_refl (or_introl eq_refl))).
  reflexivity.
Defined.

(* ===================================================================== *)
(** ** The data management range *)
(* ===================================================================== *)

Section Gate.

Context {B : build} {D : defines} {W : Type} (env : environment W).

(** A command of the data management range is refused by the second or by
    the third stage when the mode is not approved; either way the answer is
    the error byte under the command, and nothing else is done. *)
Lemma run_process_message_refused (fuel : nat) (msg : usbMsg) (g : globals) (w1 : W) :
  in_datamgmt_range (cmd msg) = true ->
  memoryManagementModeApproved g = FALSE ->
  run env (process_message fuel msg g) w1
  = {| outcome := Returned g;
       world := snd (env (usbSendMessage (cmd msg) 1 [PLUGIN_BYTE_ERROR]) w1);
       trace := [usbSendMessage (cmd msg) 1 [PLUGIN_BYTE_ERROR]] |}.
Proof.
  intros Hr Hm. unfold process_message.
  assert (forall body', run env
            (check_mode_and_process fuel
               {| len := len msg; cmd := cmd msg; body := body' |} g) w1
          = {| outcome := Returned g;
               world := snd (env (usbSendMessage (cmd msg) 1 [PLUGIN_BYTE_ERROR]) w1);
               trace := [usbSendMessage (cmd msg) 1 [PLUGIN_BYTE_ERROR]] |}) as Hgate.
  { intro body'. unfold check_mode_and_process. cbn [cmd].
    rewrite Hr, Hm, Z.eqb_refl. reflexivity. }
  destruct (max_text_size (cmd msg)) as [max |].
  - cbv zeta. destruct (fst (checkTextField (body msg) (len msg) max) =? RETURN_NOK).
    + reflexivity.
    + apply Hgate.
  - destruct msg as [l c b]. apply (Hgate b).
Qed.

End Gate.

(** C1, as the code has it: a packet whose command lies in the data
    management range, received while [memoryManagementModeApproved] is
    false, never reaches the switch and leaves the globals as they are.
    When the caller is not the PIN prompt (and the command is not the status
    command) the only call after the reception is the answer: one byte,
    PLUGIN_BYTE_ERROR, under the command of the packet.  When the caller is
    the PIN prompt the first stage answers with the status byte instead. *)
Theorem datamgmt_command_refused_without_approval
    {B : build} {D : defines} {W : Type} (env : environment W)
    (fuel : nat) (caller_id : Z) (g : globals) (w w1 : W) (msg : usbMsg) :
  receives env w msg w1 ->
  in_datamgmt_range (cmd msg) = true ->
  memoryManagementModeApproved g = FALSE ->
  outcome (run env (usbProcessIncoming fuel caller_id g) w) = Returned g
  /\ trace (run env (usbProcessIncoming fuel caller_id g) w)
     = if (caller_id =? USB_CALLER_PIN) || (cmd msg =? cmd_code MOOLTIPASS_STATUS)
       then
         [usbRawHidRecv; isSmartCardAbsent; getSmartCardInsertedUnlocked;
          getCurrentScreen;
          usbSendMessage (cmd_code MOOLTIPASS_STATUS) 1
            [mp_status_byte caller_id
               (fst (env isSmartCardAbsent w1))
               (fst (env getSmartCardInsertedUnlocked
                       (snd (env isSmartCardAbsent w1))))
               (fst (env getCurrentScreen
                       (snd (env getSmartCardInsertedUnlocked
                               (snd (env isSmartCardAbsent w1))))))]]
       else
         [usbRawHidRecv; usbSendMessage (cmd msg) 1 [PLUGIN_BYTE_ERROR]].
Proof.
  intros Hrecv Hr Hm.
  rewrite (run_usbProcessIncoming env fuel caller_id g w w1 msg Hrecv).
  destruct ((caller_id =? USB_CALLER_PIN) || (cmd msg =? cmd_code MOOLTIPASS_STATUS)).
  - rewrite run_answer_status. split; reflexivity.
  - rewrite (run_process_message_refused env fuel msg g w1 Hr Hm).
    split; reflexivity.
Qed.

Lemma datamgmt_command_refused_without_approval_witness :
  @receives sample_defines firmware sample_env
    (sample_firmware [read_node_request]) read_node_request (sample_firmware [])
  /\ @in_datamgmt_range sample_defines (cmd read_node_request) = true
  /\ memoryManagementModeApproved (@initial_globals sample_defines)
     = @FALSE sample_defines
  /\ trace (run sample_env
              (@usbProcessIncoming sample_build sample_defines 0 0
                 (@initial_globals sample_defines))
              (sample_firmware [read_node_request]))
     = [usbRawHidRecv; usbSendMessage 197 1 [0]].
Proof.
  split; [reflexivity |]. split; [reflexivity |]. split; [reflexivity |].
  rewrite (proj2 (@datamgmt_command_refused_without_approval
                    sample_build sample_defines firmware sample_env
                    0%nat 0 (@initial_globals sample_defines)
                    (sample_firmware [read_node_request]) (sample_firmware [])
                    read_node_request eq_refl eq_refl eq_refl)).
  reflexivity.
Defined.

(** C1 as stated fails while the PIN is asked for: the same packet, in the
    data management range and with the mode not approved, is answered with
    the status byte under the status command, not with the error byte under
    its own command. *)
Lemma datamgmt_command_during_pin_prompt_gets_status :
  @in_datamgmt_range sample_defines (cmd read_node_request) = true
  /\ memoryManagementModeApproved (@initial_globals sample_defines)
     = @FALSE sample_defines
  /\ trace (run sample_env
              (@usbProcessIncoming sample_build sample_defines 0
                 (@USB_CALLER_PIN sample_defines)
                 (@initial_globals sample_defines))
              (locked_device [read_node_request]))
     = [usbRawHidRecv; isSmartCardAbsent; getSmartCardInsertedUnlocked;
        getCurrentScreen; usbSendMessage 185 1 [3]]
  /\ trace (run sample_env
              (@usbProcessIncoming sample_build sample_defines 0
                 (@USB_CALLER_PIN sample_defines)
                 (@initial_globals sample_defines))
              (locked_device [read_node_request]))
     <> [usbRawHidRecv;
         usbSendMessage (cmd read_node_request) 1
           [@PLUGIN_BYTE_ERROR sample_defines]].
Proof.
  split; [reflexivity |]. split; [reflexivity |]. split; [reflexivity |].
  vm_compute. discriminate.
Qed.

(* ===================================================================== *)
(** ** Reaching a case of the switch *)
(* ===================================================================== *)

Section Reach.

Context {B : build} {D : defines} (WF : wf_defines D).
Context {W : Type} (env : environment W).

Lemma max_text_size_other (c : cmd_name) :
  is_text_cmd c = false -> max_text_size (cmd_code c) = None.
Proof.
  intro H. unfold max_text_size. rewrite !(code_eqb WF).
  destruct c; simpl in H; try discriminate H; reflexivity.
Qed.

Lemma approved_mode_allows (msg : usbMsg) (g : globals) :
  memoryManagementModeApproved g = TRUE -> mode_allows msg g.
Proof.
  intro H. unfold mode_allows. rewrite H, (TRUE_eqb_FALSE WF).
  apply andb_false_r.
Qed.

Lemma run_check_mode_and_process (fuel : nat) (c : cmd_name) (msg : usbMsg)
    (g : globals) (w1 : W) :
  cmd msg = cmd_code c -> has_case c = true -> mode_allows msg g ->
  run env (check_mode_and_process fuel msg g) w1
  = run env (eg <- case_of fuel c msg g ;; trailer msg eg) w1.
Proof.
  intros E Hc Hm. unfold check_mode_and_process. cbv zeta.
  unfold mode_allows in Hm. rewrite Hm. unfold process_command.
  rewrite (switch_datacmd_case WF fuel c msg g Hc E). reflexivity.
Qed.

(** A packet from a caller that is not the PIN prompt, whose command has no
    text field and passes the gate, is handled by the case of its command
    and the trailer. *)
Lemma run_to_case (fuel : nat) (caller_id : Z) (c : cmd_name) (msg : usbMsg)
    (g : globals) (w w1 : W) :
  receives env w msg w1 ->
  caller_id <> USB_CALLER_PIN ->
  cmd msg = cmd_code c ->
  is_text_cmd c = false -> has_case c = true -> mode_allows msg g ->
  run env (usbProcessIncoming fuel caller_id g) w
  = after usbRawHidRecv
      (run env (eg <- case_of fuel c msg g ;; trailer msg eg) w1).
Proof.
  intros Hrecv Hpin E Ht Hc Hm.
  rewrite (run_usbProcessIncoming env fuel caller_id g w w1 msg Hrecv).
  apply Z.eqb_neq in Hpin. rewrite Hpin, E, (code_eqb WF).
  assert (cmd_name_eqb c MOOLTIPASS_STATUS = false) as ->.
  { destruct c; try reflexivity. discriminate Hc. }
  cbn [orb]. f_equal. unfold process_message. cbv zeta.
  rewrite E, (max_text_size_other c Ht).
  apply run_check_mode_and_process; assumption.
Qed.

End Reach.

(* ===================================================================== *)
(** ** Cancel requests *)
(* ===================================================================== *)

(** C6, as the code has it: a cancel request that is received from a caller
    other than the PIN prompt, and that the gate of the data management
    range lets through (its command lies outside the range, or the mode is
    approved), is not answered: after the reception there is no call at
    all, and the globals are as before. *)
Theorem cancel_request_not_answered
    {B : build} {D : defines} {W : Type} (env : environment W)
    (fuel : nat) (caller_id : Z) (g : globals) (w w1 : W) (msg : usbMsg) :
  wf_defines D ->
  receives env w msg w1 ->
  cmd msg = cmd_code CANCEL_REQUEST ->
  caller_id <> USB_CALLER_PIN ->
  in_datamgmt_range (cmd msg) && (memoryManagementModeApproved g =? FALSE) = false ->
  run env (usbProcessIncoming fuel caller_id g) w
  = {| outcome := Returned g; world := w1; trace := [usbRawHidRecv] |}.
Proof.
  intros WF Hrecv E Hpin Hm.
  rewrite (run_to_case WF env fuel caller_id CANCEL_REQUEST msg g w w1);
    try assumption; reflexivity.
Qed.

Lemma cancel_request_not_answered_witness :
  wf_defines sample_defines
  /\ @receives sample_defines firmware sample_env
       (sample_firmware [cancel_request]) cancel_request (sample_firmware [])
  /\ cmd cancel_request = @cmd_code sample_defines CANCEL_REQUEST
  /\ 0 <> @USB_CALLER_PIN sample_defines
  /\ run sample_env
       (@usbProcessIncoming sample_build sample_defines 0 0
          (@initial_globals sample_defines))
       (sample_firmware [cancel_request])
     = {| outcome := Returned (@initial_globals sample_defines);
          world := sample_firmware [];
          trace := [usbRawHidRecv] |}.
Proof.
  split; [exact sample_defines_wf |]. split; [reflexivity |].
  split; [reflexivity |]. split; [discriminate |].
  apply (@cancel_request_not_answered sample_build sample_defines firmware
           sample_env 0%nat 0 (@initial_globals sample_defines)
           (sample_firmware [cancel_request]) (sample_firmware [])
           cancel_request sample_defines_wf eq_refl eq_refl).
  - discriminate.
  - reflexivity.
Defined.

(** C6 as stated fails while the PIN is asked for: the cancel request is
    answered, with the status byte. *)
Lemma cancel_request_during_pin_prompt_is_answered :
  cmd cancel_request = @cmd_code sample_defines CANCEL_REQUEST
  /\ trace (run sample_env
              (@usbProcessIncoming sample_build sample_defines 0
                 (@USB_CALLER_PIN sample_defines)
                 (@initial_globals sample_defines))
              (locked_device [cancel_request]))
     = [usbRawHidRecv; isSmartCardAbsent; getSmartCardInsertedUnlocked;
        getCurrentScreen; usbSendMessage 185 1 [3]].
Proof. split; reflexivity. Qed.

(* ===================================================================== *)
(** ** Leaving memory management mode *)
(* ===================================================================== *)

(** C5: an END_MEMORYMGMT packet processed in approved memory management
    mode (the caller not being the PIN prompt, whose packets are not
    processed) leaves [memoryManagementModeApproved] false and
    [currentNodeWritten] at NODE_ADDR_NULL, the other globals as they were;
    the services lookup table is populated and the node usage scanned before
    the answer PLUGIN_BYTE_OK is sent. *)
Theorem end_memorymgmt_clears_mode_and_write_state
    {B : build} {D : defines} {W : Type} (env : environment W)
    (fuel : nat) (caller_id : Z) (g : globals) (w w1 : W) (msg : usbMsg) :
  wf_defines D ->
  receives env w msg w1 ->
  cmd msg = cmd_code END_MEMORYMGMT ->
  caller_id <> USB_CALLER_PIN ->
  memoryManagementModeApproved g = TRUE ->
  let g' := {| memoryManagementModeApproved := FALSE;
               mediaFlashImportApproved := mediaFlashImportApproved g;
               currentNodeWritten := NODE_ADDR_NULL;
               mediaFlashImportPage := mediaFlashImportPage g;
               mediaFlashImportOffset := mediaFlashImportOffset g |} in
  outcome (run env (usbProcessIncoming fuel caller_id g) w) = Returned g'
  /\ trace (run env (usbProcessIncoming fuel caller_id g) w)
     = [usbRawHidRecv;
        guiSetCurrentScreen SCREEN_DEFAULT_INSERTED_NLCK;
        guiGetBackToCurrentScreen;
        activityDetectedRoutine;
        populateServicesLut;
        scanNodeUsage;
        usbSendMessage (cmd_code END_MEMORYMGMT) 1 [PLUGIN_BYTE_OK]].
Proof.
  intros WF Hrecv E Hpin Hm. cbv zeta.
  rewrite (run_to_case WF env fuel caller_id END_MEMORYMGMT msg g w w1);
    try assumption; try reflexivity.
  - rewrite <- E. split; reflexivity.
  - apply (approved_mode_allows WF). exact Hm.
Qed.

Lemma end_memorymgmt_clears_mode_and_write_state_witness :
  wf_defines sample_defines
  /\ @receives sample_defines firmware sample_env
       (sample_firmware [end_memorymgmt_request]) end_memorymgmt_request
       (sample_firmware [])
  /\ cmd end_memorymgmt_request = @cmd_code sample_defines END_MEMORYMGMT
  /\ 0 <> @USB_CALLER_PIN sample_defines
  /\ memoryManagementModeApproved writing_globals = @TRUE sample_defines
  /\ outcome (run sample_env
                (@usbProcessIncoming sample_build sample_defines 0 0 writing_globals)
                (sample_firmware [end_memorymgmt_request]))
     = Returned {| memoryManagementModeApproved := 0;
                   mediaFlashImportApproved := 0;
                   currentNodeWritten := 0;
                   mediaFlashImportPage := 0;
                   mediaFlashImportOffset := 0 |}.
Proof.
  split; [exact sample_defines_wf |]. split; [reflexivity |].
  split; [reflexivity |]. split; [discriminate |]. split; [reflexivity |].
  apply (@end_memorymgmt_clears_mode_and_write_state sample_build
           sample_defines firmware sample_env 0%nat 0 writing_globals
           (sample_firmware [end_memorymgmt_request]) (sample_firmware [])
           end_memorymgmt_request sample_defines_wf eq_refl eq_refl).
  - discriminate.
  - reflexivity.
Defined.

(* ===================================================================== *)
(** ** Appending a data block *)
(* ===================================================================== *)

Section DataBlock.

Context {B : build} {D : defines} (WF : wf_defines D).
Context {W : Type} (env : environment W).

(** A WRITE_32B_IN_DN packet hands its payload to the node store whatever
    its declared length is; the length only decides the answer. *)
Lemma write_32b_calls_store_first (fuel : nat) (caller_id : Z) (g : globals)
    (w w1 : W) (msg : usbMsg) :
  USB_FEATURE_PLUGIN_COMMS = true ->
  receives env w msg w1 ->
  cmd msg = cmd_code WRITE_32B_IN_DN ->
  caller_id <> USB_CALLER_PIN ->
  mode_allows msg g ->
  let store := addDataForDataContext (skipn 1 (body msg)) (byte_at (body msg) 0) in
  let r := fst (env store w1) in
  let v := if (r =? RETURN_OK) && (len msg =? 1 + DATA_NODE_BLOCK_SIZ)
           then PLUGIN_BYTE_OK else PLUGIN_BYTE_ERROR in
  outcome (run env (usbProcessIncoming fuel caller_id g) w) = Returned g
  /\ trace (run env (usbProcessIncoming fuel caller_id g) w)
     = [usbRawHidRecv; store; usbSendMessage (cmd_code WRITE_32B_IN_DN) 1 [v]].
Proof.
  intros Hb Hrecv E Hpin Hm. cbv zeta.
  rewrite (run_to_case WF env fuel caller_id WRITE_32B_IN_DN msg g w w1);
    try assumption; try reflexivity.
  rewrite <- E. unfold case_of, case_WRITE_32B_IN_DN.
  rewrite run_bind, run_bind_call.
  destruct ((fst (env (addDataForDataContext (skipn 1 (body msg))
                         (byte_at (body msg) 0)) w1) =? RETURN_OK)
            && (len msg =? 1 + DATA_NODE_BLOCK_SIZ)); split; reflexivity.
Qed.

End DataBlock.

(** C7 fails on the code: the packet of declared length 5 is answered with
    the error byte, but only after its payload was handed to
    [addDataForDataContext], which appended a block to the current data
    context. *)
Theorem write_32b_wrong_length_appends_block :
  len short_block_request <> 1 + @DATA_NODE_BLOCK_SIZ sample_defines
  /\ trace (run sample_env
              (@usbProcessIncoming sample_build sample_defines 0 0
                 (@initial_globals sample_defines))
              (sample_firmware [short_block_request]))
     = [usbRawHidRecv;
        addDataForDataContext ([222; 173; 190; 239] ++ repeat 0 57) 0;
        usbSendMessage 192 1 [@PLUGIN_BYTE_ERROR sample_defines]]
  /\ data_blocks (sample_firmware [short_block_request]) = []
  /\ data_blocks
       (world (run sample_env
                 (@usbProcessIncoming sample_build sample_defines 0 0
                    (@initial_globals sample_defines))
                 (sample_firmware [short_block_request])))
     = [[222; 173; 190; 239] ++ repeat 0 28].
Proof.
  split; [discriminate |]. split; [reflexivity |]. split; reflexivity.
Qed.

(* ===================================================================== *)
(** ** Favorites *)
(* ===================================================================== *)

(** C8, as the code has it: the dispatcher checks the declared length of a
    SET_FAVORITE packet (5) and of a GET_FAVORITE packet (1), and nothing
    else.  With that length the slot byte goes to [setFav] or [readFav]
    unchecked, whatever its value, and the answer is PLUGIN_BYTE_OK, or the
    two addresses read; with another length the answer is the error byte
    and neither function is called. *)
Theorem favorite_slot_passed_unchecked
    {B : build} {D : defines} {W : Type} (env : environment W)
    (fuel : nat) (caller_id : Z) (g : globals) (w w1 : W) (msg : usbMsg) :
  wf_defines D ->
  receives env w msg w1 ->
  caller_id <> USB_CALLER_PIN ->
  memoryManagementModeApproved g = TRUE ->
  let slot := byte_at (body msg) 0 in
  (cmd msg = cmd_code SET_FAVORITE ->
   outcome (run env (usbProcessIncoming fuel caller_id g) w) = Returned g
   /\ trace (run env (usbProcessIncoming fuel caller_id g) w)
      = if len msg =? 5
        then [usbRawHidRecv;
              setFav slot (word_at (body msg) 1) (word_at (body msg) 3);
              usbSendMessage (cmd_code SET_FAVORITE) 1 [PLUGIN_BYTE_OK]]
        else [usbRawHidRecv;
              usbSendMessage (cmd_code SET_FAVORITE) 1 [PLUGIN_BYTE_ERROR]])
  /\ (cmd msg = cmd_code GET_FAVORITE ->
      outcome (run env (usbProcessIncoming fuel caller_id g) w) = Returned g
      /\ trace (run env (usbProcessIncoming fuel caller_id g) w)
         = if len msg =? 1
           then [usbRawHidRecv;
                 readFav slot;
                 usbSendMessage (cmd_code GET_FAVORITE) 4
                   (word_bytes (fst (fst (env (readFav slot) w1)))
                    ++ word_bytes (snd (fst (env (readFav slot) w1))))]
           else [usbRawHidRecv;
                 usbSendMessage (cmd_code GET_FAVORITE) 1 [PLUGIN_BYTE_ERROR]]).
Proof.
  intros WF Hrecv Hpin Hm. cbv zeta. split; intro E.
  - rewrite (run_to_case WF env fuel caller_id SET_FAVORITE msg g w w1);
      try assumption; try reflexivity;
      [| apply (approved_mode_allows WF); exact Hm].
    rewrite <- E. unfold case_of, case_SET_FAVORITE.
    destruct (len msg =? 5); split; reflexivity.
  - rewrite (run_to_case WF env fuel caller_id GET_FAVORITE msg g w w1);
      try assumption; try reflexivity;
      [| apply (approved_mode_allows WF); exact Hm].
    unfold case_of, case_GET_FAVORITE. rewrite <- E.
    destruct (len msg =? 1).
    + rewrite run_bind, run_bind_call.
      destruct (env (readFav (byte_at (body msg) 0)) w1) as [[p c] w2].
      split; reflexivity.
    + split; reflexivity.
Qed.

Lemma favorite_slot_passed_unchecked_witness :
  wf_defines sample_defines
  /\ @receives sample_defines firmware sample_env
       (sample_firmware [set_favorite_255]) set_favorite_255 (sample_firmware [])
  /\ 0 <> @USB_CALLER_PIN sample_defines
  /\ memoryManagementModeApproved approved_globals = @TRUE sample_defines
  /\ cmd set_favorite_255 = @cmd_code sample_defines SET_FAVORITE
  /\ outcome (run sample_env
                (@usbProcessIncoming sample_build sample_defines 0 0 approved_globals)
                (sample_firmware [set_favorite_255]))
     = Returned approved_globals.
Proof.
  split; [exact sample_defines_wf |]. split; [reflexivity |].
  split; [discriminate |]. split; [reflexivity |]. split; [reflexivity |].
  assert (0 <> @USB_CALLER_PIN sample_defines) as Hpin by discriminate.
  exact (proj1 (proj1 (@favorite_slot_passed_unchecked sample_build
                         sample_defines firmware sample_env 0%nat 0
                         approved_globals
                         (sample_firmware [set_favorite_255])
                         (sample_firmware []) set_favorite_255
                         sample_defines_wf eq_refl Hpin eq_refl) eq_refl)).
Defined.

(** C8 as stated fails: slot 255 lies outside any small favorites array,
    yet the packet is not answered with the error byte; [setFav] is called
    with slot 255 and the answer is PLUGIN_BYTE_OK. *)
Lemma favorite_slot_255_reaches_setFav :
  byte_at (body set_favorite_255) 0 = 255
  /\ trace (run sample_env
              (@usbProcessIncoming sample_build sample_defines 0 0 approved_globals)
              (sample_firmware [set_favorite_255]))
     = [usbRawHidRecv; setFav 255 16 17;
        usbSendMessage 200 1 [@PLUGIN_BYTE_OK sample_defines]]
  /\ favorites
       (world (run sample_env
                 (@usbProcessIncoming sample_build sample_defines 0 0 approved_globals)
                 (sample_firmware [set_favorite_255]))) 255
     = (16, 17).
Proof. split; [reflexivity |]. split; reflexivity. Qed.

(* ===================================================================== *)
(** ** Writing a node in several packets *)
(* ===================================================================== *)

Section NodeWrite.

Context {B : build} {D : defines}.

Context (WF : wf_defines D) {W : Type} (env : environment W).

(** A packet other than the first of a node: no ownership check; the
    payload is written when the test passes, and otherwise the answer is
    the error byte and nothing else is called. *)
Lemma write_node_later_packet (fuel : nat) (caller_id : Z) (g : globals)
    (w w1 : W) (msg : usbMsg) :
  receives env w msg w1 ->
  caller_id <> USB_CALLER_PIN ->
  mode_allows msg g ->
  cmd msg = cmd_code WRITE_FLASH_NODE ->
  3 <= len msg ->
  packet_number msg <> 0 ->
  outcome (run env (usbProcessIncoming fuel caller_id g) w) = Returned g
  /\ trace (run env (usbProcessIncoming fuel caller_id g) w)
     = if write_accepted msg g
       then [usbRawHidRecv;
             flashWriteBuffer (skipn 3 (body msg)) (staged_offset msg g)
               (len msg - 3)]
            ++ flush_calls msg g
            ++ [usbSendMessage (cmd_code WRITE_FLASH_NODE) 1 [PLUGIN_BYTE_OK]]
       else [usbRawHidRecv;
             usbSendMessage (cmd_code WRITE_FLASH_NODE) 1 [PLUGIN_BYTE_ERROR]].
Proof.
  intros Hrecv Hpin Hm E Hlen Hnb.
  rewrite (run_to_case WF env fuel caller_id WRITE_FLASH_NODE msg g w w1);
    try assumption; try reflexivity.
  unfold case_of, case_WRITE_FLASH_NODE. rewrite <- E.
  assert ((len msg <? 3) = false) as -> by (apply Z.ltb_ge; exact Hlen).
  fold (node_address msg). fold (packet_number msg).
  apply Z.eqb_neq in Hnb. rewrite Hnb. cbn [bind].
  fold (write_accepted msg g).
  destruct (write_accepted msg g).
  - unfold flush_calls, staged_offset.
    destruct (packet_number msg =? Z.quot NODE_SIZE (PACKET_EXPORT_SIZE - 3));
      split; reflexivity.
  - split; reflexivity.
Qed.

(** The first packet of a node when the ownership check fails: the globals
    stay as they are, and the packet is then treated like a later one, the
    flags word of its payload stamped with the user id. *)
Lemma write_node_first_packet_refused (fuel : nat) (caller_id : Z) (g : globals)
    (w w1 : W) (msg : usbMsg) :
  receives env w msg w1 ->
  caller_id <> USB_CALLER_PIN ->
  mode_allows msg g ->
  cmd msg = cmd_code WRITE_FLASH_NODE ->
  3 <= len msg ->
  packet_number msg = 0 ->
  fst (env (checkUserPermission (node_address msg)) w1) <> RETURN_OK ->
  let w2 := snd (env (checkUserPermission (node_address msg)) w1) in
  let uid := fst (env getCurrentUserID w2) in
  let flags := fst (env (userIdToFlags (word_at (body msg) 3) uid)
                      (snd (env getCurrentUserID w2))) in
  outcome (run env (usbProcessIncoming fuel caller_id g) w) = Returned g
  /\ trace (run env (usbProcessIncoming fuel caller_id g) w)
     = if write_accepted msg g
       then [usbRawHidRecv;
             checkUserPermission (node_address msg);
             getCurrentUserID;
             userIdToFlags (word_at (body msg) 3) uid;
             flashWriteBuffer (skipn 3 (store_word (body msg) 3 flags))
               (staged_offset msg g) (len msg - 3)]
            ++ flush_calls msg g
            ++ [usbSendMessage (cmd_code WRITE_FLASH_NODE) 1 [PLUGIN_BYTE_OK]]
       else [usbRawHidRecv;
             checkUserPermission (node_address msg);
             usbSendMessage (cmd_code WRITE_FLASH_NODE) 1 [PLUGIN_BYTE_ERROR]].
Proof.
  intros Hrecv Hpin Hm E Hlen Hnb Hperm. cbv zeta.
  rewrite (run_to_case WF env fuel caller_id WRITE_FLASH_NODE msg g w w1);
    try assumption; try reflexivity.
  unfold case_of, case_WRITE_FLASH_NODE. rewrite <- E.
  assert ((len msg <? 3) = false) as -> by (apply Z.ltb_ge; exact Hlen).
  fold (node_address msg). fold (packet_number msg).
  assert ((packet_number msg =? 0) = true) as Hz by (apply Z.eqb_eq; exact Hnb).
  rewrite Hz. cbn [bind do_call].
  rewrite (run_call env (checkUserPermission (node_address msg))).
  apply Z.eqb_neq in Hperm. rewrite Hperm. cbn [bind].
  fold (write_accepted msg g).
  destruct (write_accepted msg g).
  - unfold flush_calls, staged_offset.
    destruct (packet_number msg =? Z.quot NODE_SIZE (PACKET_EXPORT_SIZE - 3));
      split; reflexivity.
  - split; reflexivity.
Qed.

(** The first packet of a node when the ownership check passes: the node
    becomes the one being written and its flash page is loaded into the
    staging buffer, before the test that may still refuse the packet. *)
Lemma write_node_first_packet_owned (fuel : nat) (caller_id : Z) (g : globals)
    (w w1 : W) (msg : usbMsg) :
  receives env w msg w1 ->
  caller_id <> USB_CALLER_PIN ->
  mode_allows msg g ->
  cmd msg = cmd_code WRITE_FLASH_NODE ->
  3 <= len msg ->
  packet_number msg = 0 ->
  fst (env (checkUserPermission (node_address msg)) w1) = RETURN_OK ->
  let g' := set_currentNodeWritten (node_address msg) g in
  let load := loadPageToInternalBuffer (pageNumberFromAddress (node_address msg)) in
  let w2 := snd (env (checkUserPermission (node_address msg)) w1) in
  let w3 := snd (env load w2) in
  let uid := fst (env getCurrentUserID w3) in
  let flags := fst (env (userIdToFlags (word_at (body msg) 3) uid)
                      (snd (env getCurrentUserID w3))) in
  outcome (run env (usbProcessIncoming fuel caller_id g) w) = Returned g'
  /\ trace (run env (usbProcessIncoming fuel caller_id g) w)
     = if write_accepted msg g'
       then [usbRawHidRecv;
             checkUserPermission (node_address msg);
             load;
             getCurrentUserID;
             userIdToFlags (word_at (body msg) 3) uid;
             flashWriteBuffer (skipn 3 (store_word (body msg) 3 flags))
               (staged_offset msg g') (len msg - 3)]
            ++ flush_calls msg g'
            ++ [usbSendMessage (cmd_code WRITE_FLASH_NODE) 1 [PLUGIN_BYTE_OK]]
       else [usbRawHidRecv;
             checkUserPermission (node_address msg);
             load;
             usbSendMessage (cmd_code WRITE_FLASH_NODE) 1 [PLUGIN_BYTE_ERROR]].
Proof.
  intros Hrecv Hpin Hm E Hlen Hnb Hperm. cbv zeta.
  rewrite (run_to_case WF env fuel caller_id WRITE_FLASH_NODE msg g w w1);
    try assumption; try reflexivity.
  unfold case_of, case_WRITE_FLASH_NODE. rewrite <- E.
  assert ((len msg <? 3) = false) as -> by (apply Z.ltb_ge; exact Hlen).
  fold (node_address msg). fold (packet_number msg).
  assert ((packet_number msg =? 0) = true) as Hz by (apply Z.eqb_eq; exact Hnb).
  rewrite Hz. cbn [bind do_call].
  rewrite (run_call env (checkUserPermission (node_address msg))).
  rewrite Hperm, Z.eqb_refl. cbn [bind do_call].
  rewrite (run_call env (loadPageToInternalBuffer _)).
  fold (write_accepted msg (set_currentNodeWritten (node_address msg) g)).
  destruct (write_accepted msg (set_currentNodeWritten (node_address msg) g)).
  - unfold flush_calls, staged_offset.
    destruct (packet_number msg =? Z.quot NODE_SIZE (PACKET_EXPORT_SIZE - 3));
      split; reflexivity.
  - split; reflexivity.
Qed.

End NodeWrite.

(** C10: when the first packet of a node write (packet number 0) fails the
    ownership check, the globals are left as they are; [currentNodeWritten]
    in particular is not reset to NODE_ADDR_NULL.  So when it still holds
    the address of a node from an earlier sequence, a packet addressed to
    that node is accepted: a later packet (packet number not 0) has its
    payload written into the staging buffer and is answered with
    PLUGIN_BYTE_OK, and so is the refused first packet itself when it is
    addressed to that node. *)
Theorem refused_first_packet_keeps_write_target
    {B : build} {D : defines} {W : Type} (env : environment W)
    (fuel : nat) (caller_id : Z) (g : globals) (w w1 : W) (msg : usbMsg) :
  wf_defines D ->
  caller_id <> USB_CALLER_PIN ->
  memoryManagementModeApproved g = TRUE ->
  receives env w msg w1 ->
  cmd msg = cmd_code WRITE_FLASH_NODE ->
  3 <= len msg ->
  packet_number msg = 0 ->
  fst (env (checkUserPermission (node_address msg)) w1) <> RETURN_OK ->
  let w2 := snd (env (checkUserPermission (node_address msg)) w1) in
  let uid := fst (env getCurrentUserID w2) in
  let flags := fst (env (userIdToFlags (word_at (body msg) 3) uid)
                      (snd (env getCurrentUserID w2))) in
  outcome (run env (usbProcessIncoming fuel caller_id g) w) = Returned g
  /\ (node_address msg = currentNodeWritten g ->
      currentNodeWritten g <> NODE_ADDR_NULL ->
      len msg - 3 <= NODE_SIZE ->
      trace (run env (usbProcessIncoming fuel caller_id g) w)
      = [usbRawHidRecv;
         checkUserPermission (node_address msg);
         getCurrentUserID;
         userIdToFlags (word_at (body msg) 3) uid;
         flashWriteBuffer (skipn 3 (store_word (body msg) 3 flags))
           (staged_offset msg g) (len msg - 3)]
        ++ flush_calls msg g
        ++ [usbSendMessage (cmd_code WRITE_FLASH_NODE) 1 [PLUGIN_BYTE_OK]])
  /\ (forall (w' w1' : W) (msg' : usbMsg),
        receives env w' msg' w1' ->
        cmd msg' = cmd_code WRITE_FLASH_NODE ->
        3 <= len msg' ->
        packet_number msg' <> 0 ->
        node_address msg' = currentNodeWritten g ->
        currentNodeWritten g <> NODE_ADDR_NULL ->
        packet_number msg' * (PACKET_EXPORT_SIZE - 3) + (len msg' - 3) <= NODE_SIZE ->
        outcome (run env (usbProcessIncoming fuel caller_id g) w') = Returned g
        /\ trace (run env (usbProcessIncoming fuel caller_id g) w')
           = [usbRawHidRecv;
              flashWriteBuffer (skipn 3 (body msg')) (staged_offset msg' g)
                (len msg' - 3)]
             ++ flush_calls msg' g
             ++ [usbSendMessage (cmd_code WRITE_FLASH_NODE) 1 [PLUGIN_BYTE_OK]]).
Proof.
  intros WF Hpin Hm Hrecv E Hlen Hnb Hperm.
  destruct (write_node_first_packet_refused WF env fuel caller_id g w w1 msg
              Hrecv Hpin (approved_mode_allows WF msg g Hm) E Hlen Hnb Hperm)
    as [Ho Ht].
  cbv zeta in Ht. cbv zeta. split; [exact Ho |]. split.
  - intros Ha Hn Hfit. rewrite Ht.
    assert (write_accepted msg g = true) as ->; [| reflexivity].
    unfold write_accepted. rewrite Ha, Z.eqb_refl, Hnb.
    apply Z.eqb_neq in Hn. rewrite Hn. apply Z.leb_le. lia.
  - intros w' w1' msg' Hrecv' E' Hlen' Hnb' Ha' Hn' Hfit'.
    destruct (write_node_later_packet WF env fuel caller_id g w' w1' msg'
                Hrecv' Hpin (approved_mode_allows WF msg' g Hm) E' Hlen' Hnb')
      as [Ho' Ht'].
    split; [exact Ho' |]. rewrite Ht'.
    assert (write_accepted msg' g = true) as ->; [| reflexivity].
    unfold write_accepted. rewrite Ha', Z.eqb_refl.
    apply Z.eqb_neq in Hn'. rewrite Hn'. apply Z.leb_le. exact Hfit'.
Qed.

Lemma refused_first_packet_keeps_write_target_witness :
  wf_defines sample_defines
  /\ 0 <> @USB_CALLER_PIN sample_defines
  /\ memoryManagementModeApproved writing_globals = @TRUE sample_defines
  /\ @receives sample_defines firmware sample_env
       (sample_firmware [first_packet_foreign_node]) first_packet_foreign_node
       (sample_firmware [])
  /\ cmd first_packet_foreign_node = @cmd_code sample_defines WRITE_FLASH_NODE
  /\ 3 <= len first_packet_foreign_node
  /\ packet_number first_packet_foreign_node = 0
  /\ fst (sample_env (checkUserPermission (node_address first_packet_foreign_node))
            (sample_firmware []))
     <> @RETURN_OK sample_defines
  /\ outcome (run sample_env
                (@usbProcessIncoming sample_build sample_defines 0 0 writing_globals)
                (sample_firmware [first_packet_foreign_node]))
     = Returned writing_globals
  /\ trace (run sample_env
              (@usbProcessIncoming sample_build sample_defines 0 0 writing_globals)
              (sample_firmware [second_packet_node_17]))
     = [usbRawHidRecv; flashWriteBuffer (repeat 9 59) (132 * 1 + 1 * 59) 59;
        usbSendMessage 198 1 [1]].
Proof.
  assert (0 <> @USB_CALLER_PIN sample_defines) as Hpin by discriminate.
  assert (fst (sample_env
                 (checkUserPermission (node_address first_packet_foreign_node))
                 (sample_firmware []))
          <> @RETURN_OK sample_defines) as Hperm by discriminate.
  assert (3 <= len first_packet_foreign_node) as Hlen by (simpl; lia).
  split; [exact sample_defines_wf |]. split; [exact Hpin |].
  split; [reflexivity |]. split; [reflexivity |]. split; [reflexivity |].
  split; [exact Hlen |]. split; [reflexivity |]. split; [exact Hperm |].
  pose proof (@refused_first_packet_keeps_write_target sample_build
                sample_defines firmware sample_env 0%nat 0 writing_globals
                (sample_firmware [first_packet_foreign_node]) (sample_firmware [])
                first_packet_foreign_node sample_defines_wf Hpin eq_refl eq_refl
                eq_refl Hlen eq_refl Hperm) as H.
  cbv zeta in H. destruct H as [Ho [_ Hnext]].
  split; [exact Ho |].
  destruct (Hnext (sample_firmware [second_packet_node_17]) (sample_firmware [])
              second_packet_node_17 eq_refl eq_refl) as [_ Ht];
    [simpl; lia | discriminate | reflexivity | discriminate | simpl; lia |].
  rewrite Ht. reflexivity.
Defined.

(* ===================================================================== *)
(** ** Text fields *)
(* ===================================================================== *)

Lemma strlen_nonneg (s : list Z) : 0 <= strlen s.
Proof.
  induction s as [| c t IH]; cbn [strlen]; [lia |]. destruct (c =? 0); lia.
Qed.

Lemma strlen_le_length (s : list Z) : strlen s <= Z.of_nat (length s).
Proof.
  induction s as [| c t IH]; cbn [strlen length]; [lia |].
  destruct (c =? 0); lia.
Qed.

(** The bytes counted by [strlen] are not zero, and the byte after them,
    when the buffer has one, is. *)
Lemma strlen_terminator (s : list Z) :
  Forall (fun c => c <> 0) (firstn (Z.to_nat (strlen s)) s)
  /\ (strlen s < Z.of_nat (length s) -> byte_at s (Z.to_nat (strlen s)) = 0).
Proof.
  induction s as [| c t [IHf IHz]]; cbn [strlen].
  - split; [constructor | cbn [length]; lia].
  - destruct (c =? 0) eqn:E.
    + split; [constructor | intros _; apply Z.eqb_eq in E; exact E].
    + pose proof (strlen_nonneg t).
      replace (Z.to_nat (1 + strlen t)) with (S (Z.to_nat (strlen t))) by lia.
      split.
      * cbn [firstn]. constructor; [apply Z.eqb_neq; exact E | exact IHf].
      * intro Hlt. unfold byte_at. cbn [nth]. apply IHz.
        cbn [length] in Hlt. lia.
Qed.

(** Lower-casing a C string: [tolower] on the bytes before the first zero,
    the rest of the buffer as it was. *)
Lemma lowerCaseString_spec (data : list Z) :
  lowerCaseString data
  = map tolower (firstn (Z.to_nat (strlen data)) data)
    ++ skipn (Z.to_nat (strlen data)) data.
Proof.
  induction data as [| c t IH]; cbn [strlen lowerCaseString]; [reflexivity |].
  destruct (c =? 0) eqn:E; [reflexivity |].
  pose proof (strlen_nonneg t).
  replace (Z.to_nat (1 + strlen t)) with (S (Z.to_nat (strlen t))) by lia.
  cbn [firstn skipn map app]. rewrite <- IH. reflexivity.
Qed.

Lemma lowerCaseString_length (data : list Z) :
  length (lowerCaseString data) = length data.
Proof.
  induction data as [| c t IH]; simpl; [reflexivity |].
  destruct (c =? 0); simpl; congruence.
Qed.

Lemma tolower_zero (c : Z) : (tolower c =? 0) = (c =? 0).
Proof.
  unfold tolower. destruct ((65 <=? c) && (c <=? 90)) eqn:E; [| reflexivity].
  apply andb_true_iff in E. destruct E as [E1 E2].
  apply Z.leb_le in E1. 
  transitivity false; [apply Z.eqb_neq; lia | symmetry; apply Z.eqb_neq; lia].
Qed.

(** Lower-casing keeps the terminating zero where it is. *)
Lemma strlen_lowerCaseString (data : list Z) :
  strlen (lowerCaseString data) = strlen data.
Proof.
  induction data as [| c t IH]; cbn [strlen lowerCaseString]; [reflexivity |].
  destruct (c =? 0) eqn:E; cbn [strlen].
  - rewrite E. reflexivity.
  - rewrite tolower_zero, E, IH. reflexivity.
Qed.

Section TextField.

Context {B : build} {D : defines} (WF : wf_defines D).

(** [checkTextField] accepts exactly the well-formed text fields; a service
    name it accepts is lower-cased in the buffer. *)
Lemma checkTextField_accepts (data : list Z) (len max_len : Z) :
  text_field_ok data len max_len ->
  checkTextField data len max_len
  = (RETURN_OK,
     if max_len =? NODE_PARENT_SIZE_OF_SERVICE
     then lowerCaseString data else data).
Proof.
  intros (H0 & H1 & H2 & H3). unfold checkTextField.
  assert ((len >? max_len) = false) as -> by (rewrite Z.gtb_ltb; apply Z.ltb_ge; exact H1).
  assert ((len =? 0) = false) as -> by (apply Z.eqb_neq; exact H0).
  assert ((len =? strlen data + 1) = true) as -> by (apply Z.eqb_eq; exact H2).
  assert ((len >? RAWHID_RX_SIZE - HID_DATA_START) = false) as ->
    by (rewrite Z.gtb_ltb; apply Z.ltb_ge; exact H3).
  simpl. destruct (max_len =? NODE_PARENT_SIZE_OF_SERVICE); reflexivity.
Qed.

Lemma checkTextField_rejects (data : list Z) (len max_len : Z) :
  ~ text_field_ok data len max_len ->
  checkTextField data len max_len = (RETURN_NOK, data).
Proof.
  intro H. unfold checkTextField.
  destruct ((len >? max_len) || (len =? 0) || negb (len =? strlen data + 1)
            || (len >? RAWHID_RX_SIZE - HID_DATA_START)) eqn:E; [reflexivity |].
  exfalso. apply H.
  apply orb_false_iff in E. destruct E as [E E4].
  apply orb_false_iff in E. destruct E as [E E3].
  apply orb_false_iff in E. destruct E as [E1 E2].
  rewrite Z.gtb_ltb in E1, E4. apply Z.ltb_ge in E1, E4.
  apply Z.eqb_neq in E2. apply negb_false_iff in E3. apply Z.eqb_eq in E3.
  unfold text_field_ok. auto.
Qed.

(** The return value alone tells whether the field is well formed. *)
Lemma checkTextField_verdict (data : list Z) (len max_len : Z) :
  fst (checkTextField data len max_len) = RETURN_OK
  <-> text_field_ok data len max_len.
Proof.
  split.
  - intro H.
    destruct ((len >? max_len) || (len =? 0) || negb (len =? strlen data + 1)
              || (len >? RAWHID_RX_SIZE - HID_DATA_START)) eqn:E.
    + unfold checkTextField in H. rewrite E in H. simpl in H.
      exfalso. apply (wf_OK_NOK D WF). symmetry. exact H.
    + apply orb_false_iff in E. destruct E as [E E4].
      apply orb_false_iff in E. destruct E as [E E3].
      apply orb_false_iff in E. destruct E as [E1 E2].
      rewrite Z.gtb_ltb in E1, E4. apply Z.ltb_ge in E1, E4.
      apply Z.eqb_neq in E2. apply negb_false_iff in E3. apply Z.eqb_eq in E3.
      unfold text_field_ok. auto.
  - intro H. rewrite (checkTextField_accepts data len max_len H). reflexivity.
Qed.

Lemma max_text_size_text (c : cmd_name) :
  is_text_cmd c = true -> max_text_size (cmd_code c) = Some (field_max c).
Proof.
  intro H. unfold max_text_size. rewrite !(code_eqb WF).
  destruct c; simpl in H; try discriminate H; reflexivity.
Qed.

Lemma field_max_service (c : cmd_name) :
  is_service_cmd c = true ->
  (field_max c =? NODE_PARENT_SIZE_OF_SERVICE) = true.
Proof.
  intro H. apply Z.eqb_eq.
  destruct c; simpl in H; try discriminate H; apply (uint8_service_size WF).
Qed.

End TextField.

(** C2, as the code has it: a packet with a text command, received from a
    caller other than the PIN prompt, is answered with the error byte and
    nothing more unless its text field is well formed (declared length not
    zero, at most the maximum of the field, equal to the length of the
    string plus one, at most the payload of a packet).  When it is well
    formed, the rest of the dispatcher (the mode gate, the switch and its
    case) runs on the message whose body [checkTextField] left behind: for
    the four service name commands that is the body lower-cased, with
    [tolower] applied to every byte before the terminating zero.  The
    terminating zero of a well-formed field is its last declared byte, and
    no byte before it is zero. *)
Theorem text_field_checked_before_dispatch
    {B : build} {D : defines} {W : Type} (env : environment W)
    (fuel : nat) (caller_id : Z) (g : globals) (w w1 : W) (msg : usbMsg)
    (c : cmd_name) :
  wf_defines D ->
  receives env w msg w1 ->
  caller_id <> USB_CALLER_PIN ->
  cmd msg = cmd_code c ->
  is_text_cmd c = true ->
  (~ text_field_ok (body msg) (len msg) (field_max c) ->
   run env (usbProcessIncoming fuel caller_id g) w
   = {| outcome := Returned g;
        world := snd (env (usbSendMessage (cmd_code c) 1 [PLUGIN_BYTE_ERROR]) w1);
        trace := [usbRawHidRecv;
                  usbSendMessage (cmd_code c) 1 [PLUGIN_BYTE_ERROR]] |})
  /\ (text_field_ok (body msg) (len msg) (field_max c) ->
      let body' := if field_max c =? NODE_PARENT_SIZE_OF_SERVICE
                   then lowerCaseString (body msg) else body msg in
      run env (usbProcessIncoming fuel caller_id g) w
      = after usbRawHidRecv
          (run env
             (check_mode_and_process fuel
                {| len := len msg; cmd := cmd msg; body := body' |} g) w1)
      /\ (is_service_cmd c = true ->
          body' = lowerCaseString (body msg)
          /\ lowerCaseString (body msg)
             = map tolower (firstn (Z.to_nat (strlen (body msg))) (body msg))
               ++ skipn (Z.to_nat (strlen (body msg))) (body msg))
      /\ (len msg <= Z.of_nat (length (body msg)) ->
          byte_at (body msg) (Z.to_nat (len msg - 1)) = 0
          /\ Forall (fun b => b <> 0)
               (firstn (Z.to_nat (len msg - 1)) (body msg)))).
Proof.
  intros WF Hrecv Hpin E Ht.
  assert (run env (usbProcessIncoming fuel caller_id g) w
          = after usbRawHidRecv (run env (process_message fuel msg g) w1)) as Hrun.
  { rewrite (run_usbProcessIncoming env fuel caller_id g w w1 msg Hrecv).
    apply Z.eqb_neq in Hpin. rewrite Hpin, E, (code_eqb WF).
    assert (cmd_name_eqb c MOOLTIPASS_STATUS = false) as ->
      by (destruct c; try reflexivity; discriminate Ht).
    reflexivity. }
  split.
  - intro Hbad. rewrite Hrun. unfold process_message.
    rewrite E, (max_text_size_text WF c Ht). cbv zeta.
    rewrite (checkTextField_rejects (body msg) (len msg) (field_max c) Hbad).
    cbn [fst]. rewrite Z.eqb_refl. reflexivity.
  - intro Hok. cbv zeta. split.
    + rewrite Hrun. unfold process_message.
      rewrite E, (max_text_size_text WF c Ht). cbv zeta.
      rewrite (checkTextField_accepts (body msg) (len msg) (field_max c) Hok).
      cbn [fst snd]. rewrite (OK_eqb_NOK WF). reflexivity.
    + split.
      * intro Hs. rewrite (field_max_service WF c Hs). split.
        -- reflexivity.
        -- apply lowerCaseString_spec.
      * intro Hfit. destruct Hok as (_ & _ & Hlen & _).
        replace (len msg - 1) with (strlen (body msg)) by lia.
        destruct (strlen_terminator (body msg)) as [Hf Hz].
        split; [apply Hz; lia | exact Hf].
Qed.

Lemma text_field_checked_before_dispatch_witness :
  wf_defines sample_defines
  /\ @receives sample_defines firmware sample_env
       (sample_firmware [context_request]) context_request (sample_firmware [])
  /\ 0 <> @USB_CALLER_PIN sample_defines
  /\ cmd context_request = @cmd_code sample_defines CONTEXT
  /\ is_text_cmd CONTEXT = true
  /\ @text_field_ok sample_defines (body context_request) (len context_request)
       (@field_max sample_defines CONTEXT)
  /\ trace (run sample_env
              (@usbProcessIncoming sample_build sample_defines 0 0
                 (@initial_globals sample_defines))
              (sample_firmware [context_request]))
     = [usbRawHidRecv; getSmartCardInsertedUnlocked;
        setCurrentContext ([103; 105; 116; 104; 117; 98; 0] ++ repeat 0 55) 0;
        usbSendMessage 163 1 [1]].
Proof.
  assert (0 <> @USB_CALLER_PIN sample_defines) as Hpin by discriminate.
  assert (@text_field_ok sample_defines (body context_request)
            (len context_request) (@field_max sample_defines CONTEXT)) as Hok.
  { unfold text_field_ok. simpl. repeat split; try lia. discriminate. }
  split; [exact sample_defines_wf |]. split; [reflexivity |].
  split; [exact Hpin |]. split; [reflexivity |]. split; [reflexivity |].
  split; [exact Hok |].
  pose proof (@text_field_checked_before_dispatch sample_build sample_defines
                firmware sample_env 0%nat 0 (@initial_globals sample_defines)
                (sample_firmware [context_request]) (sample_firmware [])
                context_request CONTEXT sample_defines_wf eq_refl Hpin eq_refl
                eq_refl) as H.
  destruct H as [_ H]. specialize (H Hok). cbv zeta in H.
  destruct H as [Hrun _]. rewrite Hrun. reflexivity.
Defined.

(** C2 as stated fails while the PIN is asked for: a SET_LOGIN packet whose
    declared length is zero is not answered with the error byte but with
    the status byte. *)
Lemma malformed_text_during_pin_prompt_gets_status :
  cmd empty_login_request = @cmd_code sample_defines SET_LOGIN
  /\ len empty_login_request = 0
  /\ trace (run sample_env
              (@usbProcessIncoming sample_build sample_defines 0
                 (@USB_CALLER_PIN sample_defines)
                 (@initial_globals sample_defines))
              (locked_device [empty_login_request]))
     = [usbRawHidRecv; isSmartCardAbsent; getSmartCardInsertedUnlocked;
        getCurrentScreen; usbSendMessage 185 1 [3]].
Proof. split; [reflexivity |]. split; reflexivity. Qed.

(* ===================================================================== *)
(** ** The password check *)
(* ===================================================================== *)


Section PasswordCheck.

Context {D : defines} {W : Type} (env : environment W).




End PasswordCheck.




(* ===================================================================== *)
(** ** The staging buffer during a node write *)
(* ===================================================================== *)

(** The state of the firmware after a run is the state after its calls, in
    the order of the trace. *)
Lemma world_run {W R : Type} (env : environment W) (p : prog R) (w : W) :
  world (run env p w) = apply_calls env (trace (run env p w)) w.
Proof.
  revert w. induction p as [r | c k IH | | ]; intro w; try reflexivity.
  cbn [run world trace]. unfold apply_calls. cbn [fold_left]. apply IH.
Qed.

Lemma splice_unfold (buf : list Z) (off : nat) (data : list Z) :
  splice buf off data = firstn off buf ++ data ++ skipn (off + length data) buf.
Proof. unfold splice, memcpy_at. rewrite firstn_all. reflexivity. Qed.

Lemma memcpy_at_prefix (buf : list Z) (off : nat) (data pad : list Z) :
  memcpy_at buf off (data ++ pad) (length data) = splice buf off data.
Proof.
  unfold splice, memcpy_at.
  rewrite firstn_app, Nat.sub_diag, firstn_O, app_nil_r. reflexivity.
Qed.

Lemma splice_nil (buf : list Z) (off : nat) : splice buf off [] = buf.
Proof.
  rewrite splice_unfold. cbn [length app]. rewrite Nat.add_0_r.
  apply firstn_skipn.
Qed.

Lemma splice_length (buf : list Z) (off : nat) (data : list Z) :
  (off + length data <= length buf)%nat ->
  length (splice buf off data) = length buf.
Proof.
  intro H. rewrite splice_unfold, !length_app, length_firstn, length_skipn. lia.
Qed.

(** Two writes, the second right after the first, are one write of the
    two payloads together. *)
Lemma splice_splice (buf : list Z) (off : nat) (a b : list Z) :
  (off <= length buf)%nat ->
  splice (splice buf off a) (off + length a) b = splice buf off (a ++ b).
Proof.
  intro H. rewrite (splice_unfold (splice buf off a)), (splice_unfold buf off a).
  rewrite (splice_unfold buf off (a ++ b)), length_app.
  assert (length (firstn off buf) = off) as Hl by (rewrite length_firstn; lia).
  rewrite (app_assoc (firstn off buf) a).
  assert (length (firstn off buf ++ a) = (off + length a)%nat) as Hl2
    by (rewrite length_app; lia).
  rewrite firstn_app, Hl2, Nat.sub_diag, firstn_O, app_nil_r.
  rewrite firstn_all2 by lia.
  rewrite skipn_app, Hl2.
  rewrite (skipn_all2 (firstn off buf ++ a)) by lia.
  replace (off + length a + length b - (off + length a))%nat with (length b) by lia.
  rewrite skipn_skipn. cbn [app].
  replace (length b + (off + length a))%nat with (off + (length a + length b))%nat by lia.
  rewrite <- !app_assoc. reflexivity.
Qed.

Section NodeWriteFirmware.

Context {B : build} {D : defines} (WF : wf_defines D).

Lemma write_packet_address (addr i : Z) (chunk pad : list Z) :
  node_address (write_packet addr i chunk pad) = addr.
Proof.
  unfold node_address, word_at, byte_at. cbn [write_packet body app nth].
  pose proof (Z.div_mod addr 256). lia.
Qed.

Lemma write_packet_number (addr i : Z) (chunk pad : list Z) :
  packet_number (write_packet addr i chunk pad) = i.
Proof. reflexivity. Qed.

(** A later packet of the node being written, on the modelled firmware. *)
Lemma firmware_later_packet (fuel : nat) (caller_id : Z) (g : globals)
    (w : firmware) (addr i : Z) (chunk pad : list Z) (rest : list usbMsg) :
  caller_id <> USB_CALLER_PIN ->
  memoryManagementModeApproved g = TRUE ->
  inbox w = write_packet addr i chunk pad :: rest ->
  i <> 0 ->
  currentNodeWritten g = addr ->
  addr <> NODE_ADDR_NULL ->
  i * (PACKET_EXPORT_SIZE - 3) + Z.of_nat (length chunk) <= NODE_SIZE ->
  let r := run firmware_env (usbProcessIncoming fuel caller_id g) w in
  outcome r = Returned g
  /\ inbox (world r) = rest
  /\ staging (world r)
     = splice (staging w) (Z.to_nat (chunk_offset addr i)) chunk
  /\ answers (trace r)
     = [usbSendMessage (cmd_code WRITE_FLASH_NODE) 1 [PLUGIN_BYTE_OK]].
Proof.
  intros Hpin Hm Hin Hi Hg Ha Hfit. cbv zeta.
  set (msg := write_packet addr i chunk pad) in *.
  assert (receives firmware_env w msg (set_inbox rest w)) as Hrecv.
  { unfold receives. cbn [firmware_env]. rewrite Hin. reflexivity. }
  assert (3 <= len msg) as Hlen by (cbn [msg write_packet len]; lia).
  destruct (write_node_later_packet WF firmware_env fuel caller_id g w
              (set_inbox rest w) msg Hrecv Hpin
              (approved_mode_allows WF msg g Hm) eq_refl Hlen Hi) as [Ho Ht].
  assert (write_accepted msg g = true) as Hacc.
  { unfold write_accepted, msg.
    rewrite write_packet_address, write_packet_number.
    rewrite Hg, Z.eqb_refl. apply Z.eqb_neq in Ha. rewrite Ha.
    apply Z.leb_le. cbn [write_packet len]. lia. }
  rewrite Hacc in Ht. split; [exact Ho |].
  rewrite world_run, Ht.
  assert (staged_offset msg g = chunk_offset addr i) as Hoff.
  { unfold staged_offset, chunk_offset. rewrite Hg. reflexivity. }
  assert (Z.to_nat (len msg - 3) = length chunk) as Hsz
    by (cbn [msg write_packet len]; lia).
  unfold flush_calls.
  destruct (packet_number msg =? Z.quot NODE_SIZE (PACKET_EXPORT_SIZE - 3));
    unfold apply_calls;
    cbn [app fold_left firmware_env snd default_answer];
    rewrite Hin, Hoff, Hsz;
    cbn [snd inbox staging set_inbox set_staging set_flash skipn msg
         write_packet body app answers filter is_answer];
    rewrite memcpy_at_prefix; repeat split; reflexivity.
Qed.

(** The first packet of a node the user owns, on the modelled firmware:
    the flash page of the node is staged, and the bytes of the packet are
    written into it with the user id stamped into the flags word. *)
Lemma firmware_first_packet (fuel : nat) (caller_id : Z) (g : globals)
    (w : firmware) (addr : Z) (chunk pad : list Z) (rest : list usbMsg) :
  caller_id <> USB_CALLER_PIN ->
  memoryManagementModeApproved g = TRUE ->
  inbox w = write_packet addr 0 chunk pad :: rest ->
  owner w addr = user_id w ->
  addr <> NODE_ADDR_NULL ->
  Z.of_nat (length chunk) <= NODE_SIZE ->
  (2 <= length chunk)%nat ->
  let r := run firmware_env (usbProcessIncoming fuel caller_id g) w in
  outcome r = Returned (set_currentNodeWritten addr g)
  /\ inbox (world r) = rest
  /\ staging (world r)
     = splice (flash w (pageNumberFromAddress addr))
         (Z.to_nat (chunk_offset addr 0))
         (store_word chunk 0 (stamp_user (word_at chunk 0) (user_id w)))
  /\ answers (trace r)
     = [usbSendMessage (cmd_code WRITE_FLASH_NODE) 1 [PLUGIN_BYTE_OK]].
Proof.
  intros Hpin Hm Hin Hown Ha Hfit H2. cbv zeta.
  destruct chunk as [| a [| b chunk]]; [simpl in H2; lia | simpl in H2; lia |].
  set (msg := write_packet addr 0 (a :: b :: chunk) pad) in *.
  assert (receives firmware_env w msg (set_inbox rest w)) as Hrecv.
  { unfold receives. cbn [firmware_env]. rewrite Hin. reflexivity. }
  assert (3 <= len msg) as Hlen by (cbn [msg write_packet len]; lia).
  assert (node_address msg = addr) as Haddr by apply write_packet_address.
  assert (fst (firmware_env (checkUserPermission (node_address msg))
                 (set_inbox rest w)) = RETURN_OK) as Hperm.
  { rewrite Haddr. cbn [firmware_env fst owner user_id set_inbox].
    rewrite Hown, Z.eqb_refl. reflexivity. }
  pose proof (write_node_first_packet_owned WF firmware_env fuel caller_id g w
                (set_inbox rest w) msg Hrecv Hpin
                (approved_mode_allows WF msg g Hm) eq_refl Hlen eq_refl Hperm)
    as H.
  cbv zeta in H. destruct H as [Ho Ht]. rewrite Haddr in Ho, Ht.
  assert (write_accepted msg (set_currentNodeWritten addr g) = true) as Hacc.
  { unfold write_accepted. rewrite Haddr.
    cbn [currentNodeWritten set_currentNodeWritten].
    rewrite Z.eqb_refl. apply Z.eqb_neq in Ha. rewrite Ha.
    apply Z.leb_le. cbn [msg write_packet len packet_number byte_at body app nth].
    lia. }
  rewrite Hacc in Ht. split; [exact Ho |].
  rewrite world_run, Ht.
  assert (staged_offset msg (set_currentNodeWritten addr g) = chunk_offset addr 0)
    as Hoff by reflexivity.
  assert (Z.to_nat (len msg - 3) = length (a :: b :: chunk)) as Hsz
    by (cbn [msg write_packet len]; lia).
  unfold flush_calls.
  destruct (packet_number msg =? Z.quot NODE_SIZE (PACKET_EXPORT_SIZE - 3));
    unfold apply_calls;
    cbn [app fold_left firmware_env fst snd default_answer];
    rewrite Hin, Hoff, Hsz;
    cbn [fst snd inbox staging flash user_id set_inbox set_staging set_flash
         skipn msg write_packet body app answers filter is_answer store_word];
    (split; [reflexivity |]); (split; [| reflexivity]);
    unfold word_at, byte_at; cbn [nth];
    exact (memcpy_at_prefix _ _ (_ :: _ :: chunk) pad).
Qed.

Lemma and_so_returned {W A C : Type} (r1 : result W A)
    (r2 : A -> W -> result W C) (a : A) :
  outcome r1 = Returned a ->
  and_so r1 r2
  = {| outcome := outcome (r2 a (world r1));
       world := world (r2 a (world r1));
       trace := trace r1 ++ trace (r2 a (world r1)) |}.
Proof. intro H. unfold and_so. rewrite H. reflexivity. Qed.

Lemma answers_app (t1 t2 : list call) :
  answers (t1 ++ t2) = answers t1 ++ answers t2.
Proof. apply filter_app. Qed.

(** The packets after the first, in order, on the modelled firmware: their
    bytes end up in the staging buffer one chunk after the other. *)
Lemma firmware_later_packets (fuel : nat) (caller_id : Z) (g : globals)
    (addr : Z) (pad : list Z -> list Z) :
  caller_id <> USB_CALLER_PIN ->
  memoryManagementModeApproved g = TRUE ->
  currentNodeWritten g = addr ->
  addr <> NODE_ADDR_NULL ->
  forall (chunks : list (list Z)) (i : nat) (w : firmware) (rest : list usbMsg),
    (1 <= i)%nat ->
    inbox w = write_packets addr i chunks pad ++ rest ->
    full_chunks (PACKET_EXPORT_SIZE - 3) chunks ->
    Z.of_nat i * (PACKET_EXPORT_SIZE - 3) + Z.of_nat (length (concat chunks))
    <= NODE_SIZE ->
    0 <= chunk_offset addr (Z.of_nat i) ->
    (Z.to_nat (chunk_offset addr (Z.of_nat i)) + length (concat chunks)
     <= length (staging w))%nat ->
    let r := run firmware_env
               (usbProcessIncoming_times fuel caller_id (length chunks) g) w in
    outcome r = Returned g
    /\ inbox (world r) = rest
    /\ staging (world r)
       = splice (staging w) (Z.to_nat (chunk_offset addr (Z.of_nat i)))
           (concat chunks)
    /\ answers (trace r)
       = repeat (usbSendMessage (cmd_code WRITE_FLASH_NODE) 1 [PLUGIN_BYTE_OK])
           (length chunks).
Proof.
  intros Hpin Hm Hg Ha chunks.
  induction chunks as [| c cs IH]; intros i w rest Hi Hin Hfull Hfit Hoff Hbuf;
    cbv zeta.
  - cbn [length usbProcessIncoming_times run outcome world trace concat
         answers filter repeat].
    cbn [write_packets app] in Hin. rewrite splice_nil. auto.
  - cbn [write_packets app] in Hin. cbn [concat] in Hfit, Hbuf |- *.
    rewrite length_app in Hfit, Hbuf.
    assert (Z.of_nat i <> 0) as Hi0 by lia.
    assert (Z.of_nat i * (PACKET_EXPORT_SIZE - 3) + Z.of_nat (length c)
            <= NODE_SIZE) as Hfit1 by lia.
    pose proof (firmware_later_packet fuel caller_id g w addr (Z.of_nat i) c
                  (pad c) _ Hpin Hm Hin Hi0 Hg Ha Hfit1) as H1.
    cbv zeta in H1. destruct H1 as (Ho1 & Hin1 & Hs1 & Ha1).
    cbn [length usbProcessIncoming_times]. rewrite run_bind.
    rewrite (and_so_returned _ _ g Ho1). cbn [outcome world trace].
    rewrite answers_app, Ha1.
    destruct cs as [| c' cs'].
    + cbn [length usbProcessIncoming_times run outcome world trace concat
           answers filter repeat app].
      rewrite app_nil_r. cbn [write_packets app] in Hin1. auto.
    + cbn [full_chunks] in Hfull. destruct Hfull as [[Hnil | Hc] Hfull];
        [discriminate Hnil |].
      assert (chunk_offset addr (Z.of_nat (S i))
              = chunk_offset addr (Z.of_nat i) + Z.of_nat (length c)) as Hnext.
      { unfold chunk_offset. rewrite Nat2Z.inj_succ, Z.mul_succ_l. lia. }
      assert (length (splice (staging w)
                        (Z.to_nat (chunk_offset addr (Z.of_nat i))) c)
              = length (staging w)) as Hlen by (apply splice_length; lia).
      pose proof (IH (S i) _ rest (le_S _ _ Hi) Hin1 Hfull) as H2.
      cbv zeta in H2.
      destruct H2 as (Ho2 & Hin2 & Hs2 & Ha2).
      * rewrite Nat2Z.inj_succ, Z.mul_succ_l. lia.
      * rewrite Hnext. lia.
      * rewrite Hs1, Hlen, Hnext. lia.
      * split; [exact Ho2 |]. split; [exact Hin2 |]. split.
        -- rewrite Hs2, Hs1, Hnext.
           replace (Z.to_nat (chunk_offset addr (Z.of_nat i) + Z.of_nat (length c)))
             with (Z.to_nat (chunk_offset addr (Z.of_nat i)) + length c)%nat by lia.
           apply splice_splice. lia.
        -- rewrite Ha2. reflexivity.
Qed.

Lemma stamped_app (c rest : list Z) (uid : Z) :
  (2 <= length c)%nat -> stamped (c ++ rest) uid = stamped c uid ++ rest.
Proof.
  intro H. destruct c as [| a [| b c]]; [simpl in H; lia | simpl in H; lia |].
  reflexivity.
Qed.

Lemma stamped_length (c : list Z) (uid : Z) :
  length (stamped c uid) = length c.
Proof. destruct c as [| a [| b c]]; reflexivity. Qed.

(** A whole node written in order, packet 0 first, on the modelled
    firmware: every packet is answered with PLUGIN_BYTE_OK, and the staging
    buffer holds the flash page of the node with the stamped payload
    written over the node, as one write of it would leave it. *)
Lemma firmware_node_write_in_order (fuel : nat) (caller_id : Z) (g : globals)
    (w : firmware) (addr : Z) (c0 : list Z) (chunks : list (list Z))
    (pad : list Z -> list Z) (rest : list usbMsg) :
  caller_id <> USB_CALLER_PIN ->
  memoryManagementModeApproved g = TRUE ->
  inbox w = write_packets addr 0 (c0 :: chunks) pad ++ rest ->
  owner w addr = user_id w ->
  addr <> NODE_ADDR_NULL ->
  full_chunks (PACKET_EXPORT_SIZE - 3) (c0 :: chunks) ->
  (2 <= length c0)%nat ->
  Z.of_nat (length (concat (c0 :: chunks))) <= NODE_SIZE ->
  0 <= NODE_SIZE * nodeNumberFromAddress addr ->
  (Z.to_nat (NODE_SIZE * nodeNumberFromAddress addr)
   + length (concat (c0 :: chunks))
   <= length (flash w (pageNumberFromAddress addr)))%nat ->
  let r := run firmware_env
             (usbProcessIncoming_times fuel caller_id (length (c0 :: chunks)) g)
             w in
  outcome r = Returned (set_currentNodeWritten addr g)
  /\ inbox (world r) = rest
  /\ staging (world r)
     = splice (flash w (pageNumberFromAddress addr))
         (Z.to_nat (NODE_SIZE * nodeNumberFromAddress addr))
         (stamped (concat (c0 :: chunks)) (user_id w))
  /\ answers (trace r)
     = repeat (usbSendMessage (cmd_code WRITE_FLASH_NODE) 1 [PLUGIN_BYTE_OK])
         (length (c0 :: chunks)).
Proof.
  intros Hpin Hm Hin Hown Ha Hfull H2 Hfit Hbase Hpage. cbv zeta.
  cbn [write_packets app] in Hin. cbn [concat] in Hfit, Hpage |- *.
  rewrite length_app in Hfit, Hpage.
  assert (chunk_offset addr 0 = NODE_SIZE * nodeNumberFromAddress addr) as Hoff0
    by (unfold chunk_offset; lia).
  pose proof (firmware_first_packet fuel caller_id g w addr c0 (pad c0) _ Hpin
                Hm Hin Hown Ha ltac:(lia) H2) as H1.
  cbv zeta in H1. destruct H1 as (Ho1 & Hin1 & Hs1 & Ha1).
  rewrite Hoff0 in Hs1. fold (stamped c0 (user_id w)) in Hs1.
  cbn [length usbProcessIncoming_times]. rewrite run_bind.
  rewrite (and_so_returned _ _ _ Ho1). cbn [outcome world trace].
  rewrite answers_app, Ha1, stamped_app by exact H2.
  destruct chunks as [| c1 cs].
  - cbn [length usbProcessIncoming_times run outcome world trace concat
         answers filter repeat app].
    rewrite app_nil_r. cbn [write_packets app] in Hin1. auto.
  - cbn [full_chunks] in Hfull. destruct Hfull as [[Hnil | Hc] Hfull];
      [discriminate Hnil |].
    assert (chunk_offset addr (Z.of_nat 1)
            = NODE_SIZE * nodeNumberFromAddress addr + Z.of_nat (length c0))
      as Hoff1 by (unfold chunk_offset; lia).
    assert (length (staging (world (run firmware_env
                                      (usbProcessIncoming fuel caller_id g) w)))
            = length (flash w (pageNumberFromAddress addr))) as Hlen.
    { rewrite Hs1. apply splice_length. rewrite stamped_length. lia. }
    pose proof (firmware_later_packets fuel caller_id
                  (set_currentNodeWritten addr g) addr pad Hpin Hm eq_refl Ha
                  (c1 :: cs) 1%nat _ rest (le_n 1) Hin1 Hfull) as H3.
    cbv zeta in H3. destruct H3 as (Ho3 & Hin3 & Hs3 & Ha3).
    + lia.
    + rewrite Hoff1. lia.
    + rewrite Hlen, Hoff1. lia.
    + split; [exact Ho3 |]. split; [exact Hin3 |]. split.
      * rewrite Hs3, Hs1, Hoff1.
        replace (Z.to_nat (NODE_SIZE * nodeNumberFromAddress addr
                           + Z.of_nat (length c0)))
          with (Z.to_nat (NODE_SIZE * nodeNumberFromAddress addr)
                + length (stamped c0 (user_id w)))%nat
          by (rewrite stamped_length; lia).
        apply splice_splice. lia.
      * rewrite Ha3. reflexivity.
Qed.

End NodeWriteFirmware.

Section NodeWriteTest.

Context {D : defines}.

Lemma write_accepted_true (msg : usbMsg) (g : globals) :
  currentNodeWritten g = node_address msg ->
  currentNodeWritten g <> NODE_ADDR_NULL ->
  packet_number msg * (PACKET_EXPORT_SIZE - 3) + (len msg - 3) <= NODE_SIZE ->
  write_accepted msg g = true.
Proof.
  intros H1 H2 H3. unfold write_accepted.
  rewrite H1, Z.eqb_refl. rewrite <- H1.
  apply Z.eqb_neq in H2. rewrite H2. apply Z.leb_le. exact H3.
Qed.

Lemma write_accepted_false (msg : usbMsg) (g : globals) :
  currentNodeWritten g <> node_address msg
  \/ currentNodeWritten g = NODE_ADDR_NULL
  \/ NODE_SIZE < packet_number msg * (PACKET_EXPORT_SIZE - 3) + (len msg - 3) ->
  write_accepted msg g = false.
Proof.
  intros [H | [H | H]]; unfold write_accepted.
  - apply Z.eqb_neq in H. rewrite H. reflexivity.
  - rewrite H, (Z.eqb_refl NODE_ADDR_NULL). cbn [negb].
    rewrite andb_false_r. reflexivity.
  - apply Z.leb_gt in H. rewrite H. apply andb_false_r.
Qed.

End NodeWriteTest.

(** C4, as the code has it, for WRITE_FLASH_NODE packets processed in
    approved memory management mode:
    - a packet number 0 that passes the ownership check makes its node the
      one being written and loads the flash page of the node into the
      staging buffer; this happens before the test of address and bound, so
      also for a packet that the test then refuses;
    - a later packet that passes the test has its payload written at offset
      NODE_SIZE * node number + packet number * (PACKET_EXPORT_SIZE - 3) of
      the staging buffer, that is at packet number * (PACKET_EXPORT_SIZE - 3)
      within the staged node, and the page is flushed after packet number
      NODE_SIZE / (PACKET_EXPORT_SIZE - 3);
    - on the modelled firmware, the packets 0..k of an owned node, in order
      and all full but the last, are all answered with PLUGIN_BYTE_OK and
      leave in the staging buffer the page of the node with the payload
      written over the node as by one write, the user id stamped into the
      flags word of the payload;
    - a packet that fails the test (the address is not that of the node
      being written, no node is being written, or the bytes would end
      beyond the node) and that did not pass the ownership check as packet
      0 is answered with the error byte; the globals stay as they are and
      no call touches the staging buffer. *)
Theorem node_write_in_packets
    {B : build} {D : defines} (fuel : nat) (caller_id : Z) (g : globals) :
  wf_defines D ->
  caller_id <> USB_CALLER_PIN ->
  memoryManagementModeApproved g = TRUE ->
  (forall (W : Type) (env : environment W) (w w1 : W) (msg : usbMsg),
     receives env w msg w1 ->
     cmd msg = cmd_code WRITE_FLASH_NODE ->
     3 <= len msg ->
     packet_number msg = 0 ->
     fst (env (checkUserPermission (node_address msg)) w1) = RETURN_OK ->
     outcome (run env (usbProcessIncoming fuel caller_id g) w)
     = Returned (set_currentNodeWritten (node_address msg) g)
     /\ firstn 3 (trace (run env (usbProcessIncoming fuel caller_id g) w))
        = [usbRawHidRecv;
           checkUserPermission (node_address msg);
           loadPageToInternalBuffer (pageNumberFromAddress (node_address msg))])
  /\ (forall (W : Type) (env : environment W) (w w1 : W) (msg : usbMsg),
        receives env w msg w1 ->
        cmd msg = cmd_code WRITE_FLASH_NODE ->
        3 <= len msg ->
        packet_number msg <> 0 ->
        currentNodeWritten g = node_address msg ->
        currentNodeWritten g <> NODE_ADDR_NULL ->
        packet_number msg * (PACKET_EXPORT_SIZE - 3) + (len msg - 3) <= NODE_SIZE ->
        outcome (run env (usbProcessIncoming fuel caller_id g) w) = Returned g
        /\ trace (run env (usbProcessIncoming fuel caller_id g) w)
           = [usbRawHidRecv;
              flashWriteBuffer (skipn 3 (body msg))
                (NODE_SIZE * nodeNumberFromAddress (currentNodeWritten g)
                 + packet_number msg * (PACKET_EXPORT_SIZE - 3))
                (len msg - 3)]
             ++ (if packet_number msg =? Z.quot NODE_SIZE (PACKET_EXPORT_SIZE - 3)
                 then [flashWriteBufferToPage
                         (pageNumberFromAddress (currentNodeWritten g))]
                 else [])
             ++ [usbSendMessage (cmd_code WRITE_FLASH_NODE) 1 [PLUGIN_BYTE_OK]])
  /\ (forall (w : firmware) (addr : Z) (c0 : list Z) (chunks : list (list Z))
        (pad : list Z -> list Z) (rest : list usbMsg),
        inbox w = write_packets addr 0 (c0 :: chunks) pad ++ rest ->
        owner w addr = user_id w ->
        addr <> NODE_ADDR_NULL ->
        full_chunks (PACKET_EXPORT_SIZE - 3) (c0 :: chunks) ->
        (2 <= length c0)%nat ->
        Z.of_nat (length (concat (c0 :: chunks))) <= NODE_SIZE ->
        0 <= NODE_SIZE * nodeNumberFromAddress addr ->
        (Z.to_nat (NODE_SIZE * nodeNumberFromAddress addr)
         + length (concat (c0 :: chunks))
         <= length (flash w (pageNumberFromAddress addr)))%nat ->
        let r := run firmware_env
                   (usbProcessIncoming_times fuel caller_id
                      (length (c0 :: chunks)) g) w in
        outcome r = Returned (set_currentNodeWritten addr g)
        /\ inbox (world r) = rest
        /\ staging (world r)
           = splice (flash w (pageNumberFromAddress addr))
               (Z.to_nat (NODE_SIZE * nodeNumberFromAddress addr))
               (stamped (concat (c0 :: chunks)) (user_id w))
        /\ answers (trace r)
           = repeat (usbSendMessage (cmd_code WRITE_FLASH_NODE) 1 [PLUGIN_BYTE_OK])
               (length (c0 :: chunks)))
  /\ (forall (W : Type) (env : environment W) (w w1 : W) (msg : usbMsg),
        receives env w msg w1 ->
        cmd msg = cmd_code WRITE_FLASH_NODE ->
        3 <= len msg ->
        currentNodeWritten g <> node_address msg
        \/ currentNodeWritten g = NODE_ADDR_NULL
        \/ NODE_SIZE < packet_number msg * (PACKET_EXPORT_SIZE - 3) + (len msg - 3) ->
        (packet_number msg <> 0 ->
         outcome (run env (usbProcessIncoming fuel caller_id g) w) = Returned g
         /\ trace (run env (usbProcessIncoming fuel caller_id g) w)
            = [usbRawHidRecv;
               usbSendMessage (cmd_code WRITE_FLASH_NODE) 1 [PLUGIN_BYTE_ERROR]])
        /\ (packet_number msg = 0 ->
            fst (env (checkUserPermission (node_address msg)) w1) <> RETURN_OK ->
            outcome (run env (usbProcessIncoming fuel caller_id g) w) = Returned g
            /\ trace (run env (usbProcessIncoming fuel caller_id g) w)
               = [usbRawHidRecv;
                  checkUserPermission (node_address msg);
                  usbSendMessage (cmd_code WRITE_FLASH_NODE) 1 [PLUGIN_BYTE_ERROR]])).
Proof.
  intros WF Hpin Hm. split; [| split; [| split]].
  - intros W env w w1 msg Hrecv E Hlen Hnb Hperm.
    pose proof (write_node_first_packet_owned WF env fuel caller_id g w w1 msg
                  Hrecv Hpin (approved_mode_allows WF msg g Hm) E Hlen Hnb Hperm)
      as H.
    cbv zeta in H. destruct H as [Ho Ht]. split; [exact Ho |].
    rewrite Ht.
    destruct (write_accepted msg (set_currentNodeWritten (node_address msg) g));
      reflexivity.
  - intros W env w w1 msg Hrecv E Hlen Hnb Ha Hn Hfit.
    destruct (write_node_later_packet WF env fuel caller_id g w w1 msg Hrecv Hpin
                (approved_mode_allows WF msg g Hm) E Hlen Hnb) as [Ho Ht].
    split; [exact Ho |].
    rewrite Ht, (write_accepted_true msg g Ha Hn Hfit). reflexivity.
  - intros w addr c0 chunks pad rest.
    apply (firmware_node_write_in_order WF fuel caller_id g w addr c0 chunks
             pad rest Hpin Hm).
  - intros W env w w1 msg Hrecv E Hlen Hbad. split.
    + intro Hnb.
      destruct (write_node_later_packet WF env fuel caller_id g w w1 msg Hrecv
                  Hpin (approved_mode_allows WF msg g Hm) E Hlen Hnb) as [Ho Ht].
      split; [exact Ho |].
      rewrite Ht, (write_accepted_false msg g Hbad). reflexivity.
    + intros Hnb Hperm.
      pose proof (write_node_first_packet_refused WF env fuel caller_id g w w1
                    msg Hrecv Hpin (approved_mode_allows WF msg g Hm) E Hlen Hnb
                    Hperm) as H.
      cbv zeta in H. destruct H as [Ho Ht]. split; [exact Ho |].
      rewrite Ht, (write_accepted_false msg g Hbad). reflexivity.
Qed.

Lemma node_write_in_packets_witness :
  wf_defines sample_defines
  /\ 0 <> @USB_CALLER_PIN sample_defines
  /\ memoryManagementModeApproved approved_globals = @TRUE sample_defines
  /\ map len node_17_packets = [62; 62; 17]
  /\ staging
       (world (run sample_env
                 (@usbProcessIncoming_times sample_build sample_defines 0 0 3
                    approved_globals)
                 (sample_firmware node_17_packets)))
     = repeat 162 132
       ++ ([225; 255] ++ repeat 1 57) ++ repeat 2 59 ++ repeat 3 14
  /\ answers
       (trace (run sample_env
                 (@usbProcessIncoming_times sample_build sample_defines 0 0 3
                    approved_globals)
                 (sample_firmware node_17_packets)))
     = repeat (usbSendMessage 198 1 [1]) 3.
Proof.
  assert (0 <> @USB_CALLER_PIN sample_defines) as Hpin by discriminate.
  split; [exact sample_defines_wf |]. split; [exact Hpin |].
  split; [reflexivity |]. split; [reflexivity |].
  pose proof (@node_write_in_packets sample_build sample_defines 0%nat 0
                approved_globals sample_defines_wf Hpin eq_refl) as H.
  destruct H as (_ & _ & H & _).
  specialize (H (sample_firmware node_17_packets) 17
                ([255; 255] ++ repeat 1 57) [repeat 2 59; repeat 3 14]
                zero_pad [] eq_refl eq_refl).
  cbv zeta in H. destruct H as (_ & _ & Hs & Ha).
  - discriminate.
  - simpl. repeat split; auto.
  - simpl. lia.
  - simpl. lia.
  - simpl. lia.
  - simpl. lia.
  - split; [refine (eq_trans Hs _) | refine (eq_trans Ha _)]; reflexivity.
Defined.

(** C4 as stated fails: a packet whose bytes would end beyond the node is
    answered with the error byte, but when it is a packet number 0 of a
    node the user owns, the flash page has been loaded over the staging
    buffer before the bound is tested, and the bytes staged so far are
    gone.  And the node staged by the packets 0..2 of node 17 does not
    start with the two bytes the host sent: packet number 0 has its flags
    word replaced by the answer of [userIdToFlags]. *)
Lemma oversized_first_packet_reloads_staging_buffer :
  @NODE_SIZE sample_defines
  < packet_number oversized_first_packet * (@PACKET_EXPORT_SIZE sample_defines - 3)
    + (len oversized_first_packet - 3)
  /\ trace (run sample_env
              (@usbProcessIncoming sample_build sample_defines 0 0 writing_globals)
              device_in_mid_write)
     = [usbRawHidRecv; checkUserPermission 17; loadPageToInternalBuffer 2;
        usbSendMessage 198 1 [@PLUGIN_BYTE_ERROR sample_defines]]
  /\ staging device_in_mid_write = repeat 7 264
  /\ staging
       (world (run sample_env
                 (@usbProcessIncoming sample_build sample_defines 0 0
                    writing_globals)
                 device_in_mid_write))
     = repeat 162 264
  /\ firstn 2 (concat node_17_chunks) = [255; 255]
  /\ firstn 2
       (skipn 132
          (staging
             (world (run sample_env
                       (@usbProcessIncoming_times sample_build sample_defines
                          0 0 3 approved_globals)
                       (sample_firmware node_17_packets)))))
     = [225; 255].
Proof.
  split; [simpl; lia |]. split; [reflexivity |]. split; [reflexivity |].
  split; [reflexivity |]. split; [reflexivity |]. vm_compute. reflexivity.
Qed.

(* ===================================================================== *)
(** ** Events and paths *)
(* ===================================================================== *)

(** The calls of the events of a run are its trace. *)
Lemma calls_of_events {W R : Type} (env : environment W) (p : prog R) (w : W) :
  map call_of (events env p w) = trace (run env p w).
Proof.
  revert w. induction p as [r | c k IH | | ]; intro w; try reflexivity.
  cbn [events run trace map call_of did projT1]. rewrite IH. reflexivity.
Qed.

Lemma on_every_path_run {W R : Type}
    (Q : list event -> final R -> Prop) (p : prog R) :
  forall seen, on_every_path Q seen p ->
  forall (env : environment W) (w : W),
    Q (rev seen ++ filter recorded (events env p w)) (outcome (run env p w)).
Proof.
  induction p as [r | c k IH | | ]; intros seen H env w;
    cbn [run events trace outcome filter];
    try (rewrite app_nil_r; exact H).
  cbn [on_every_path] in H.
  specialize (IH _ _ (H (fst (env c w))) env (snd (env c w))).
  unfold recorded at 1. cbn [call_of did projT1].
  destruct (is_poll c); cbn [negb]; [exact IH |].
  cbn [rev] in IH. rewrite <- app_assoc in IH. exact IH.
Qed.

Lemma path_assoc {A A' R : Type}
    (Q : list event -> final R -> Prop) (p : prog A) (k1 : A -> prog A')
    (k2 : A' -> prog R) :
  forall seen,
  on_every_path Q seen (bind p (fun x => bind (k1 x) k2)) ->
  on_every_path Q seen (bind (bind p k1) k2).
Proof.
  induction p as [a | c q IH | | ]; intros seen H; cbn [bind on_every_path] in *.
  - exact H.
  - intro a. apply IH. apply H.
  - exact H.
  - exact H.
Qed.

Section Paths.

Context {B : build} {D : defines}.

Lemma path_wait {R : Type}
    (Q : list event -> final R -> Prop) (seen : list event) (fuel : nat)
    (k : unit -> prog R) :
  Q (rev seen) Starved ->
  on_every_path Q seen (k tt) ->
  on_every_path Q seen (bind (wait_credential_timer fuel) k).
Proof.
  intros Hs Hn. induction fuel as [| n IH]; cbn [wait_credential_timer bind].
  - exact Hs.
  - cbn [do_call bind on_every_path is_poll]. intro a.
    destruct (a =? TIMER_RUNNING); [exact IH | exact Hn].
Qed.

Lemma path_checkMooltipassPassword {R : Type}
    (Q : list event -> final R -> Prop) (seen : list event) (fuel : nat)
    (data : list Z) (addr length : Z) (k : Z -> prog R) :
  (forall stored : list Z,
     let seen' := did (activateTimer TIMER_CREDENTIALS 1000) tt
                  :: did (eeprom_read_block addr length) stored :: seen in
     Q (rev seen') Starved
     /\ on_every_path Q seen'
          (k (if uint8 (memcmp stored data (Z.to_nat length)) =? 0
              then TRUE else FALSE))) ->
  on_every_path Q seen
    (bind (checkMooltipassPassword fuel data addr length) k).
Proof.
  intros Hk. unfold checkMooltipassPassword. apply path_assoc.
  unfold checkMooltipassPassword_locals.
  cbn [bind do_call on_every_path is_poll]. intros stored [].
  destruct (Hk stored) as [Hs Hn]. cbv zeta in Hs, Hn.
  apply path_assoc. apply path_wait; [exact Hs |].
  destruct (uint8 (memcmp stored data (Z.to_nat length)) =? 0);
    cbn [bind fst]; exact Hn.
Qed.

End Paths.

Lemma events_bind {W A R : Type} (env : environment W) (p : prog A)
    (k : A -> prog R) (w : W) :
  events env (bind p k) w
  = events env p w
    ++ match outcome (run env p w) with
       | Returned a => events env (k a) (world (run env p w))
       | _ => []
       end.
Proof.
  revert w. induction p as [a | c q IH | | ]; intro w; try reflexivity.
  cbn [bind events run outcome world app]. rewrite IH. reflexivity.
Qed.

(* ===================================================================== *)
(** ** Every case of the switch *)
(* ===================================================================== *)

Section Sweep.

Context {B : build} {D : defines}.

(** What a test of the code that went one way says. *)
Ltac learn E :=
  lazymatch type of E with
  | negb _ = false => apply negb_false_iff in E; learn E
  | negb _ = true => apply negb_true_iff in E; learn E
  | (_ && _) = true =>
      let E1 := fresh "E" in let E2 := fresh "E" in
      apply andb_true_iff in E; destruct E as [E1 E2]; learn E1; learn E2
  | (_ || _) = false =>
      let E1 := fresh "E" in let E2 := fresh "E" in
      apply orb_false_iff in E; destruct E as [E1 E2]; learn E1; learn E2
  | (?x =? ?y) = true => apply Z.eqb_eq in E; try subst x
  | (?x =? ?y) = false => apply Z.eqb_neq in E
  | (_ >? _) = false => rewrite Z.gtb_ltb in E; apply Z.ltb_ge in E
  | (_ >=? _) = false => rewrite Z.geb_leb in E; apply Z.leb_gt in E
  | _ => idtac
  end.

Ltac split_on b := let E := fresh "E" in destruct b eqn:E; learn E.

(** A call or an event is in a list that is written out. *)
Ltac in_list :=
  unfold made; cbn [map call_of did projT1];
  solve [repeat (first [left; reflexivity | right])].

Ltac fact :=
  first [ exact I | assumption | reflexivity | in_list
        | symmetry; assumption ].

Ltac prove :=
  first [ fact
        | split; [prove | prove]
        | eexists; prove
        | left; prove
        | right; prove ].

(** The end of a path: the summary holds of the events that are
    written out. *)
Ltac leaf :=
  cbn [on_every_path]; unfold handled;
  cbn [rev app map call_of did projT1 replies filter is_reply one_reply fst snd
       guarded needs] in *;
  unfold mode_effect, target_effect, import_effect, hang_effect, confirmed,
    written_once, bootloader_start_justified, bootloader_password_given,
    import_approved,
    import_step, password_matched;
  cbn [map call_of did projT1 replies filter is_reply
       memoryManagementModeApproved mediaFlashImportApproved currentNodeWritten
       mediaFlashImportPage mediaFlashImportOffset
       set_memoryManagementModeApproved set_mediaFlashImportApproved
       set_currentNodeWritten set_mediaFlashImportPage set_mediaFlashImportOffset
       leaveMemoryManagementMode] in *;
  repeat split; prove.

(** One step along the program. *)
Ltac step :=
  cbn [memoryManagementModeApproved mediaFlashImportApproved currentNodeWritten
       mediaFlashImportPage mediaFlashImportOffset
       set_memoryManagementModeApproved set_mediaFlashImportApproved
       set_currentNodeWritten set_mediaFlashImportPage set_mediaFlashImportOffset];
  lazymatch goal with
  | |- forall _, _ => intro
  | |- _ /\ _ => split
  | |- on_every_path _ _ (bind (bind _ _) _) => apply path_assoc
  | |- on_every_path _ _ (bind (checkMooltipassPassword _ _ _ _) _) =>
      apply path_checkMooltipassPassword; intro; cbv zeta
  | |- on_every_path _ _ (bind (and_then ?b _) _) =>
      unfold and_then at 1; split_on b
  | |- on_every_path _ _ (bind (or_else ?b _) _) =>
      unfold or_else at 1; split_on b
  | |- on_every_path _ _ (bind (if ?b then _ else _) _) => split_on b
  | |- on_every_path _ _ (bind (match ?x with (_, _) => _ end) _) => destruct x
  | |- on_every_path _ _ (match ?x with (_, _) => _ end) => destruct x
  | |- on_every_path _ _ (if ?b then _ else _) => split_on b
  | |- on_every_path _ _ (Call _ _) => cbn [on_every_path is_poll]; intro
  | |- handled _ _ _ _ _ => leaf
  | |- on_every_path _ _ (Ret _) => leaf
  | |- on_every_path _ _ Hang => leaf
  | |- on_every_path _ _ Starve => leaf
  | |- on_every_path _ _ (bind _ _) =>
      progress cbn [bind do_call trailer break_with return_now arm_watchdog fst snd]
  end.

(** Every case of the switch, followed by the trailer, does what the
    summary says, however its calls are answered. *)
Lemma case_handled (fuel : nat) (c : cmd_name) (msg : usbMsg) (g : globals)
    (rcv : answer usbRawHidRecv) :
  cmd_code c = cmd msg -> has_case c = true ->
  on_every_path (handled (Some c) msg g) [did usbRawHidRecv rcv]
    (eg <- case_of fuel c msg g ;; trailer msg eg).
Proof.
  intros E Hc. destruct c; cbn [case_of has_case] in *.
  all: unfold case_CANCEL_REQUEST, case_PING, case_VERSION, case_CONTEXT,
    case_SET_DATA_SERVICE, case_GET_LOGIN, case_GET_PASSWORD, case_GET_DESCRIPTION,
    case_SET_LOGIN, case_SET_PASSWORD, case_CHECK_PASSWORD, case_ADD_CONTEXT,
    case_ADD_DATA_SERVICE, case_WRITE_32B_IN_DN, case_READ_32B_IN_DN,
    case_START_MEMORYMGMT, case_GET_STARTING_PARENT, case_GET_DN_START_PARENT,
    case_GET_FREE_SLOTS_ADDR, case_END_MEMORYMGMT, case_READ_FLASH_NODE,
    case_SET_FAVORITE, case_GET_FAVORITE, case_SET_STARTING_PARENT,
    case_SET_DN_START_PARENT, case_SET_CTRVALUE, case_GET_CTRVALUE,
    case_ADD_CARD_CPZ_CTR, case_GET_CARD_CPZ_CTR, case_WRITE_FLASH_NODE,
    case_IMPORT_MEDIA_START, case_IMPORT_MEDIA, case_IMPORT_MEDIA_END,
    case_SET_MOOLTIPASS_PARM, case_GET_MOOLTIPASS_PARM, case_GET_CUR_CARD_CPZ,
    case_RESET_CARD, case_UNLOCK_WITH_PIN, case_ADD_UNKNOWN_CARD,
    case_READ_CARD_LOGIN, case_READ_CARD_PASS, case_SET_CARD_LOGIN,
    case_SET_CARD_PASS, case_GET_RANDOM_NUMBER, case_SET_DATE, case_SET_UID,
    case_GET_UID, case_SET_BOOTLOADER_PWD, case_JUMP_TO_BOOTLOADER,
    case_ERASE_EEPROM, case_ERASE_FLASH, case_ERASE_SMC, case_DRAW_BITMAP,
    case_CLONE_SMARTCARD, case_MINI_FRAME_BUF_DATA, case_SET_FONT,
    case_STACK_FREE, case_USB_KEYBOARD_PRESS.
  all: repeat step.
Qed.

(** So does the dispatcher from the text field check on. *)
Lemma process_message_handled (fuel : nat) (msg : usbMsg) (g : globals)
    (rcv : answer usbRawHidRecv) :
  on_every_path (handled (switch_label (cmd msg)) (seen_by_switch msg) g)
    [did usbRawHidRecv rcv] (process_message fuel msg g).
Proof.
  assert (forall msg' : usbMsg, cmd msg' = cmd msg ->
            on_every_path (handled (switch_label (cmd msg)) msg' g)
              [did usbRawHidRecv rcv]
              (check_mode_and_process fuel msg' g)) as Hgate.
  { intros msg' Hc. unfold check_mode_and_process. cbv zeta.
    destruct (in_datamgmt_range (cmd msg')
              && (memoryManagementModeApproved g =? FALSE)).
    - repeat step.
    - unfold process_command, switch_datacmd. rewrite <- Hc.
      destruct (switch_label (cmd msg')) as [c |] eqn:L.
      + apply find_some in L. destruct L as [_ L].
        apply andb_true_iff in L. destruct L as [Hl L]. apply Z.eqb_eq in L.
        apply case_handled; assumption.
      + repeat step. }
  unfold process_message, seen_by_switch. cbv zeta.
  destruct (max_text_size (cmd msg)) as [max |].
  - destruct (fst (checkTextField (body msg) (len msg) max) =? RETURN_NOK).
    + repeat step.
    + apply Hgate. reflexivity.
  - apply Hgate. reflexivity.
Qed.

(** What a call of the dispatcher did, whatever was received. *)
Lemma usbProcessIncoming_handled {W : Type} (env : environment W)
    (fuel : nat) (caller_id : Z) (g : globals) (w : W) :
  let msg := snd (fst (env usbRawHidRecv w)) in
  handled (switch_label (cmd msg)) (seen_by_switch msg) g
    (filter recorded (events env (usbProcessIncoming fuel caller_id g) w))
    (outcome (run env (usbProcessIncoming fuel caller_id g) w)).
Proof.
  cbv zeta. unfold usbProcessIncoming.
  cbn [bind do_call events run outcome filter recorded call_of did projT1
       is_poll negb].
  destruct (env usbRawHidRecv w) as [[rc msg] w1] eqn:Hr. cbn [fst snd].
  destruct (negb (rc =? RETURN_COM_TRANSF_OK)).
  - cbn [events run outcome filter]. leaf.
  - destruct ((caller_id =? USB_CALLER_PIN) || (cmd msg =? cmd_code MOOLTIPASS_STATUS)).
    + unfold answer_status.
      cbn [bind do_call events run outcome filter recorded call_of did projT1
           is_poll negb fst snd]. leaf.
    + exact (on_every_path_run _ _ _
               (process_message_handled fuel msg g (rc, msg)) env w1).
Qed.

Lemma cmd_seen_by_switch (msg : usbMsg) : cmd (seen_by_switch msg) = cmd msg.
Proof. unfold seen_by_switch. destruct (max_text_size (cmd msg)); reflexivity. Qed.

Lemma len_seen_by_switch (msg : usbMsg) : len (seen_by_switch msg) = len msg.
Proof. unfold seen_by_switch. destruct (max_text_size (cmd msg)); reflexivity. Qed.

End Sweep.

(* ===================================================================== *)
(** ** Reading the summary *)
(* ===================================================================== *)

Lemma replies_recorded (l : list event) :
  replies (map call_of (filter recorded l)) = replies (map call_of l).
Proof.
  unfold replies. induction l as [| e l IH]; [reflexivity |].
  cbn [filter map]. destruct (recorded e) eqn:N; cbn [map filter]; rewrite IH.
  - reflexivity.
  - unfold recorded in N. destruct (call_of e); try discriminate N. reflexivity.
Qed.

Lemma recorded_incl (l : list event) : incl (filter recorded l) l.
Proof. intros e H. apply filter_In in H. exact (proj1 H). Qed.

Lemma earlier_incl (l : list event) : incl (rev (filter recorded l) ++ []) l.
Proof.
  intros e H. rewrite app_nil_r in H. apply in_rev in H.
  apply (recorded_incl l). exact H.
Qed.

Lemma made_incl (c : call) (l l' : list event) :
  incl l l' -> made c l -> made c l'.
Proof.
  unfold made. intros Hi H. apply in_map_iff in H. destruct H as (e & <- & H).
  apply in_map. apply Hi. exact H.
Qed.

Section Incl.

Context {B : build} {D : defines}.

Lemma confirmed_incl (n : Z) (l l' : list event) :
  incl l l' -> confirmed n l -> confirmed n l'.
Proof. intros Hi (text & H). exists text. apply Hi. exact H. Qed.

Lemma bootloader_password_given_incl (msg : usbMsg) (l l' : list event) :
  incl l l' -> bootloader_password_given msg l -> bootloader_password_given msg l'.
Proof.
  intros Hi (H1 & H2 & H3 & stored & H4 & H5).
  repeat split; [apply Hi; exact H1 | exact H2 | exact (confirmed_incl _ _ _ Hi H3) |].
  exists stored. split; [apply Hi; exact H4 | exact H5].
Qed.

Lemma written_once_incl (label : option cmd_name) (msg : usbMsg)
    (l l' : list event) :
  incl l l' -> written_once label msg l -> written_once label msg l'.
Proof.
  intros Hi [(L & Hn & v & H1 & H2) | (L & Hn & v & H1 & H2)]; [left | right];
    (repeat split; [exact L | exact Hn |]); exists v;
    (split; [apply Hi |]; assumption).
Qed.

Lemma bootloader_start_justified_incl (label : option cmd_name) (msg : usbMsg)
    (l l' : list event) :
  incl l l' -> bootloader_start_justified label msg l ->
  bootloader_start_justified label msg l'.
Proof.
  intros Hi [(L & Hd & H) | (L & Hb & H)].
  - left. repeat split; [exact L | exact (made_incl _ _ _ Hi Hd) |].
    destruct H as [H | H]; [left; exact H | right].
    exact (bootloader_password_given_incl _ _ _ Hi H).
  - right. repeat split; [exact L | exact Hb | apply Hi; exact H].
Qed.

Lemma import_approved_incl (msg : usbMsg) (l l' : list event) :
  incl l l' -> import_approved msg l -> import_approved msg l'.
Proof.
  intros Hi [H | (Hd & Hn & H)]; [left; exact H | right].
  repeat split; [exact (made_incl _ _ _ Hi Hd) | exact Hn |].
  destruct H as [(v & H1 & H2) | H].
  - left. exists v. split; [apply Hi |]; assumption.
  - right. exact (bootloader_password_given_incl _ _ _ Hi H).
Qed.

Lemma guarded_at (label : option cmd_name) (msg : usbMsg) (g : globals)
    (l1 l2 : list event) (e : event) :
  forall earlier,
  guarded label msg g earlier (l1 ++ e :: l2) ->
  needs label msg g (call_of e) (rev l1 ++ earlier).
Proof.
  induction l1 as [| x l1 IH]; intros earlier H; cbn [app guarded rev] in *.
  - exact (proj1 H).
  - rewrite <- app_assoc. apply (IH (x :: earlier)). exact (proj2 H).
Qed.

Lemma switch_label_cmd (datacmd : Z) (c : cmd_name) :
  switch_label datacmd = Some c -> datacmd = cmd_code c /\ has_case c = true.
Proof.
  intro L. apply find_some in L. destruct L as [_ L].
  apply andb_true_iff in L. destruct L as [Hc L]. apply Z.eqb_eq in L.
  split; [symmetry; exact L | exact Hc].
Qed.

(** A command that has no text field reaches the switch as it was
    received. *)
Lemma seen_by_switch_other (WF : wf_defines D) (msg : usbMsg) (c : cmd_name) :
  switch_label (cmd msg) = Some c -> is_text_cmd c = false ->
  seen_by_switch msg = msg.
Proof.
  intros L Ht. apply switch_label_cmd in L. destruct L as [L _].
  unfold seen_by_switch. rewrite L, (max_text_size_other WF c Ht). reflexivity.
Qed.

(** What a sensitive call of the dispatcher needed, in terms of the events
    before it. *)
Lemma usbProcessIncoming_needs {W : Type} (env : environment W)
    (fuel : nat) (caller_id : Z) (g : globals) (w : W)
    (before after : list event) (e : event) :
  let msg := snd (fst (env usbRawHidRecv w)) in
  events env (usbProcessIncoming fuel caller_id g) w = before ++ e :: after ->
  recorded e = true ->
  needs (switch_label (cmd msg)) (seen_by_switch msg) g (call_of e)
    (rev (filter recorded before) ++ []).
Proof.
  cbv zeta. intros Hl He.
  destruct (usbProcessIncoming_handled env fuel caller_id g w) as (_ & H & _).
  rewrite Hl, filter_app in H. cbn [filter] in H. rewrite He in H.
  exact (guarded_at _ _ _ _ _ _ _ H).
Qed.

End Incl.

(* ===================================================================== *)
(** ** Replies *)
(* ===================================================================== *)

(** X1: whatever packet is received and however the rest of the firmware
    answers, one call of [usbProcessIncoming] answers the host at most once
    (by [usbSendMessage] or [usbHidSend]; the debug prints of the
    development commands are not answers): not at all, or with the six bytes
    of a PING packet, or with one message under the command byte of the
    received packet, or with one under the status command. *)
Theorem at_most_one_reply_echoing_the_command
    {B : build} {D : defines} {W : Type} (env : environment W)
    (fuel : nat) (caller_id : Z) (g : globals) (w : W) :
  let r := run env (usbProcessIncoming fuel caller_id g) w in
  let msg := snd (fst (env usbRawHidRecv w)) in
  replies (trace r) = []
  \/ (exists m, replies (trace r) = [usbHidSend 0 m 6]
                /\ cmd msg = cmd_code PING)
  \/ (exists size data, replies (trace r) = [usbSendMessage (cmd msg) size data])
  \/ (exists size data,
        replies (trace r)
        = [usbSendMessage (cmd_code MOOLTIPASS_STATUS) size data]).
Proof.
  cbv zeta.
  destruct (usbProcessIncoming_handled env fuel caller_id g w) as (H & _).
  rewrite replies_recorded, calls_of_events, cmd_seen_by_switch in H.
  destruct (replies (trace (run env (usbProcessIncoming fuel caller_id g) w)))
    as [| c [| c' rs]]; cbn [one_reply] in H.
  - left. reflexivity.
  - destruct c; try contradiction.
    + destruct H as [-> | ->]; [right; right; left | right; right; right]; eauto.
    + right. left. destruct H as (-> & -> & L).
      apply switch_label_cmd in L. exists msg. split; [reflexivity | apply L].
  - destruct c; contradiction.
Qed.

(* ===================================================================== *)
(** ** Memory management mode *)
(* ===================================================================== *)

(** X2: a call of [usbProcessIncoming] that returns changes
    [memoryManagementModeApproved] on two packets only: on START_MEMORYMGMT,
    to TRUE, after the card was found unlocked, the user approved the
    prompt and the re-authentication with the card succeeded; and on
    END_MEMORYMGMT, to FALSE. *)
Theorem memory_management_entered_only_through_start
    {B : build} {D : defines} {W : Type} (env : environment W)
    (fuel : nat) (caller_id : Z) (g g' : globals) (w : W) :
  let r := run env (usbProcessIncoming fuel caller_id g) w in
  let log := events env (usbProcessIncoming fuel caller_id g) w in
  let msg := snd (fst (env usbRawHidRecv w)) in
  outcome r = Returned g' ->
  memoryManagementModeApproved g' = memoryManagementModeApproved g
  \/ (cmd msg = cmd_code START_MEMORYMGMT
      /\ memoryManagementModeApproved g' = TRUE
      /\ In (did getSmartCardInsertedUnlocked TRUE) log
      /\ (exists text, In (did (guiAskForConfirmation 241 text) RETURN_OK) log)
      /\ In (did removeCardAndReAuthUser RETURN_OK) log)
  \/ (cmd msg = cmd_code END_MEMORYMGMT
      /\ memoryManagementModeApproved g' = FALSE).
Proof.
  cbv zeta. intro Ho.
  destruct (usbProcessIncoming_handled env fuel caller_id g w) as (_ & _ & H).
  rewrite Ho in H. destruct H as (H & _ & _).
  destruct H as [H | [(L & Ht & Hu & Hc & Hr) | (L & Hf)]].
  - left. exact H.
  - right. left. apply switch_label_cmd in L.
    repeat split; [apply L | exact Ht | apply recorded_incl; exact Hu
                  | exact (confirmed_incl _ _ _ (recorded_incl _) Hc)
                  | apply recorded_incl; exact Hr].
  - right. right. apply switch_label_cmd in L. split; [apply L | exact Hf].
Qed.

Lemma memory_management_entered_only_through_start_witness :
  outcome (run sample_env
             (@usbProcessIncoming sample_build sample_defines 0 0
                (@initial_globals sample_defines))
             (sample_firmware [start_memorymgmt_request]))
  = Returned approved_globals
  /\ In (did removeCardAndReAuthUser (@RETURN_OK sample_defines))
        (events sample_env
           (@usbProcessIncoming sample_build sample_defines 0 0
              (@initial_globals sample_defines))
           (sample_firmware [start_memorymgmt_request])).
Proof.
  split; [reflexivity |].
  destruct (@memory_management_entered_only_through_start sample_build
              sample_defines firmware sample_env 0%nat 0
              (@initial_globals sample_defines) approved_globals
              (sample_firmware [start_memorymgmt_request]) eq_refl)
    as [H | [(_ & _ & _ & _ & H) | (_ & H)]].
  - discriminate H.
  - exact H.
  - discriminate H.
Defined.

(** X3: over any number of calls of [usbProcessIncoming] in a row that
    start with memory management mode off, the mode is off at the end unless
    a re-authentication of the user with the card succeeded on the way. *)
Theorem mode_stays_off_without_reauthentication
    {B : build} {D : defines} {W : Type} (env : environment W)
    (fuel : nat) (caller_id : Z) (n : nat) :
  forall (g g' : globals) (w : W),
  memoryManagementModeApproved g = FALSE ->
  outcome (run env (usbProcessIncoming_times fuel caller_id n g) w) = Returned g' ->
  existsb reauthenticated
    (events env (usbProcessIncoming_times fuel caller_id n g) w) = false ->
  memoryManagementModeApproved g' = FALSE.
Proof.
  induction n as [| n IH]; intros g g' w Hg Ho Hn.
  - cbn in Ho. injection Ho as <-. exact Hg.
  - cbn [usbProcessIncoming_times] in Ho, Hn.
    rewrite run_bind in Ho. rewrite events_bind in Hn.
    unfold and_so in Ho.
    destruct (outcome (run env (usbProcessIncoming fuel caller_id g) w))
      as [g1 | |] eqn:Ho1; cbn [outcome] in Ho; try discriminate Ho.
    rewrite existsb_app in Hn. apply orb_false_iff in Hn. destruct Hn as [Hn1 Hn2].
    refine (IH g1 g' _ _ Ho Hn2).
    destruct (usbProcessIncoming_handled env fuel caller_id g w) as (_ & _ & H).
    rewrite Ho1 in H. destruct H as (H & _ & _).
    destruct H as [H | [(_ & _ & _ & _ & Hr) | (_ & Hf)]].
    + rewrite H. exact Hg.
    + exfalso. apply recorded_incl in Hr.
      assert (existsb reauthenticated
                (events env (usbProcessIncoming fuel caller_id g) w) = true) as Ht.
      { apply existsb_exists. eexists. split; [exact Hr |].
        cbn. apply Z.eqb_refl. }
      rewrite Ht in Hn1. discriminate Hn1.
    + exact Hf.
Qed.

Lemma mode_stays_off_without_reauthentication_witness :
  memoryManagementModeApproved (@initial_globals sample_defines)
  = @FALSE sample_defines
  /\ outcome (run sample_env
                (@usbProcessIncoming_times sample_build sample_defines 0 0 2
                   (@initial_globals sample_defines))
                (sample_firmware [read_card_pass_request; read_node_request]))
     = Returned (@initial_globals sample_defines)
  /\ existsb (@reauthenticated sample_defines)
       (events sample_env
          (@usbProcessIncoming_times sample_build sample_defines 0 0 2
             (@initial_globals sample_defines))
          (sample_firmware [read_card_pass_request; read_node_request]))
     = false
  /\ memoryManagementModeApproved (@initial_globals sample_defines)
     = @FALSE sample_defines.
Proof.
  split; [reflexivity |]. split; [reflexivity |]. split; [reflexivity |].
  exact (@mode_stays_off_without_reauthentication sample_build sample_defines
           firmware sample_env 0%nat 0 2%nat
           (@initial_globals sample_defines) (@initial_globals sample_defines)
           (sample_firmware [read_card_pass_request; read_node_request])
           eq_refl eq_refl eq_refl).
Defined.

(** X4: a call of [usbProcessIncoming] that returns changes
    [currentNodeWritten] on two packets only: on END_MEMORYMGMT, to
    NODE_ADDR_NULL; and on WRITE_FLASH_NODE, to an address for which
    [checkUserPermission] answered RETURN_OK in this call and whose page was
    loaded into the staging buffer. *)
Theorem write_target_set_only_after_ownership_check
    {B : build} {D : defines} {W : Type} (env : environment W)
    (fuel : nat) (caller_id : Z) (g g' : globals) (w : W) :
  let r := run env (usbProcessIncoming fuel caller_id g) w in
  let log := events env (usbProcessIncoming fuel caller_id g) w in
  let msg := snd (fst (env usbRawHidRecv w)) in
  outcome r = Returned g' ->
  currentNodeWritten g' = currentNodeWritten g
  \/ (cmd msg = cmd_code END_MEMORYMGMT
      /\ currentNodeWritten g' = NODE_ADDR_NULL)
  \/ (cmd msg = cmd_code WRITE_FLASH_NODE
      /\ In (did (checkUserPermission (currentNodeWritten g')) RETURN_OK) log
      /\ In (loadPageToInternalBuffer
               (pageNumberFromAddress (currentNodeWritten g'))) (trace r)).
Proof.
  cbv zeta. intro Ho.
  destruct (usbProcessIncoming_handled env fuel caller_id g w) as (_ & _ & H).
  rewrite Ho in H. destruct H as (_ & H & _).
  destruct H as [H | [(L & Hn) | (L & Hp & Hl)]].
  - left. exact H.
  - right. left. apply switch_label_cmd in L. split; [apply L | exact Hn].
  - right. right. apply switch_label_cmd in L.
    repeat split; [apply L | apply recorded_incl; exact Hp |].
    rewrite <- calls_of_events. exact (made_incl _ _ _ (recorded_incl _) Hl).
Qed.

Lemma write_target_set_only_after_ownership_check_witness :
  outcome (run sample_env
             (@usbProcessIncoming sample_build sample_defines 0 0 approved_globals)
             (sample_firmware node_17_packets))
  = Returned writing_globals
  /\ In (did (checkUserPermission 17) (@RETURN_OK sample_defines))
        (events sample_env
           (@usbProcessIncoming sample_build sample_defines 0 0 approved_globals)
           (sample_firmware node_17_packets)).
Proof.
  split; [reflexivity |].
  destruct (@write_target_set_only_after_ownership_check sample_build
              sample_defines firmware sample_env 0%nat 0
              approved_globals writing_globals
              (sample_firmware node_17_packets) eq_refl)
    as [H | [(_ & H) | (_ & H & _)]].
  - discriminate H.
  - discriminate H.
  - exact H.
Defined.

(** X5: a packet whose command is none of START_MEMORYMGMT,
    END_MEMORYMGMT, WRITE_FLASH_NODE, IMPORT_MEDIA_START, IMPORT_MEDIA and
    IMPORT_MEDIA_END leaves the five globals of the file as they were, when
    the call returns. *)
Theorem other_commands_keep_the_globals
    {B : build} {D : defines} {W : Type} (env : environment W)
    (fuel : nat) (caller_id : Z) (g g' : globals) (w : W) :
  let r := run env (usbProcessIncoming fuel caller_id g) w in
  let msg := snd (fst (env usbRawHidRecv w)) in
  outcome r = Returned g' ->
  (forall c, In c [START_MEMORYMGMT; END_MEMORYMGMT; WRITE_FLASH_NODE;
                   IMPORT_MEDIA_START; IMPORT_MEDIA; IMPORT_MEDIA_END] ->
             cmd msg <> cmd_code c) ->
  g' = g.
Proof.
  cbv zeta. intros Ho Hc.
  destruct (usbProcessIncoming_handled env fuel caller_id g w) as (_ & _ & H).
  rewrite Ho in H. destruct H as (Hm & Ht & Hi).
  assert (forall c, In c [START_MEMORYMGMT; END_MEMORYMGMT; WRITE_FLASH_NODE;
                          IMPORT_MEDIA_START; IMPORT_MEDIA; IMPORT_MEDIA_END] ->
                    switch_label
                      (cmd (snd (fst (env usbRawHidRecv w)))) <> Some c) as Hl.
  { intros c Hin L. apply switch_label_cmd in L. exact (Hc c Hin (proj1 L)). }
  assert (memoryManagementModeApproved g' = memoryManagementModeApproved g) as E1.
  { destruct Hm as [H | [(L & _) | (L & _)]]; [exact H | |];
      exfalso; revert L; apply Hl; cbn [In]; auto 10. }
  assert (currentNodeWritten g' = currentNodeWritten g) as E2.
  { destruct Ht as [H | [(L & _) | (L & _)]]; [exact H | |];
      exfalso; revert L; apply Hl; cbn [In]; auto 10. }
  destruct Hi as [(E3 & E4 & E5) | [(L & _) | [(L & _) | (L & _)]]];
    [| exfalso; revert L; apply Hl; cbn [In]; auto 10 ..].
  destruct g, g'. cbn in *. congruence.
Qed.

Lemma other_commands_keep_the_globals_witness :
  outcome (run sample_env
             (@usbProcessIncoming sample_build sample_defines 0 0 approved_globals)
             (sample_firmware [set_favorite_255]))
  = Returned approved_globals
  /\ (forall c, In c [START_MEMORYMGMT; END_MEMORYMGMT; WRITE_FLASH_NODE;
                      IMPORT_MEDIA_START; IMPORT_MEDIA; IMPORT_MEDIA_END] ->
                cmd set_favorite_255 <> @cmd_code sample_defines c)
  /\ approved_globals = approved_globals.
Proof.
  assert (forall c, In c [START_MEMORYMGMT; END_MEMORYMGMT; WRITE_FLASH_NODE;
                          IMPORT_MEDIA_START; IMPORT_MEDIA; IMPORT_MEDIA_END] ->
                    cmd set_favorite_255 <> @cmd_code sample_defines c) as Hc.
  { intros c [<- | [<- | [<- | [<- | [<- | [<- | []]]]]]]; discriminate. }
  split; [reflexivity |]. split; [exact Hc |].
  exact (@other_commands_keep_the_globals sample_build sample_defines firmware
           sample_env 0%nat 0 approved_globals approved_globals
           (sample_firmware [set_favorite_255]) eq_refl Hc).
Defined.

(* ===================================================================== *)
(** ** Stopping for the bootloader *)
(* ===================================================================== *)

(** X6: a call of [usbProcessIncoming] ends in [while(1);] on a
    JUMP_TO_BOOTLOADER or an IMPORT_MEDIA_END packet only, after the boot key
    was written to the EEPROM and the watchdog armed, and without an answer
    ([usbSendMessage] or [usbHidSend]) sent to the host. *)
Theorem stops_only_with_bootkey_written_and_watchdog_armed
    {B : build} {D : defines} {W : Type} (env : environment W)
    (fuel : nat) (caller_id : Z) (g : globals) (w : W) :
  let r := run env (usbProcessIncoming fuel caller_id g) w in
  let msg := snd (fst (env usbRawHidRecv w)) in
  outcome r = Hung ->
  (cmd msg = cmd_code JUMP_TO_BOOTLOADER \/ cmd msg = cmd_code IMPORT_MEDIA_END)
  /\ In (eeprom_write_word EEP_BOOTKEY_ADDR BOOTLOADER_BOOTKEY) (trace r)
  /\ In wdt_enable_2s (trace r)
  /\ replies (trace r) = [].
Proof.
  cbv zeta. intro Ho.
  destruct (usbProcessIncoming_handled env fuel caller_id g w) as (_ & _ & H).
  rewrite Ho in H. destruct H as (L & Hk & Hw & Hr).
  rewrite replies_recorded, calls_of_events in Hr.
  rewrite <- calls_of_events.
  repeat split; [| exact (made_incl _ _ _ (recorded_incl _) Hk)
                 | exact (made_incl _ _ _ (recorded_incl _) Hw)
                 | rewrite calls_of_events; exact Hr].
  destruct L as [L | L]; apply switch_label_cmd in L; [left | right]; apply L.
Qed.

Lemma stops_only_with_bootkey_written_and_watchdog_armed_witness :
  outcome (run sample_env
             (@usbProcessIncoming development_build sample_defines 0 0
                (@initial_globals sample_defines))
             (sample_firmware [jump_request]))
  = Hung
  /\ In wdt_enable_2s
        (trace (run sample_env
                  (@usbProcessIncoming development_build sample_defines 0 0
                     (@initial_globals sample_defines))
                  (sample_firmware [jump_request]))).
Proof.
  split; [reflexivity |].
  exact (proj1 (proj2 (proj2
           (@stops_only_with_bootkey_written_and_watchdog_armed
              development_build sample_defines firmware sample_env 0%nat 0
              (@initial_globals sample_defines)
              (sample_firmware [jump_request]) eq_refl)))).
Defined.

(* ===================================================================== *)
(** ** Nodes, the card and the PIN *)
(* ===================================================================== *)

(** X7: whatever the packet, [readNode] is called on an address only
    after [checkUserPermission] answered RETURN_OK for that address in the
    same call of [usbProcessIncoming]. *)
Theorem node_read_only_after_ownership_check
    {B : build} {D : defines} {W : Type} (env : environment W)
    (fuel : nat) (caller_id : Z) (g : globals) (w : W)
    (before after : list event) (addr : Z) (node : list Z) :
  events env (usbProcessIncoming fuel caller_id g) w
  = before ++ did (readNode addr) node :: after ->
  In (did (checkUserPermission addr) RETURN_OK) before.
Proof.
  intro Hl.
  pose proof (usbProcessIncoming_needs env fuel caller_id g w _ _ _ Hl eq_refl) as H.
  cbn [needs call_of did projT1] in H. apply earlier_incl. exact H.
Qed.

Lemma node_read_only_after_ownership_check_witness :
  events sample_env
    (@usbProcessIncoming sample_build sample_defines 0 0 approved_globals)
    (sample_firmware [read_node_request])
  = [did usbRawHidRecv (2, read_node_request);
     did (checkUserPermission 16) 0]
    ++ did (readNode 16) []
    :: [did (usbSendMessage 197 132 []) tt]
  /\ In (did (checkUserPermission 16) (@RETURN_OK sample_defines))
        [did usbRawHidRecv (2, read_node_request);
         did (checkUserPermission 16) 0].
Proof.
  split; [reflexivity |].
  exact (@node_read_only_after_ownership_check sample_build sample_defines
           firmware sample_env 0%nat 0 approved_globals
           (sample_firmware [read_node_request])
           [did usbRawHidRecv (2, read_node_request);
            did (checkUserPermission 16) 0]
           [did (usbSendMessage 197 132 []) tt] 16 [] eq_refl).
Defined.

(** X8: the password kept on the card is read, and the application
    zones of the card are written or erased, only after the card was found
    inserted and unlocked and the user approved a prompt, in the same call
    of [usbProcessIncoming]. *)
Theorem card_credentials_need_unlocked_card_and_confirmation
    {B : build} {D : defines} {W : Type} (env : environment W)
    (fuel : nat) (caller_id : Z) (g : globals) (w : W)
    (before after : list event) (e : event) :
  events env (usbProcessIncoming fuel caller_id g) w = before ++ e :: after ->
  touches_card_credentials (call_of e) = true ->
  In (did getSmartCardInsertedUnlocked TRUE) before
  /\ exists text, In (did (guiAskForConfirmation 1 text) RETURN_OK) before.
Proof.
  intros Hl Hc.
  assert (recorded e = true) as Hr
    by (unfold recorded; destruct (call_of e); try reflexivity; discriminate Hc).
  pose proof (usbProcessIncoming_needs env fuel caller_id g w _ _ _ Hl Hr) as H.
  cbv zeta in H.
  destruct (call_of e); try discriminate Hc; cbn [needs] in H;
    destruct H as [Hu Hq];
    (split; [apply earlier_incl; exact Hu
            | exact (confirmed_incl _ _ _ (earlier_incl _) Hq)]).
Qed.

Lemma card_credentials_need_unlocked_card_and_confirmation_witness :
  events sample_env
    (@usbProcessIncoming sample_build sample_defines 0 0
       (@initial_globals sample_defines))
    (sample_firmware [read_card_pass_request])
  = [did usbRawHidRecv (2, read_card_pass_request);
     did getSmartCardInsertedUnlocked 1;
     did (readStoredStringToBuffer 14) [];
     did (guiAskForConfirmation 1 [[]]) 0]
    ++ did readMooltipassWebsitePassword []
    :: [did (usbSendMessage 181 30 []) tt; did guiGetBackToCurrentScreen tt]
  /\ touches_card_credentials (call_of (did readMooltipassWebsitePassword []))
     = true
  /\ In (did getSmartCardInsertedUnlocked (@TRUE sample_defines))
        [did usbRawHidRecv (2, read_card_pass_request);
         did getSmartCardInsertedUnlocked 1;
         did (readStoredStringToBuffer 14) [];
         did (guiAskForConfirmation 1 [[]]) 0].
Proof.
  split; [reflexivity |]. split; [reflexivity |].
  exact (proj1
           (@card_credentials_need_unlocked_card_and_confirmation sample_build
              sample_defines firmware sample_env 0%nat 0
              (@initial_globals sample_defines)
              (sample_firmware [read_card_pass_request])
              [did usbRawHidRecv (2, read_card_pass_request);
               did getSmartCardInsertedUnlocked 1;
               did (readStoredStringToBuffer 14) [];
               did (guiAskForConfirmation 1 [[]]) 0]
              [did (usbSendMessage 181 30 []) tt; did guiGetBackToCurrentScreen tt]
              (did readMooltipassWebsitePassword []) eq_refl eq_refl)).
Defined.

(** X9: a PIN that came over USB is tried on the card only when the
    packet holds two bytes, the screen is that of a locked card, the card was
    detected as that of a known user, and the user approved the prompt. *)
Theorem usb_pin_tried_only_after_confirmation
    {B : build} {D : defines} {W : Type} (env : environment W)
    (fuel : nat) (caller_id : Z) (g : globals) (w : W)
    (before after : list event) (pin verdict : Z) :
  let msg := snd (fst (env usbRawHidRecv w)) in
  events env (usbProcessIncoming fuel caller_id g) w
  = before ++ did (validCardDetectedFunction pin) verdict :: after ->
  len msg = 2
  /\ In (did getCurrentScreen SCREEN_DEFAULT_INSERTED_LCK) before
  /\ In (did cardDetectedRoutine RETURN_MOOLTIPASS_USER) before
  /\ exists text, In (did (guiAskForConfirmation 1 text) RETURN_OK) before.
Proof.
  cbv zeta. intro Hl.
  pose proof (usbProcessIncoming_needs env fuel caller_id g w _ _ _ Hl eq_refl) as H.
  cbn [needs call_of did projT1] in H. destruct H as (H0 & H1 & H2 & H3).
  rewrite len_seen_by_switch in H0.
  repeat split; [exact H0 | apply earlier_incl; exact H1 | apply earlier_incl; exact H2
                | exact (confirmed_incl _ _ _ (earlier_incl _) H3)].
Qed.

Lemma usb_pin_tried_only_after_confirmation_witness :
  events known_card_env
    (@usbProcessIncoming sample_build sample_defines 0 0
       (@initial_globals sample_defines))
    (locked_device [unlock_with_pin_request])
  = [did usbRawHidRecv (2, unlock_with_pin_request);
     did getCurrentScreen 1;
     did cardDetectedRoutine 4;
     did (readStoredStringToBuffer 13) [];
     did (guiAskForConfirmation 1 [[]]) 0]
    ++ did (validCardDetectedFunction 12345) 0
    :: [did (guiSetCurrentScreen 2) tt; did guiGetBackToCurrentScreen tt;
        did (usbSendMessage 213 1 [1]) tt]
  /\ len unlock_with_pin_request = 2
  /\ In (did cardDetectedRoutine (@RETURN_MOOLTIPASS_USER sample_defines))
        [did usbRawHidRecv (2, unlock_with_pin_request);
         did getCurrentScreen 1;
         did cardDetectedRoutine 4;
         did (readStoredStringToBuffer 13) [];
         did (guiAskForConfirmation 1 [[]]) 0].
Proof.
  split; [reflexivity |].
  destruct (@usb_pin_tried_only_after_confirmation sample_build sample_defines
              firmware known_card_env 0%nat 0
              (@initial_globals sample_defines)
              (locked_device [unlock_with_pin_request])
              [did usbRawHidRecv (2, unlock_with_pin_request);
               did getCurrentScreen 1;
               did cardDetectedRoutine 4;
               did (readStoredStringToBuffer 13) [];
               did (guiAskForConfirmation 1 [[]]) 0]
              [did (guiSetCurrentScreen 2) tt; did guiGetBackToCurrentScreen tt;
               did (usbSendMessage 213 1 [1]) tt]
              12345 0 eq_refl) as (H1 & _ & H2 & _).
  split; [exact H1 | exact H2].
Defined.

(** X10: the card is erased only on the screen of an unknown card after
    the user unlocked it with its PIN, or in a development build with the
    card unlocked; and a user is added for an existing card only by
    ADD_UNKNOWN_CARD, for a packet of the length of a code protected zone
    and a nonce, on that screen, after the card was unlocked and its code
    protected zone was found equal to the one in the packet (for
    well-formed constants). *)
Theorem card_erased_or_user_added_only_after_unlocking
    {B : build} {D : defines} {W : Type} (env : environment W)
    (fuel : nat) (caller_id : Z) (g : globals) (w : W)
    (before after : list event) :
  let log := events env (usbProcessIncoming fuel caller_id g) w in
  let msg := snd (fst (env usbRawHidRecv w)) in
  wf_defines D ->
  (forall a, log = before ++ did eraseSmartCard a :: after ->
     (In (did getCurrentScreen SCREEN_DEFAULT_INSERTED_UNKNOWN) before
      /\ In (did guiCardUnlockingProcess RETURN_OK) before)
     \/ (DEV_PLUGIN_COMMS = true
         /\ In (did getSmartCardInsertedUnlocked TRUE) before))
  /\ (forall nonce a,
        log = before ++ did (addNewUserForExistingCard nonce) a :: after ->
        cmd msg = cmd_code ADD_UNKNOWN_CARD
        /\ len msg = SMARTCARD_CPZ_LENGTH + AES256_CTR_LENGTH
        /\ In (did getCurrentScreen SCREEN_DEFAULT_INSERTED_UNKNOWN) before
        /\ In (did guiCardUnlockingProcess RETURN_OK) before
        /\ exists cpz,
             In (did readCodeProtectedZone cpz) before
             /\ memcmp cpz (body msg) (Z.to_nat SMARTCARD_CPZ_LENGTH) = 0).
Proof.
  cbv zeta. intro WF. split.
  - intros a Hl.
    pose proof (usbProcessIncoming_needs env fuel caller_id g w _ _ _ Hl eq_refl) as H.
    cbn [needs call_of did projT1] in H.
    destruct H as [[H1 H2] | [H1 H2]]; [left | right];
      (split; [| apply earlier_incl; exact H2]);
      [apply earlier_incl; exact H1 | exact H1].
  - intros nonce a Hl.
    pose proof (usbProcessIncoming_needs env fuel caller_id g w _ _ _ Hl eq_refl) as H.
    cbn [needs call_of did projT1] in H.
    destruct H as (L & H0 & H1 & H2 & cpz & H3 & H4).
    rewrite (seen_by_switch_other WF _ _ L eq_refl) in H0, H4.
    apply switch_label_cmd in L.
    repeat split; [apply L | exact H0 | apply earlier_incl; exact H1
                  | apply earlier_incl; exact H2 |].
    exists cpz. split; [apply earlier_incl; exact H3 | exact H4].
Qed.

Lemma card_erased_or_user_added_only_after_unlocking_witness :
  wf_defines sample_defines
  /\ events sample_env
       (@usbProcessIncoming sample_build sample_defines 0 0
          (@initial_globals sample_defines))
       (unknown_card_device [reset_card_request])
     = [did usbRawHidRecv (2, reset_card_request);
        did getCurrentScreen 7;
        did activityDetectedRoutine tt;
        did guiCardUnlockingProcess 0]
       ++ did eraseSmartCard tt
       :: [did (guiSetCurrentScreen 3) tt; did guiGetBackToCurrentScreen tt;
           did (usbSendMessage 179 1 [1]) tt]
  /\ ((In (did getCurrentScreen (@SCREEN_DEFAULT_INSERTED_UNKNOWN sample_defines))
          [did usbRawHidRecv (2, reset_card_request);
           did getCurrentScreen 7;
           did activityDetectedRoutine tt;
           did guiCardUnlockingProcess 0]
       /\ In (did guiCardUnlockingProcess (@RETURN_OK sample_defines))
             [did usbRawHidRecv (2, reset_card_request);
              did getCurrentScreen 7;
              did activityDetectedRoutine tt;
              did guiCardUnlockingProcess 0])
      \/ (@DEV_PLUGIN_COMMS sample_build = true
          /\ In (did getSmartCardInsertedUnlocked (@TRUE sample_defines))
                [did usbRawHidRecv (2, reset_card_request);
                 did getCurrentScreen 7;
                 did activityDetectedRoutine tt;
                 did guiCardUnlockingProcess 0])).
Proof.
  split; [exact sample_defines_wf |]. split; [reflexivity |].
  exact (proj1
           (@card_erased_or_user_added_only_after_unlocking sample_build
              sample_defines firmware sample_env 0%nat 0
              (@initial_globals sample_defines)
              (unknown_card_device [reset_card_request])
              [did usbRawHidRecv (2, reset_card_request);
               did getCurrentScreen 7;
               did activityDetectedRoutine tt;
               did guiCardUnlockingProcess 0]
              [did (guiSetCurrentScreen 3) tt; did guiGetBackToCurrentScreen tt;
               did (usbSendMessage 179 1 [1]) tt]
              sample_defines_wf) tt eq_refl).
Defined.

(* ===================================================================== *)
(** ** The EEPROM *)
(* ===================================================================== *)

(** X11: a block is written to the EEPROM only by SET_UID or
    SET_BOOTLOADER_PWD, for a packet of exactly the length of the setting,
    and after the marker byte of the setting was read and found not to hold
    the marker: a setting that was made is not overwritten. *)
Theorem uid_and_bootloader_password_written_once
    {B : build} {D : defines} {W : Type} (env : environment W)
    (fuel : nat) (caller_id : Z) (g : globals) (w : W)
    (before after : list event) (data : list Z) (addr n : Z) (a : unit) :
  let msg := snd (fst (env usbRawHidRecv w)) in
  events env (usbProcessIncoming fuel caller_id g) w
  = before ++ did (eeprom_write_block data addr n) a :: after ->
  exists v : Z,
    (cmd msg = cmd_code SET_UID
     /\ len msg = UID_REQUEST_KEY_SIZE + UID_SIZE
     /\ In (did (eeprom_read_byte EEP_UID_REQUEST_KEY_SET_ADDR) v) before
     /\ v <> UID_REQUEST_KEY_OK_KEY)
    \/ (cmd msg = cmd_code SET_BOOTLOADER_PWD
        /\ len msg = PACKET_EXPORT_SIZE
        /\ In (did (eeprom_read_byte EEP_BOOT_PWD_SET) v) before
        /\ v <> BOOTLOADER_PWDOK_KEY).
Proof.
  cbv zeta. intro Hl.
  pose proof (usbProcessIncoming_needs env fuel caller_id g w _ _ _ Hl eq_refl) as H.
  cbn [needs call_of did projT1] in H.
  destruct H as [(L & Hn & v & H1 & H2) | (L & Hn & v & H1 & H2)];
    exists v; apply switch_label_cmd in L; rewrite len_seen_by_switch in Hn;
    [left | right];
    (repeat split; [apply L | exact Hn | apply earlier_incl; exact H1 | exact H2]).
Qed.

Lemma uid_and_bootloader_password_written_once_witness :
  events sample_env
    (@usbProcessIncoming sample_build sample_defines 0 0
       (@initial_globals sample_defines))
    (sample_firmware [set_uid_request])
  = [did usbRawHidRecv (2, set_uid_request);
     did (eeprom_read_byte 900) 4]
    ++ did (eeprom_write_block (body set_uid_request) 901 22) tt
    :: [did (eeprom_write_byte 900 187) tt;
        did (usbSendMessage 188 1 [1]) tt]
  /\ (cmd set_uid_request = @cmd_code sample_defines SET_UID
      \/ cmd set_uid_request = @cmd_code sample_defines SET_BOOTLOADER_PWD).
Proof.
  split; [reflexivity |].
  destruct (@uid_and_bootloader_password_written_once sample_build
              sample_defines firmware sample_env 0%nat 0
              (@initial_globals sample_defines)
              (sample_firmware [set_uid_request])
              [did usbRawHidRecv (2, set_uid_request);
               did (eeprom_read_byte 900) 4]
              [did (eeprom_write_byte 900 187) tt;
               did (usbSendMessage 188 1 [1]) tt]
              (body set_uid_request) 901 22 tt eq_refl)
    as [v [(H & _) | (H & _)]]; [left | right]; exact H.
Defined.

(** X12: for well-formed constants, every direct write to the EEPROM
    (a byte, a word or a block) is part of one of the two write-once
    settings, or hands the device over to the bootloader: by
    JUMP_TO_BOOTLOADER after the delay, in a development build or with the
    bootloader password approved by the user; or by IMPORT_MEDIA_END in a
    preproduction build whose bootloader password is set. *)
Theorem eeprom_written_only_when_justified
    {B : build} {D : defines} {W : Type} (env : environment W)
    (fuel : nat) (caller_id : Z) (g : globals) (w : W)
    (before after : list event) (e : event) :
  let msg := snd (fst (env usbRawHidRecv w)) in
  wf_defines D ->
  events env (usbProcessIncoming fuel caller_id g) w = before ++ e :: after ->
  writes_eeprom (call_of e) = true ->
  written_once (switch_label (cmd msg)) msg before
  \/ bootloader_start_justified (switch_label (cmd msg)) msg before.
Proof.
  cbv zeta. intros WF Hl Hc.
  assert (recorded e = true) as Hr
    by (unfold recorded; destruct (call_of e); try reflexivity; discriminate Hc).
  pose proof (usbProcessIncoming_needs env fuel caller_id g w _ _ _ Hl Hr) as H.
  cbv zeta in H.
  assert (written_once (switch_label (cmd (snd (fst (env usbRawHidRecv w)))))
            (seen_by_switch (snd (fst (env usbRawHidRecv w))))
            (rev (filter recorded before) ++ [])
          \/ bootloader_start_justified
               (switch_label (cmd (snd (fst (env usbRawHidRecv w)))))
               (seen_by_switch (snd (fst (env usbRawHidRecv w))))
               (rev (filter recorded before) ++ [])) as H'.
  { destruct (call_of e); try discriminate Hc; cbn [needs] in H;
      [exact H | exact H | left; exact H]. }
  clear H.
  assert (seen_by_switch (snd (fst (env usbRawHidRecv w)))
          = snd (fst (env usbRawHidRecv w))) as Hs.
  { destruct H' as [[(L & _) | (L & _)] | [(L & _) | (L & _)]];
      apply (seen_by_switch_other WF _ _ L); reflexivity. }
  rewrite Hs in H'.
  destruct H' as [H | H]; [left | right].
  - exact (written_once_incl _ _ _ _ (earlier_incl _) H).
  - exact (bootloader_start_justified_incl _ _ _ _ (earlier_incl _) H).
Qed.

Lemma eeprom_written_only_when_justified_witness :
  wf_defines sample_defines
  /\ events sample_env
       (@usbProcessIncoming development_build sample_defines 0 0
          (@initial_globals sample_defines))
       (sample_firmware [jump_request])
     = [did usbRawHidRecv (2, jump_request); did userViewDelay tt]
       ++ did (eeprom_write_word 0 45054) tt
       :: [did (eeprom_write_byte 1000 0) tt; did cli tt; did wdt_reset tt;
           did wdt_clear_flag tt; did wdt_change_enable tt;
           did wdt_enable_2s tt; did sei tt]
  /\ writes_eeprom (call_of (did (eeprom_write_word 0 45054) tt)) = true
  /\ (@written_once sample_defines
        (@switch_label development_build sample_defines (cmd jump_request))
        jump_request
        [did usbRawHidRecv (2, jump_request); did userViewDelay tt]
      \/ @bootloader_start_justified development_build sample_defines
           (@switch_label development_build sample_defines (cmd jump_request))
           jump_request
           [did usbRawHidRecv (2, jump_request); did userViewDelay tt]).
Proof.
  split; [exact sample_defines_wf |]. split; [reflexivity |].
  split; [reflexivity |].
  exact (@eeprom_written_only_when_justified development_build sample_defines
           firmware sample_env 0%nat 0 (@initial_globals sample_defines)
           (sample_firmware [jump_request])
           [did usbRawHidRecv (2, jump_request); did userViewDelay tt]
           [did (eeprom_write_byte 1000 0) tt; did cli tt; did wdt_reset tt;
            did wdt_clear_flag tt; did wdt_change_enable tt;
            did wdt_enable_2s tt; did sei tt]
           (did (eeprom_write_word 0 45054) tt)
           sample_defines_wf eq_refl eq_refl).
Defined.

(** X13: for well-formed constants and a UID stored apart from the
    request key and the bootloader password, the UID is read from the EEPROM
    only by GET_UID, for a packet of the length of the request key, when the
    request key is set and the key in the packet compared equal to the
    stored one. *)
Theorem uid_read_only_after_request_key_matched
    {B : build} {D : defines} {W : Type} (env : environment W)
    (fuel : nat) (caller_id : Z) (g : globals) (w : W)
    (before after : list event) (n : Z) (uid : list Z) :
  let msg := snd (fst (env usbRawHidRecv w)) in
  wf_defines D ->
  EEP_UID_ADDR <> EEP_UID_REQUEST_KEY_ADDR ->
  EEP_UID_ADDR <> EEP_BOOT_PWD ->
  events env (usbProcessIncoming fuel caller_id g) w
  = before ++ did (eeprom_read_block EEP_UID_ADDR n) uid :: after ->
  cmd msg = cmd_code GET_UID
  /\ len msg = UID_REQUEST_KEY_SIZE
  /\ In (did (eeprom_read_byte EEP_UID_REQUEST_KEY_SET_ADDR)
           UID_REQUEST_KEY_OK_KEY) before
  /\ exists stored,
       In (did (eeprom_read_block EEP_UID_REQUEST_KEY_ADDR UID_REQUEST_KEY_SIZE)
             stored) before
       /\ uint8 (memcmp stored (body msg) (Z.to_nat UID_REQUEST_KEY_SIZE)) = 0.
Proof.
  cbv zeta. intros WF Hk Hp Hl.
  pose proof (usbProcessIncoming_needs env fuel caller_id g w _ _ _ Hl eq_refl) as H.
  cbn [needs call_of did projT1] in H.
  destruct H as [(L & Hn & Hs & [(Ha & _) | (_ & _ & stored & Hi & Hm)])
                | (Ha & _)]; try contradiction.
  rewrite (seen_by_switch_other WF _ _ L eq_refl) in *.
  apply switch_label_cmd in L.
  repeat split; [apply L | exact Hn | apply earlier_incl; exact Hs |].
  exists stored. split; [apply earlier_incl; exact Hi |].
  unfold password_matched in Hm.
  destruct (uint8 (memcmp stored (body (snd (fst (env usbRawHidRecv w))))
                     (Z.to_nat UID_REQUEST_KEY_SIZE)) =? 0) eqn:E.
  - apply Z.eqb_eq in E. exact E.
  - exfalso. apply (wf_TRUE_FALSE D WF). symmetry. exact Hm.
Qed.

Lemma uid_read_only_after_request_key_matched_witness :
  wf_defines sample_defines
  /\ @EEP_UID_ADDR sample_defines <> @EEP_UID_REQUEST_KEY_ADDR sample_defines
  /\ @EEP_UID_ADDR sample_defines <> @EEP_BOOT_PWD sample_defines
  /\ events sample_env
       (@usbProcessIncoming sample_build sample_defines 1001 0
          (@initial_globals sample_defines))
       (keyed_device [get_uid_request])
     = firstn 1005
         (events sample_env
            (@usbProcessIncoming sample_build sample_defines 1001 0
               (@initial_globals sample_defines))
            (keyed_device [get_uid_request]))
       ++ did (eeprom_read_block 917 6) [0; 1; 2; 3; 4; 5]
       :: [did (usbSendMessage 189 6 [0; 1; 2; 3; 4; 5]) tt]
  /\ In (did (eeprom_read_byte 900) 187)
        (firstn 1005
           (events sample_env
              (@usbProcessIncoming sample_build sample_defines 1001 0
                 (@initial_globals sample_defines))
              (keyed_device [get_uid_request]))).
Proof.
  assert (@EEP_UID_ADDR sample_defines <> @EEP_UID_REQUEST_KEY_ADDR sample_defines)
    as H1 by discriminate.
  assert (@EEP_UID_ADDR sample_defines <> @EEP_BOOT_PWD sample_defines)
    as H2 by discriminate.
  assert (events sample_env
            (@usbProcessIncoming sample_build sample_defines 1001 0
               (@initial_globals sample_defines))
            (keyed_device [get_uid_request])
          = firstn 1005
              (events sample_env
                 (@usbProcessIncoming sample_build sample_defines 1001 0
                    (@initial_globals sample_defines))
                 (keyed_device [get_uid_request]))
            ++ did (eeprom_read_block 917 6) [0; 1; 2; 3; 4; 5]
            :: [did (usbSendMessage 189 6 [0; 1; 2; 3; 4; 5]) tt]) as H3
    by (vm_compute; reflexivity).
  split; [exact sample_defines_wf |]. split; [exact H1 |]. split; [exact H2 |].
  split; [exact H3 |].
  exact (proj1 (proj2 (proj2
           (@uid_read_only_after_request_key_matched sample_build
              sample_defines firmware sample_env 1001%nat 0
              (@initial_globals sample_defines)
              (keyed_device [get_uid_request]) _ _ 6 [0; 1; 2; 3; 4; 5]
              sample_defines_wf H1 H2 H3)))).
Defined.

(** X14: outside GET_UID, the only block read from the EEPROM is the
    bootloader password, and it is read only after the delay, for a packet
    of the length of a password, when a password is set and the user
    approved the prompt. *)
Theorem stored_password_read_only_after_delay_and_confirmation
    {B : build} {D : defines} {W : Type} (env : environment W)
    (fuel : nat) (caller_id : Z) (g : globals) (w : W)
    (before after : list event) (addr n : Z) (stored : list Z) :
  let msg := snd (fst (env usbRawHidRecv w)) in
  events env (usbProcessIncoming fuel caller_id g) w
  = before ++ did (eeprom_read_block addr n) stored :: after ->
  cmd msg = cmd_code GET_UID
  \/ (addr = EEP_BOOT_PWD /\ n = PACKET_EXPORT_SIZE
      /\ len msg = PACKET_EXPORT_SIZE
      /\ In userViewDelay (map call_of before)
      /\ In (did (eeprom_read_byte EEP_BOOT_PWD_SET) BOOTLOADER_PWDOK_KEY) before
      /\ exists text, In (did (guiAskForConfirmation 2 text) RETURN_OK) before).
Proof.
  cbv zeta. intro Hl.
  pose proof (usbProcessIncoming_needs env fuel caller_id g w _ _ _ Hl eq_refl) as H.
  cbn [needs call_of did projT1] in H.
  destruct H as [(L & _) | (Ha & Hn & H1 & Hlen & H2 & H3)].
  - left. apply switch_label_cmd in L. apply L.
  - right. rewrite len_seen_by_switch in Hlen.
    repeat split; [exact Ha | exact Hn | exact Hlen
                  | exact (made_incl _ _ _ (earlier_incl _) H1)
                  | apply earlier_incl; exact H2
                  | exact (confirmed_incl _ _ _ (earlier_incl _) H3)].
Qed.

Lemma stored_password_read_only_after_delay_and_confirmation_witness :
  events sample_env
    (@usbProcessIncoming sample_build sample_defines 1001 0
       (@initial_globals sample_defines))
    (keyed_device [import_media_start_request])
  = [did usbRawHidRecv (2, import_media_start_request);
     did userViewDelay tt;
     did (readStoredStringToBuffer 11) [];
     did (readStoredStringToBuffer 12) [];
     did (eeprom_read_byte 1000) 171;
     did (guiAskForConfirmation 2 [[]; []]) 0]
    ++ did (eeprom_read_block 1001 62) (body import_media_start_request)
    :: skipn 7
         (events sample_env
            (@usbProcessIncoming sample_build sample_defines 1001 0
               (@initial_globals sample_defines))
            (keyed_device [import_media_start_request]))
  /\ (cmd import_media_start_request = @cmd_code sample_defines GET_UID
      \/ 1001 = @EEP_BOOT_PWD sample_defines).
Proof.
  assert (events sample_env
            (@usbProcessIncoming sample_build sample_defines 1001 0
               (@initial_globals sample_defines))
            (keyed_device [import_media_start_request])
          = [did usbRawHidRecv (2, import_media_start_request);
             did userViewDelay tt;
             did (readStoredStringToBuffer 11) [];
             did (readStoredStringToBuffer 12) [];
             did (eeprom_read_byte 1000) 171;
             did (guiAskForConfirmation 2 [[]; []]) 0]
            ++ did (eeprom_read_block 1001 62) (body import_media_start_request)
            :: skipn 7
                 (events sample_env
                    (@usbProcessIncoming sample_build sample_defines 1001 0
                       (@initial_globals sample_defines))
                    (keyed_device [import_media_start_request]))) as H
    by (vm_compute; reflexivity).
  split; [exact H |].
  destruct (@stored_password_read_only_after_delay_and_confirmation
              sample_build sample_defines firmware sample_env 1001%nat 0
              (@initial_globals sample_defines)
              (keyed_device [import_media_start_request]) _ _ 1001 62
              (body import_media_start_request) H) as [Hc | (Ha & _)];
    [left; exact Hc | right; exact Ha].
Defined.

(* ===================================================================== *)
(** ** The staging buffer and the media import *)
(* ===================================================================== *)

(** X15: the staging buffer of the flash is loaded, written or flushed
    to a page only on WRITE_FLASH_NODE, IMPORT_MEDIA and IMPORT_MEDIA_END
    packets. *)
Theorem flash_buffer_touched_only_by_node_write_and_media_import
    {B : build} {D : defines} {W : Type} (env : environment W)
    (fuel : nat) (caller_id : Z) (g : globals) (w : W) (c : call) :
  let r := run env (usbProcessIncoming fuel caller_id g) w in
  let msg := snd (fst (env usbRawHidRecv w)) in
  In c (trace r) ->
  touches_flash_buffer c = true ->
  cmd msg = cmd_code WRITE_FLASH_NODE \/ cmd msg = cmd_code IMPORT_MEDIA
  \/ cmd msg = cmd_code IMPORT_MEDIA_END.
Proof.
  cbv zeta. intros Hin Hc. rewrite <- calls_of_events in Hin.
  apply in_map_iff in Hin. destruct Hin as (e & He & Hin).
  apply in_split in Hin. destruct Hin as (before & after & Hl).
  assert (recorded e = true) as Hr
    by (unfold recorded; rewrite He; destruct c; try reflexivity; discriminate Hc).
  pose proof (usbProcessIncoming_needs env fuel caller_id g w _ _ _ Hl Hr) as H.
  cbv zeta in H. rewrite He in H. destruct c; try discriminate Hc; cbn [needs] in H.
  - destruct H as (L & _). apply switch_label_cmd in L. left. apply L.
  - destruct H as [L | (L & _)]; apply switch_label_cmd in L;
      [left | right; left]; apply L.
  - destruct H as [L | [(L & _) | (L & _)]]; apply switch_label_cmd in L;
      [left | right; left | right; right]; apply L.
Qed.

Lemma flash_buffer_touched_only_by_node_write_and_media_import_witness :
  In (loadPageToInternalBuffer 2)
     (trace (run sample_env
               (@usbProcessIncoming sample_build sample_defines 0 0
                  approved_globals)
               (sample_firmware node_17_packets)))
  /\ touches_flash_buffer (loadPageToInternalBuffer 2) = true
  /\ (cmd (hd no_msg node_17_packets) = @cmd_code sample_defines WRITE_FLASH_NODE
      \/ cmd (hd no_msg node_17_packets) = @cmd_code sample_defines IMPORT_MEDIA
      \/ cmd (hd no_msg node_17_packets)
         = @cmd_code sample_defines IMPORT_MEDIA_END).
Proof.
  assert (In (loadPageToInternalBuffer 2)
            (trace (run sample_env
                      (@usbProcessIncoming sample_build sample_defines 0 0
                         approved_globals)
                      (sample_firmware node_17_packets)))) as H
    by (right; right; left; reflexivity).
  split; [exact H |]. split; [reflexivity |].
  exact (@flash_buffer_touched_only_by_node_write_and_media_import
           sample_build sample_defines firmware sample_env 0%nat 0
           approved_globals (sample_firmware node_17_packets)
           (loadPageToInternalBuffer 2) H eq_refl).
Defined.

(** X16: for well-formed constants, a call that returns leaves
    [mediaFlashImportApproved] as it was or FALSE, unless the packet is an
    IMPORT_MEDIA_START that the code approved: in a development build; or,
    after the delay and for a packet of the length of a password, when no
    bootloader password is set or the packet holds it and the user
    approved. *)
Theorem media_import_approved_only_through_start
    {B : build} {D : defines} {W : Type} (env : environment W)
    (fuel : nat) (caller_id : Z) (g g' : globals) (w : W) :
  let r := run env (usbProcessIncoming fuel caller_id g) w in
  let log := events env (usbProcessIncoming fuel caller_id g) w in
  let msg := snd (fst (env usbRawHidRecv w)) in
  wf_defines D ->
  outcome r = Returned g' ->
  mediaFlashImportApproved g' = mediaFlashImportApproved g
  \/ mediaFlashImportApproved g' = FALSE
  \/ (cmd msg = cmd_code IMPORT_MEDIA_START
      /\ mediaFlashImportApproved g' = TRUE
      /\ import_approved msg log).
Proof.
  cbv zeta. intros WF Ho.
  destruct (usbProcessIncoming_handled env fuel caller_id g w) as (_ & _ & H).
  rewrite Ho in H. destruct H as (_ & _ & H).
  destruct H as [(H & _) | [(L & _ & _ & H) | [(L & H) | (L & H & _)]]].
  - left. exact H.
  - destruct H as [H | (H & Ha)]; [left; exact H | right; right].
    rewrite (seen_by_switch_other WF _ _ L eq_refl) in Ha.
    apply switch_label_cmd in L.
    repeat split; [apply L | exact H |].
    exact (import_approved_incl _ _ _ (recorded_incl _) Ha).
  - destruct H as [(H & _) | (H & _)]; [right; left | left]; exact H.
  - right. left. exact H.
Qed.

Lemma media_import_approved_only_through_start_witness :
  wf_defines sample_defines
  /\ outcome (run sample_env
                (@usbProcessIncoming sample_build sample_defines 1001 0
                   (@initial_globals sample_defines))
                (keyed_device [import_media_start_request]))
     = Returned (set_mediaFlashImportApproved 1 (@initial_globals sample_defines))
  /\ @import_approved sample_build sample_defines import_media_start_request
       (events sample_env
          (@usbProcessIncoming sample_build sample_defines 1001 0
             (@initial_globals sample_defines))
          (keyed_device [import_media_start_request])).
Proof.
  assert (outcome (run sample_env
                     (@usbProcessIncoming sample_build sample_defines 1001 0
                        (@initial_globals sample_defines))
                     (keyed_device [import_media_start_request]))
          = Returned (set_mediaFlashImportApproved 1
                        (@initial_globals sample_defines))) as Ho
    by (vm_compute; reflexivity).
  split; [exact sample_defines_wf |]. split; [exact Ho |].
  destruct (@media_import_approved_only_through_start sample_build
              sample_defines firmware sample_env 1001%nat 0
              (@initial_globals sample_defines)
              (set_mediaFlashImportApproved 1 (@initial_globals sample_defines))
              (keyed_device [import_media_start_request])
              sample_defines_wf Ho) as [H | [H | (_ & _ & H)]].
  - discriminate H.
  - discriminate H.
  - exact H.
Defined.

Section MediaImport.

Context {B : build} {D : defines}.

(** The pages are small enough for the offset not to wrap. *)
Hypothesis page_size : 0 < BYTES_PER_PAGE <= 65280.

Lemma uint16_small (x : Z) : 0 <= x < 65536 -> uint16 x = x.
Proof. intro H. unfold uint16. apply Z.mod_small. exact H. Qed.

(** One IMPORT_MEDIA packet keeps the invariant of the import. *)
Lemma import_step_inv (msg : usbMsg) (g g' : globals) :
  0 <= len msg < 256 -> import_inv g -> import_step msg g g' -> import_inv g'.
Proof.
  intros Hlen [Ho Hp] [(Ha & Hpg & Hof) | (Ha & Hn & Hlt & Hle & H)].
  - split; [rewrite Hof; exact Ho |]. intros Hn. contradiction.
  - rewrite uint16_small in * by lia.
    destruct H as [(Hne & Hof & Hpg) | (He & Hof & Hpg)]; split.
    + rewrite Hof. lia.
    + intros _ _. rewrite Hpg. exact Hlt.
    + rewrite Hof. lia.
    + intros _ Hz. rewrite Hof in Hz. contradiction.
Qed.

Lemma import_effect_inv (label : option cmd_name) (msg : usbMsg)
    (g g' : globals) (obs : list event) :
  0 <= len msg < 256 -> import_inv g -> import_effect label msg g g' obs ->
  import_inv g'.
Proof.
  intros Hlen Hi [(Ha & Hp & Ho) | [(L & Hp & Ho & _) | [(L & H) | (L & Ha & Hp & Ho)]]].
  - destruct Hi as [H1 H2]. split; [rewrite Ho; exact H1 |].
    rewrite Ha, Hp, Ho. exact H2.
  - split; [rewrite Ho; lia |]. intros _ Hz. contradiction.
  - exact (import_step_inv msg g g' Hlen Hi H).
  - destruct Hi as [H1 H2]. split; [rewrite Ho; exact H1 |].
    intro Hn. contradiction.
Qed.

End MediaImport.

(** The first event of a call of the dispatcher is the reception. *)
Lemma received_first {B : build} {D : defines} {W : Type} (env : environment W)
    (fuel : nat) (caller_id : Z) (g : globals) (w : W) :
  In (did usbRawHidRecv (fst (env usbRawHidRecv w)))
     (events env (usbProcessIncoming fuel caller_id g) w).
Proof.
  unfold usbProcessIncoming. cbn [bind do_call events]. left. reflexivity.
Qed.

(** X17: for pages of at most 65280 bytes and packets whose length field
    is a byte, any number of calls of [usbProcessIncoming] in a row keep the
    invariant of the media import: the offset stays within the page, and
    while the import is approved and bytes wait in the staging buffer, the
    page is below the end of the graphics zone. *)
Theorem media_import_keeps_its_invariant
    {B : build} {D : defines} {W : Type} (env : environment W)
    (fuel : nat) (caller_id : Z) (n : nat) :
  0 < BYTES_PER_PAGE <= 65280 ->
  forall (g g' : globals) (w : W),
  import_inv g ->
  forallb byte_packet
    (events env (usbProcessIncoming_times fuel caller_id n g) w) = true ->
  outcome (run env (usbProcessIncoming_times fuel caller_id n g) w) = Returned g' ->
  import_inv g'.
Proof.
  intros Hps. induction n as [| n IH]; intros g g' w Hi Hb Ho.
  - cbn in Ho. injection Ho as <-. exact Hi.
  - cbn [usbProcessIncoming_times] in Ho, Hb.
    rewrite run_bind in Ho. rewrite events_bind in Hb.
    unfold and_so in Ho.
    destruct (outcome (run env (usbProcessIncoming fuel caller_id g) w))
      as [g1 | |] eqn:Ho1; cbn [outcome] in Ho; try discriminate Ho.
    rewrite forallb_app in Hb. apply andb_true_iff in Hb. destruct Hb as [Hb1 Hb2].
    refine (IH g1 g' _ _ Hb2 Ho).
    destruct (usbProcessIncoming_handled env fuel caller_id g w) as (_ & _ & H).
    rewrite Ho1 in H. destruct H as (_ & _ & H).
    refine (import_effect_inv Hps _ _ g g1 _ _ Hi H).
    rewrite len_seen_by_switch.
    pose proof (proj1 (forallb_forall _ _) Hb1 _
                  (received_first env fuel caller_id g w)) as Hp.
    cbn [byte_packet did] in Hp. apply andb_true_iff in Hp.
    destruct Hp as [Hp1 Hp2]. apply Z.leb_le in Hp1. apply Z.ltb_lt in Hp2.
    split; assumption.
Qed.

Lemma media_import_keeps_its_invariant_witness :
  0 < @BYTES_PER_PAGE sample_defines <= 65280
  /\ @import_inv sample_defines (@initial_globals sample_defines)
  /\ forallb byte_packet
       (events sample_env
          (@usbProcessIncoming_times sample_build sample_defines 1001 0 2
             (@initial_globals sample_defines))
          (keyed_device [import_media_start_request; import_media_request]))
     = true
  /\ outcome (run sample_env
                (@usbProcessIncoming_times sample_build sample_defines 1001 0 2
                   (@initial_globals sample_defines))
                (keyed_device [import_media_start_request; import_media_request]))
     = Returned (set_mediaFlashImportOffset 62
                   (set_mediaFlashImportApproved 1
                      (@initial_globals sample_defines)))
  /\ @import_inv sample_defines
       (set_mediaFlashImportOffset 62
          (set_mediaFlashImportApproved 1 (@initial_globals sample_defines))).
Proof.
  assert (0 < @BYTES_PER_PAGE sample_defines <= 65280) as Hp
    by (split; [reflexivity | discriminate]).
  assert (@import_inv sample_defines (@initial_globals sample_defines)) as Hi.
  { split; [split; [discriminate | reflexivity] |].
    intros _ H. exfalso. apply H. reflexivity. }
  assert (forallb byte_packet
            (events sample_env
               (@usbProcessIncoming_times sample_build sample_defines 1001 0 2
                  (@initial_globals sample_defines))
               (keyed_device [import_media_start_request; import_media_request]))
          = true) as Hb by (vm_compute; reflexivity).
  assert (outcome (run sample_env
                     (@usbProcessIncoming_times sample_build sample_defines
                        1001 0 2 (@initial_globals sample_defines))
                     (keyed_device
                        [import_media_start_request; import_media_request]))
          = Returned (set_mediaFlashImportOffset 62
                        (set_mediaFlashImportApproved 1
                           (@initial_globals sample_defines)))) as Ho
    by (vm_compute; reflexivity).
  split; [exact Hp |]. split; [exact Hi |]. split; [exact Hb |].
  split; [exact Ho |].
  exact (@media_import_keeps_its_invariant sample_build sample_defines firmware
           sample_env 1001%nat 0 2%nat Hp _ _ _ Hi Hb Ho).
Defined.

(** X18: under that invariant, what IMPORT_MEDIA and IMPORT_MEDIA_END
    write stays in bounds: the bytes of the packet go to the staging buffer
    at the current offset and end within the page, and the staging buffer is
    flushed to the current page only, a page below the end of the graphics
    zone. *)
Theorem media_import_writes_stay_in_the_page_and_the_zone
    {B : build} {D : defines} {W : Type} (env : environment W)
    (fuel : nat) (caller_id : Z) (g : globals) (w : W) :
  let r := run env (usbProcessIncoming fuel caller_id g) w in
  let msg := snd (fst (env usbRawHidRecv w)) in
  wf_defines D ->
  0 < BYTES_PER_PAGE <= 65280 ->
  0 <= len msg < 256 ->
  import_inv g ->
  cmd msg = cmd_code IMPORT_MEDIA \/ cmd msg = cmd_code IMPORT_MEDIA_END ->
  (forall data offset size,
     In (flashWriteBuffer data offset size) (trace r) ->
     offset = mediaFlashImportOffset g /\ size = len msg
     /\ 0 <= offset /\ offset + size <= BYTES_PER_PAGE)
  /\ (forall page,
        In (flashWriteBufferToPage page) (trace r) ->
        page = mediaFlashImportPage g /\ page < GRAPHIC_ZONE_PAGE_END).
Proof.
  cbv zeta. intros WF Hps Hlen [Ho Hz] Hc.
  assert (switch_label (cmd (snd (fst (env usbRawHidRecv w)))) = Some IMPORT_MEDIA
          \/ switch_label (cmd (snd (fst (env usbRawHidRecv w))))
             = Some IMPORT_MEDIA_END) as L.
  { destruct Hc as [-> | ->]; [left | right];
      apply (switch_label_code WF); reflexivity. }
  assert (forall c, In c (trace (run env (usbProcessIncoming fuel caller_id g) w)) ->
            is_poll c = false ->
            exists before,
              needs (switch_label (cmd (snd (fst (env usbRawHidRecv w)))))
                (seen_by_switch (snd (fst (env usbRawHidRecv w)))) g c
                (rev (filter recorded before) ++ [])) as Hneeds.
  { intros c Hin Hp. rewrite <- calls_of_events in Hin.
    apply in_map_iff in Hin. destruct Hin as (e & He & Hin).
    apply in_split in Hin. destruct Hin as (before & after & Hl).
    exists before. rewrite <- He.
    apply (usbProcessIncoming_needs env fuel caller_id g w _ _ _ Hl).
    unfold recorded. rewrite He, Hp. reflexivity. }
  split.
  - intros data offset size Hin.
    destruct (Hneeds _ Hin eq_refl) as (before & H). cbn [needs] in H.
    destruct H as [H | (_ & -> & -> & Hn & Hlt & Hle)].
    + destruct L as [L | L]; rewrite L in H; discriminate H.
    + rewrite len_seen_by_switch in *. unfold uint16 in Hle.
      rewrite Z.mod_small in Hle by lia. repeat split; lia.
  - intros page Hin.
    destruct (Hneeds _ Hin eq_refl) as (before & H). cbn [needs] in H.
    destruct H as [H | [(_ & -> & Hn & Hlt) | (_ & -> & Ht & Hnz)]].
    + destruct L as [L | L]; rewrite L in H; discriminate H.
    + split; [reflexivity | exact Hlt].
    + split; [reflexivity |]. apply Hz; [| exact Hnz].
      rewrite Ht. apply (wf_TRUE_FALSE D WF).
Qed.

Lemma media_import_writes_stay_in_the_page_and_the_zone_witness :
  wf_defines sample_defines
  /\ 0 < @BYTES_PER_PAGE sample_defines <= 65280
  /\ 0 <= len import_media_request < 256
  /\ @import_inv sample_defines importing_globals
  /\ cmd import_media_request = @cmd_code sample_defines IMPORT_MEDIA
  /\ In (flashWriteBufferToPage 5)
        (trace (run sample_env
                  (@usbProcessIncoming sample_build sample_defines 0 0
                     importing_globals)
                  (sample_firmware [import_media_request])))
  /\ 5 < @GRAPHIC_ZONE_PAGE_END sample_defines.
Proof.
  assert (0 < @BYTES_PER_PAGE sample_defines <= 65280) as Hp
    by (split; [reflexivity | discriminate]).
  assert (0 <= len import_media_request < 256) as Hl
    by (split; [discriminate | reflexivity]).
  assert (@import_inv sample_defines importing_globals) as Hi.
  { split; [split; [discriminate | reflexivity] |]. intros _ _. reflexivity. }
  assert (In (flashWriteBufferToPage 5)
            (trace (run sample_env
                      (@usbProcessIncoming sample_build sample_defines 0 0
                         importing_globals)
                      (sample_firmware [import_media_request])))) as Hin
    by (right; right; left; reflexivity).
  split; [exact sample_defines_wf |]. split; [exact Hp |]. split; [exact Hl |].
  split; [exact Hi |]. split; [reflexivity |]. split; [exact Hin |].
  exact (proj2 (proj2
           (@media_import_writes_stay_in_the_page_and_the_zone sample_build
              sample_defines firmware sample_env 0%nat 0 importing_globals
              (sample_firmware [import_media_request])
              sample_defines_wf Hp Hl Hi (or_introl eq_refl))
           5 Hin)).
Defined.

(* ===================================================================== *)
(** ** Unknown commands *)
(* ===================================================================== *)

(** X19: a packet whose command has no case in the switch of this build,
    and that passes the checks before the switch, is dropped: nothing is
    called but the reception, nothing is sent, and the globals are as they
    were. *)
Theorem unknown_command_is_dropped
    {B : build} {D : defines} {W : Type} (env : environment W)
    (fuel : nat) (caller_id : Z) (g : globals) (w w1 : W) (msg : usbMsg) :
  wf_defines D ->
  receives env w msg w1 ->
  caller_id <> USB_CALLER_PIN ->
  cmd msg <> cmd_code MOOLTIPASS_STATUS ->
  switch_label (cmd msg) = None ->
  (forall max, max_text_size (cmd msg) = Some max ->
               text_field_ok (body msg) (len msg) max) ->
  mode_allows msg g ->
  run env (usbProcessIncoming fuel caller_id g) w
  = {| outcome := Returned g; world := w1; trace := [usbRawHidRecv] |}.
Proof.
  intros WF Hrecv Hpin Hst L Htext Hm.
  rewrite (run_usbProcessIncoming env fuel caller_id g w w1 msg Hrecv).
  apply Z.eqb_neq in Hpin, Hst. rewrite Hpin, Hst. cbn [orb].
  assert (forall msg', cmd msg' = cmd msg ->
            run env (check_mode_and_process fuel msg' g) w1
            = {| outcome := Returned g; world := w1; trace := [] |}) as Hgate.
  { intros msg' Hc. unfold check_mode_and_process, mode_allows in *. cbv zeta.
    rewrite Hc, Hm. unfold process_command, switch_datacmd. rewrite Hc, L.
    reflexivity. }
  unfold process_message. cbv zeta.
  destruct (max_text_size (cmd msg)) as [max |] eqn:Hmax.
  - rewrite (checkTextField_accepts _ _ _ (Htext max eq_refl)).
    cbn [fst snd]. rewrite (OK_eqb_NOK WF), Hgate by reflexivity. reflexivity.
  - rewrite Hgate by reflexivity. reflexivity.
Qed.

Lemma unknown_command_is_dropped_witness :
  wf_defines sample_defines
  /\ @receives sample_defines firmware sample_env
       (sample_firmware [unknown_request]) unknown_request (sample_firmware [])
  /\ 0 <> @USB_CALLER_PIN sample_defines
  /\ cmd unknown_request <> @cmd_code sample_defines MOOLTIPASS_STATUS
  /\ @switch_label sample_build sample_defines (cmd unknown_request) = None
  /\ (forall max,
        @max_text_size sample_defines (cmd unknown_request) = Some max ->
        @text_field_ok sample_defines (body unknown_request)
          (len unknown_request) max)
  /\ @mode_allows sample_defines unknown_request approved_globals
  /\ run sample_env
       (@usbProcessIncoming sample_build sample_defines 0 0 approved_globals)
       (sample_firmware [unknown_request])
     = {| outcome := Returned approved_globals; world := sample_firmware [];
          trace := [usbRawHidRecv] |}.
Proof.
  assert (0 <> @USB_CALLER_PIN sample_defines) as Hpin by discriminate.
  assert (cmd unknown_request <> @cmd_code sample_defines MOOLTIPASS_STATUS)
    as Hst by discriminate.
  assert (forall max,
            @max_text_size sample_defines (cmd unknown_request) = Some max ->
            @text_field_ok sample_defines (body unknown_request)
              (len unknown_request) max) as Ht
    by (intros max H; discriminate H).
  split; [exact sample_defines_wf |]. split; [reflexivity |].
  split; [exact Hpin |]. split; [exact Hst |]. split; [reflexivity |].
  split; [exact Ht |]. split; [reflexivity |].
  exact (@unknown_command_is_dropped sample_build sample_defines firmware
           sample_env 0%nat 0 approved_globals
           (sample_firmware [unknown_request]) (sample_firmware [])
           unknown_request sample_defines_wf eq_refl Hpin Hst eq_refl Ht
           eq_refl).
Defined.

(** X20: in approved memory management mode, an END_MEMORYMGMT packet
    followed by a packet in the data management range: the first is answered
    PLUGIN_BYTE_OK, the second PLUGIN_BYTE_ERROR under its own command, and
    the globals after the two calls are those END_MEMORYMGMT left. *)
Theorem data_management_is_refused_again_after_end
    {B : build} {D : defines} {W : Type} (env : environment W)
    (fuel : nat) (caller_id : Z) (g : globals) (w w1 : W) (msg1 : usbMsg) :
  wf_defines D ->
  caller_id <> USB_CALLER_PIN ->
  receives env w msg1 w1 ->
  cmd msg1 = cmd_code END_MEMORYMGMT ->
  memoryManagementModeApproved g = TRUE ->
  let r1 := run env (usbProcessIncoming fuel caller_id g) w in
  forall (msg2 : usbMsg) (w2 : W),
  receives env (world r1) msg2 w2 ->
  in_datamgmt_range (cmd msg2) = true ->
  cmd msg2 <> cmd_code MOOLTIPASS_STATUS ->
  let r := run env (usbProcessIncoming_times fuel caller_id 2 g) w in
  outcome r
  = Returned (leaveMemoryManagementMode (set_currentNodeWritten NODE_ADDR_NULL g))
  /\ answers (trace r)
     = [usbSendMessage (cmd msg1) 1 [PLUGIN_BYTE_OK];
        usbSendMessage (cmd msg2) 1 [PLUGIN_BYTE_ERROR]].
Proof.
  intros WF Hpin Hr1 E1 Hm. cbv zeta. intros msg2 w2 Hr2 Hrange Hst.
  cbn [usbProcessIncoming_times]. rewrite run_bind.
  assert (run env (usbProcessIncoming fuel caller_id g) w
          = after usbRawHidRecv
              (run env (eg <- case_of fuel END_MEMORYMGMT msg1 g ;; trailer msg1 eg) w1))
    as H1.
  { apply (run_to_case WF env fuel caller_id END_MEMORYMGMT msg1 g w w1);
      try assumption; try reflexivity.
    apply (approved_mode_allows WF). exact Hm. }
  cbn [case_of] in H1. unfold case_END_MEMORYMGMT in H1.
  cbn [bind do_call trailer break_with fst snd run] in H1.
  unfold after in H1. cbn [outcome world trace] in H1.
  rewrite H1 in Hr2 |- *. cbn [world] in Hr2.
  unfold and_so. cbn [outcome world trace].
  rewrite run_bind.
  rewrite (run_usbProcessIncoming env fuel caller_id _ _ w2 msg2 Hr2).
  apply Z.eqb_neq in Hpin, Hst. rewrite Hpin, Hst. cbn [orb].
  rewrite (run_process_message_refused env fuel msg2 _ w2 Hrange)
    by reflexivity.
  unfold and_so, after. cbn [outcome world trace run app answers filter is_answer].
  split; reflexivity.
Qed.

Lemma data_management_is_refused_again_after_end_witness :
  wf_defines sample_defines
  /\ 0 <> @USB_CALLER_PIN sample_defines
  /\ @receives sample_defines firmware sample_env
       (sample_firmware [end_memorymgmt_request; read_node_request])
       end_memorymgmt_request (sample_firmware [read_node_request])
  /\ cmd end_memorymgmt_request = @cmd_code sample_defines END_MEMORYMGMT
  /\ memoryManagementModeApproved writing_globals = @TRUE sample_defines
  /\ @receives sample_defines firmware sample_env
       (world (run sample_env
                 (@usbProcessIncoming sample_build sample_defines 0 0
                    writing_globals)
                 (sample_firmware [end_memorymgmt_request; read_node_request])))
       read_node_request (sample_firmware [])
  /\ @in_datamgmt_range sample_defines (cmd read_node_request) = true
  /\ cmd read_node_request <> @cmd_code sample_defines MOOLTIPASS_STATUS
  /\ answers
       (trace (run sample_env
                 (@usbProcessIncoming_times sample_build sample_defines 0 0 2
                    writing_globals)
                 (sample_firmware [end_memorymgmt_request; read_node_request])))
     = [usbSendMessage 211 1 [1]; usbSendMessage 197 1 [0]].
Proof.
  assert (0 <> @USB_CALLER_PIN sample_defines) as Hpin by discriminate.
  assert (cmd read_node_request <> @cmd_code sample_defines MOOLTIPASS_STATUS)
    as Hst by discriminate.
  split; [exact sample_defines_wf |]. split; [exact Hpin |].
  split; [reflexivity |]. split; [reflexivity |]. split; [reflexivity |].
  split; [reflexivity |]. split; [reflexivity |]. split; [exact Hst |].
  exact (proj2
           (@data_management_is_refused_again_after_end sample_build
              sample_defines firmware sample_env 0%nat 0 writing_globals
              (sample_firmware [end_memorymgmt_request; read_node_request])
              (sample_firmware [read_node_request]) end_memorymgmt_request
              sample_defines_wf Hpin eq_refl eq_refl eq_refl
              read_node_request (sample_firmware []) eq_refl eq_refl Hst)).
Defined.

(* ===================================================================== *)
(** ** Text fields *)
(* ===================================================================== *)

Lemma tolower_not_upper (c : Z) : is_upper (tolower c) = false.
Proof.
  unfold tolower, is_upper. destruct ((65 <=? c) && (c <=? 90)) eqn:E.
  - apply andb_true_iff in E. destruct E as [E1 E2].
    apply Z.leb_le in E1. apply Z.leb_le in E2.
    apply andb_false_iff. right. apply Z.leb_gt. lia.
  - exact E.
Qed.

Lemma tolower_tolower (c : Z) : tolower (tolower c) = tolower c.
Proof.
  pose proof (tolower_not_upper c) as H. unfold is_upper in H.
  unfold tolower at 1. rewrite H. reflexivity.
Qed.

Lemma lowerCaseString_idempotent (data : list Z) :
  lowerCaseString (lowerCaseString data) = lowerCaseString data.
Proof.
  induction data as [| c t IH]; [reflexivity |].
  cbn [lowerCaseString]. destruct (c =? 0) eqn:E; cbn [lowerCaseString].
  - rewrite E. reflexivity.
  - rewrite tolower_zero, E, tolower_tolower, IH. reflexivity.
Qed.

(** X21: [lowerCaseString] keeps the length of the buffer and of the
    string in it, replaces the bytes before the first zero byte by their
    lower case, leaves the bytes from the zero byte on as they were, leaves
    no upper case letter in the string, and changes nothing when applied
    again. *)
Theorem lowerCaseString_lowers_the_string_and_nothing_else (data : list Z) :
  let n := Z.to_nat (strlen data) in
  length (lowerCaseString data) = length data
  /\ strlen (lowerCaseString data) = strlen data
  /\ firstn n (lowerCaseString data) = map tolower (firstn n data)
  /\ skipn n (lowerCaseString data) = skipn n data
  /\ forallb (fun c => negb (is_upper c)) (firstn n (lowerCaseString data)) = true
  /\ lowerCaseString (lowerCaseString data) = lowerCaseString data.
Proof.
  cbv zeta.
  split; [apply lowerCaseString_length |].
  split; [apply strlen_lowerCaseString |].
  assert (forall d,
            firstn (Z.to_nat (strlen d)) (lowerCaseString d)
            = map tolower (firstn (Z.to_nat (strlen d)) d)
            /\ skipn (Z.to_nat (strlen d)) (lowerCaseString d)
               = skipn (Z.to_nat (strlen d)) d) as H.
  { induction d as [| c t [IH1 IH2]]; [split; reflexivity |].
    cbn [strlen lowerCaseString]. destruct (c =? 0) eqn:E.
    - split; reflexivity.
    - pose proof (strlen_nonneg t).
      replace (Z.to_nat (1 + strlen t)) with (S (Z.to_nat (strlen t))) by lia.
      cbn [firstn skipn map]. rewrite IH1. split; [reflexivity | exact IH2]. }
  destruct (H data) as [H1 H2].
  split; [exact H1 |]. split; [exact H2 |].
  split; [| apply lowerCaseString_idempotent].
  rewrite H1. apply forallb_forall. intros x Hin.
  apply in_map_iff in Hin. destruct Hin as (c & <- & _).
  rewrite tolower_not_upper. reflexivity.
Qed.

(** X22: [checkTextField] answers RETURN_OK or RETURN_NOK; a refused
    field is left as it was; an accepted one keeps its length and the length
    of its string; and checking the resulting buffer again gives the same
    verdict and the same buffer (RETURN_OK and RETURN_NOK being different
    values). *)
Theorem checkTextField_is_stable
    {D : defines} (data : list Z) (len max_len : Z) :
  RETURN_OK <> RETURN_NOK ->
  let verdict := fst (checkTextField data len max_len) in
  let data' := snd (checkTextField data len max_len) in
  (verdict = RETURN_OK \/ verdict = RETURN_NOK)
  /\ (verdict = RETURN_NOK -> data' = data)
  /\ length data' = length data
  /\ strlen data' = strlen data
  /\ checkTextField data' len max_len = (verdict, data').
Proof.
  intro Hne. cbv zeta.
  destruct (checkTextField data len max_len) as [v d] eqn:Hc. cbn [fst snd].
  unfold checkTextField in Hc.
  destruct ((len >? max_len) || (len =? 0) || negb (len =? strlen data + 1)
            || (len >? RAWHID_RX_SIZE - HID_DATA_START)) eqn:E.
  - injection Hc as <- <-. repeat split; auto.
    unfold checkTextField. rewrite E. reflexivity.
  - destruct (max_len =? NODE_PARENT_SIZE_OF_SERVICE) eqn:Es;
      injection Hc as <- <-; repeat split; auto;
      try (intro H; exfalso; exact (Hne H)).
    + apply lowerCaseString_length.
    + apply strlen_lowerCaseString.
    + unfold checkTextField.
      rewrite strlen_lowerCaseString, E, Es, lowerCaseString_idempotent.
      reflexivity.
    + unfold checkTextField. rewrite E, Es. reflexivity.
Qed.

Lemma checkTextField_is_stable_witness :
  @RETURN_OK sample_defines <> @RETURN_NOK sample_defines
  /\ @checkTextField sample_defines
       (snd (@checkTextField sample_defines [71; 105; 116; 72; 117; 98; 0] 7 121))
       7 121
     = (@RETURN_OK sample_defines, [103; 105; 116; 104; 117; 98; 0]).
Proof.
  assert (@RETURN_OK sample_defines <> @RETURN_NOK sample_defines) as Hne
    by discriminate.
  split; [exact Hne |].
  exact (proj2 (proj2 (proj2 (proj2
           (@checkTextField_is_stable sample_defines
              [71; 105; 116; 72; 117; 98; 0] 7 121 Hne))))).
Defined.

(* ===================================================================== *)
(** ** The touch sensor *)
(* ===================================================================== *)

Section TouchSensingFacts.

Context {D : defines} {TD : touch_defines} {T : Type}.
Variable readDataFromTS : Z -> Z -> T -> Z * Z * T.

(** [checkTSPres] in terms of what the read of the chip id gave. *)
Lemma checkTSPres_cases (ts : T) :
  let r := readDataFromTS AT42QT2120_ADDR REG_AT42QT_CHIP_ID ts in
  checkTSPres readDataFromTS ts
  = (if negb (fst (fst r) =? RETURN_OK) then fst (fst r)
     else if negb (snd (fst r) =? AT42QT2120_ID) then RETURN_NOK else RETURN_OK,
     snd r).
Proof.
  cbv zeta. unfold checkTSPres.
  destruct (readDataFromTS AT42QT2120_ADDR REG_AT42QT_CHIP_ID ts) as [[rc b] ts'].
  cbn [fst snd]. destruct (negb (rc =? RETURN_OK)); [reflexivity |].
  destruct (negb (b =? AT42QT2120_ID)); reflexivity.
Qed.

End TouchSensingFacts.

(** X23: [checkTSPres] answers RETURN_OK exactly when the read of the chip
    id register succeeded and gave the id of the AT42QT2120; a failed read
    is reported with its own return code; the sensor is left as the read
    left it. *)
Theorem checkTSPres_accepts_only_the_chip_id
    {D : defines} {TD : touch_defines} {T : Type}
    (readDataFromTS : Z -> Z -> T -> Z * Z * T) (ts : T) :
  RETURN_OK <> RETURN_NOK ->
  let r := readDataFromTS AT42QT2120_ADDR REG_AT42QT_CHIP_ID ts in
  (fst (checkTSPres readDataFromTS ts) = RETURN_OK
   <-> fst (fst r) = RETURN_OK /\ snd (fst r) = AT42QT2120_ID)
  /\ (fst (fst r) <> RETURN_OK ->
      fst (checkTSPres readDataFromTS ts) = fst (fst r))
  /\ snd (checkTSPres readDataFromTS ts) = snd r.
Proof.
  intro Hne. cbv zeta. rewrite checkTSPres_cases. cbn [fst snd].
  destruct (readDataFromTS AT42QT2120_ADDR REG_AT42QT_CHIP_ID ts) as [[rc b] ts'].
  cbn [fst snd].
  destruct (rc =? RETURN_OK) eqn:E1; cbn [negb];
    [apply Z.eqb_eq in E1 | apply Z.eqb_neq in E1];
    [destruct (b =? AT42QT2120_ID) eqn:E2; cbn [negb];
       [apply Z.eqb_eq in E2 | apply Z.eqb_neq in E2] |];
    intuition congruence.
Qed.

Lemma checkTSPres_accepts_only_the_chip_id_witness :
  @RETURN_OK sample_defines <> @RETURN_NOK sample_defines
  /\ fst (@checkTSPres sample_defines sample_touch_defines (Z -> Z)
            register_read touched_wheel)
     = @RETURN_OK sample_defines.
Proof.
  assert (@RETURN_OK sample_defines <> @RETURN_NOK sample_defines) as Hne
    by discriminate.
  split; [exact Hne |].
  exact (proj2 (proj1
           (@checkTSPres_accepts_only_the_chip_id sample_defines
              sample_touch_defines (Z -> Z) register_read touched_wheel Hne))
           (conj eq_refl eq_refl)).
Defined.

(** X24: [isWheelTouched] answers RETURN_OK exactly when bit 1 of the
    detection status is set, [isButtonTouched] exactly when bit 0 is set and
    bit 1 is not; so the two never answer RETURN_OK on the same status. *)
Theorem wheel_and_button_are_never_both_touched
    {D : defines} {TD : touch_defines} {T : Type}
    (readDataFromTS : Z -> Z -> T -> Z * Z * T) (ts : T) :
  RETURN_OK <> RETURN_NOK ->
  let status := snd (fst (readDataFromTS AT42QT2120_ADDR REG_AT42QT_DET_STAT ts)) in
  (fst (isWheelTouched readDataFromTS ts) = RETURN_OK
   <-> Z.testbit status 1 = true)
  /\ (fst (isButtonTouched readDataFromTS ts) = RETURN_OK
      <-> Z.testbit status 0 = true /\ Z.testbit status 1 = false)
  /\ ~ (fst (isWheelTouched readDataFromTS ts) = RETURN_OK
        /\ fst (isButtonTouched readDataFromTS ts) = RETURN_OK).
Proof.
  intro Hne. cbv zeta. unfold isWheelTouched, isButtonTouched.
  destruct (readDataFromTS AT42QT2120_ADDR REG_AT42QT_DET_STAT ts) as [[rc b] ts'].
  cbn [fst snd].
  assert (forall k, (Z.land b (2 ^ k) =? 0) = negb (Z.testbit b k) \/ k < 0) as Hbit.
  { intro k. destruct (Z.ltb_spec k 0) as [Hk | Hk]; [right; exact Hk | left].
    destruct (Z.testbit b k) eqn:Eb; cbn [negb].
    - apply Z.eqb_neq. intro H.
      assert (Z.testbit (Z.land b (2 ^ k)) k = false) as H' by (rewrite H; apply Z.testbit_0_l).
      rewrite Z.land_spec, Eb, Z.pow2_bits_true in H' by exact Hk. discriminate H'.
    - apply Z.eqb_eq. apply Z.bits_inj'. intros n Hn.
      rewrite Z.land_spec, Z.testbit_0_l.
      destruct (Z.eq_dec n k) as [-> | Hnk].
      + rewrite Eb. reflexivity.
      + rewrite Z.pow2_bits_false by lia. apply andb_false_r. }
  destruct (Hbit 1) as [H1 | H1]; [| lia].
  destruct (Hbit 0) as [H0 | H0]; [| lia].
  change (2 ^ 1) with 2 in H1. change (2 ^ 0) with 1 in H0.
  rewrite H1, H0, !negb_involutive.
  destruct (Z.testbit b 1), (Z.testbit b 0); cbn [negb andb fst];
    intuition congruence.
Qed.

Lemma wheel_and_button_are_never_both_touched_witness :
  @RETURN_OK sample_defines <> @RETURN_NOK sample_defines
  /\ fst (@isWheelTouched sample_defines sample_touch_defines (Z -> Z)
            register_read touched_wheel)
     = @RETURN_OK sample_defines
  /\ (fst (@isButtonTouched sample_defines sample_touch_defines (Z -> Z)
             register_read touched_wheel)
      = @RETURN_OK sample_defines -> False).
Proof.
  assert (@RETURN_OK sample_defines <> @RETURN_NOK sample_defines) as Hne
    by discriminate.
  split; [exact Hne |]. split; [reflexivity |].
  intro Hb.
  exact (proj2 (proj2
           (@wheel_and_button_are_never_both_touched sample_defines
              sample_touch_defines (Z -> Z) register_read touched_wheel Hne))
           (conj eq_refl Hb)).
Defined.

(** X25: built for HARDWARE_V1, [initTouchSensing] answers RETURN_NOK
    and does not touch the sensor; otherwise it answers RETURN_OK exactly
    when the chip id was read and is that of the AT42QT2120, and when it does
    not, no register was written: the sensor is as the read of the chip id
    left it. *)
Theorem initTouchSensing_configures_only_a_present_chip
    {D : defines} {TD : touch_defines} {T : Type}
    (readDataFromTS : Z -> Z -> T -> Z * Z * T)
    (writeDataToTS : Z -> Z -> Z -> T -> Z * T) (ts : T) :
  RETURN_OK <> RETURN_NOK ->
  let rd := readDataFromTS AT42QT2120_ADDR REG_AT42QT_CHIP_ID ts in
  let r := initTouchSensing readDataFromTS writeDataToTS ts in
  (HARDWARE_V1 = true -> r = (RETURN_NOK, ts))
  /\ (HARDWARE_V1 = false ->
      (fst r = RETURN_OK
       <-> fst (fst rd) = RETURN_OK /\ snd (fst rd) = AT42QT2120_ID)
      /\ (fst r <> RETURN_OK -> snd r = snd rd)).
Proof.
  intro Hne. cbv zeta. unfold initTouchSensing.
  split; intro Hv; rewrite Hv; [reflexivity |].
  rewrite checkTSPres_cases. cbn [fst snd].
  destruct (readDataFromTS AT42QT2120_ADDR REG_AT42QT_CHIP_ID ts) as [[rc b] ts'].
  cbn [fst snd].
  destruct (rc =? RETURN_OK) eqn:E1; cbn [negb];
    [apply Z.eqb_eq in E1 | apply Z.eqb_neq in E1].
  - destruct (b =? AT42QT2120_ID) eqn:E2; cbn [negb];
      [apply Z.eqb_eq in E2 | apply Z.eqb_neq in E2].
    + rewrite Z.eqb_refl. cbn [fst snd]. intuition congruence.
    + destruct (RETURN_NOK =? RETURN_OK) eqn:E3;
        [apply Z.eqb_eq in E3; congruence |].
      cbn [fst snd]. intuition congruence.
  - apply Z.eqb_neq in E1. rewrite E1. cbn [fst snd].
    apply Z.eqb_neq in E1. intuition congruence.
Qed.

Lemma initTouchSensing_configures_only_a_present_chip_witness :
  @RETURN_OK sample_defines <> @RETURN_NOK sample_defines
  /\ @HARDWARE_V1 sample_touch_defines = false
  /\ fst (@initTouchSensing sample_defines sample_touch_defines (Z -> Z)
            register_read register_write other_chip)
     <> @RETURN_OK sample_defines
  /\ snd (@initTouchSensing sample_defines sample_touch_defines (Z -> Z)
            register_read register_write other_chip)
     = other_chip.
Proof.
  assert (@RETURN_OK sample_defines <> @RETURN_NOK sample_defines) as Hne
    by discriminate.
  assert (fst (@initTouchSensing sample_defines sample_touch_defines (Z -> Z)
                 register_read register_write other_chip)
          <> @RETURN_OK sample_defines) as Hr by discriminate.
  split; [exact Hne |]. split; [reflexivity |]. split; [exact Hr |].
  exact (proj2 (proj2
           (@initTouchSensing_configures_only_a_present_chip sample_defines
              sample_touch_defines (Z -> Z) register_read register_write
              other_chip Hne) eq_refl) Hr).
Defined.
